(** * h264parse: bit reader, parameter sets, forward and reverse assembly

    A shallow embedding of [gst/h264parse/gsth264parse.c].  C integers are
    [Z] with the wrap-around of their type written out, byte ranges are
    [list Z] (each element in [0, 256)), pointers into the parameter-set
    tables are table indices, and the buffers handed to the source pad are
    collected in an output list. *)

From stdpp Require Import base list numbers gmap.
From Stdlib Require Import ZArith Lia Bool.

Local Open Scope Z_scope.

(** ** C integer types *)

Definition to_guint8 (x : Z) : Z := Z.land x 0xff.
Definition to_guint32 (x : Z) : Z := Z.land x 0xffffffff.
Definition to_guint64 (x : Z) : Z := Z.land x 0xffffffffffffffff.
Definition to_gint (x : Z) : Z := Z.land (x + 0x80000000) 0xffffffff - 0x80000000.

(** ** The bitstream reader [GstNalBs]

    [bs_data] is the range from [bs->data] up to [bs->end]. *)

Record GstNalBs := MkBs {
  bs_data : list Z;
  bs_head : Z;
  bs_cache : Z
}.

Definition gst_nal_bs_init (data : list Z) : GstNalBs :=
  {| bs_data := data; bs_head := 0; bs_cache := 0xffffffff |}.

(** The cache refill loop of [gst_nal_bs_read]: the [while (bs->head < n)]
    with its [next_byte] label.  It returns the data left, the head, the
    cache and the (possibly truncated) [n]. *)
Fixpoint bs_fill (data : list Z) (head cache n : Z) : list Z * Z * Z * Z :=
  if head <? n then
    match data with
    | [] => ([], head, cache, head)
    | byte :: data1 =>
        if (byte =? 0x03) && (Z.land cache 0xffff =? 0) then
          (* check_three_byte = FALSE; goto next_byte *)
          match data1 with
          | [] => ([], head, cache, head)
          | byte' :: data2 =>
              bs_fill data2 (head + 8)
                (to_guint64 (Z.lor (Z.shiftl cache 8) byte')) n
          end
        else
          bs_fill data1 (head + 8)
            (to_guint64 (Z.lor (Z.shiftl cache 8) byte)) n
    end
  else (data, head, cache, n).

(** The tail of [gst_nal_bs_read], after the cache has been filled. *)
Definition bs_extract (data : list Z) (head cache n : Z) : Z * GstNalBs :=
  let shift := head - n in
  let res :=
    if 0 <? shift then to_guint32 (Z.shiftr cache shift)
    else to_guint32 cache in
  let res := if n <? 32 then Z.land res (Z.shiftl 1 n - 1) else res in
  (res, {| bs_data := data; bs_head := shift; bs_cache := cache |}).

Definition gst_nal_bs_read (bs : GstNalBs) (n : Z) : Z * GstNalBs :=
  if n =? 0 then (0, bs)
  else
    let '(data, head, cache, n') :=
      bs_fill (bs_data bs) (bs_head bs) (bs_cache bs) n in
    bs_extract data head cache n'.

Definition gst_nal_bs_eos (bs : GstNalBs) : bool :=
  match bs_data bs with [] => bs_head bs =? 0 | _ :: _ => false end.

(** The zero-counting loop of [gst_nal_bs_read_ue].  [rem] bounds the
    iterations that are left; the source bounds them by [i < 32]. *)
Fixpoint bs_read_ue_loop (rem : nat) (i : Z) (bs : GstNalBs) : Z * GstNalBs :=
  let '(bit, bs1) := gst_nal_bs_read bs 1 in
  if (bit =? 0) && negb (gst_nal_bs_eos bs1) && (i <? 32) then
    match rem with
    | S rem' => bs_read_ue_loop rem' (i + 1) bs1
    | O => (i, bs1)
    end
  else (i, bs1).

(** [1 << i] on the [int] 1.  The loop of [gst_nal_bs_read_ue] leaves [i]
    between 0 and 32.  For [i = 32] C leaves the shift undefined; the shift
    instruction of the compiled code takes its count modulo 32, so that
    [1 << 32] is 1, and the model follows the compiled code. *)
Definition int_shl_1 (i : Z) : Z := to_guint32 (Z.shiftl 1 (Z.land i 31)).

(** [(1 << i) - 1 + gst_nal_bs_read (bs, i)] is computed in 32 bits and
    returned as a [gint]; for [i = 32] it is the 32 bits read. *)
Definition gst_nal_bs_read_ue (bs : GstNalBs) : Z * GstNalBs :=
  let '(i, bs1) := bs_read_ue_loop 32 0 bs in
  let '(r, bs2) := gst_nal_bs_read bs1 i in
  (to_gint (int_shl_1 i - 1 + r), bs2).

(** Successive reads: the results of reading [ns] bits in turn. *)
Fixpoint bs_reads (bs : GstNalBs) (ns : list Z) : list Z :=
  match ns with
  | [] => []
  | n :: ns' => let '(r, bs') := gst_nal_bs_read bs n in r :: bs_reads bs' ns'
  end.

(** ** Reference definitions for the bit reader

    A reader without any emulation-prevention handling: the loop of
    [gst_nal_bs_read] with the [0x03] test taken out. *)
Fixpoint bs_fill_plain (data : list Z) (head cache n : Z)
  : list Z * Z * Z * Z :=
  if head <? n then
    match data with
    | [] => ([], head, cache, head)
    | byte :: data1 =>
        bs_fill_plain data1 (head + 8)
          (to_guint64 (Z.lor (Z.shiftl cache 8) byte)) n
    end
  else (data, head, cache, n).

Definition bs_read_plain (bs : GstNalBs) (n : Z) : Z * GstNalBs :=
  if n =? 0 then (0, bs)
  else
    let '(data, head, cache, n') :=
      bs_fill_plain (bs_data bs) (bs_head bs) (bs_cache bs) n in
    bs_extract data head cache n'.

Fixpoint bs_reads_plain (bs : GstNalBs) (ns : list Z) : list Z :=
  match ns with
  | [] => []
  | n :: ns' =>
      let '(r, bs') := bs_read_plain bs n in r :: bs_reads_plain bs' ns'
  end.

(** The transformed range of the specification: every occurrence of the
    byte sequence [00 00 03] in the range is reduced to [00 00]. *)
Fixpoint ep_reduce (data : list Z) : list Z :=
  match data with
  | [] => []
  | b0 :: data1 =>
      match data1 with
      | b1 :: b2 :: data3 =>
          if (b0 =? 0) && (b1 =? 0) && (b2 =? 0x03)
          then 0 :: 0 :: ep_reduce data3
          else b0 :: ep_reduce data1
      | _ => b0 :: ep_reduce data1
      end
  end.

(** The bytes that [bs_fill] moves into the cache, as a function of the
    cache it starts from. *)
Fixpoint bs_cached_bytes (cache : Z) (data : list Z) : list Z :=
  match data with
  | [] => []
  | byte :: data1 =>
      if (byte =? 0x03) && (Z.land cache 0xffff =? 0) then
        match data1 with
        | [] => []
        | byte' :: data2 =>
            byte' ::
            bs_cached_bytes (to_guint64 (Z.lor (Z.shiftl cache 8) byte')) data2
        end
      else
        byte ::
        bs_cached_bytes (to_guint64 (Z.lor (Z.shiftl cache 8) byte)) data1
  end.

(** Standard unsigned Exp-Golomb encoder: with [k] the number of bits of
    [v + 1] less one, [k] zero bits, a one bit, and the low [k] bits of
    [v + 1]. *)
Fixpoint bits_msb (k : nat) (x : Z) : list bool :=
  match k with
  | O => []
  | S k' => Z.testbit x (Z.of_nat k') :: bits_msb k' x
  end.

Definition ue_encode (v : Z) : list bool :=
  let k := Z.to_nat (Z.log2 (v + 1)) in
  repeat false k ++ [true] ++ bits_msb k (v + 1).

(** Bits packed into bytes, most significant bit first; the last byte is
    padded with zero bits. *)
Fixpoint pack_bits_from (bits : list bool) (acc : Z) (cnt : nat) : list Z :=
  match bits with
  | [] =>
      match cnt with
      | O => []
      | _ => [Z.shiftl acc (8 - Z.of_nat cnt)]
      end
  | b :: bits' =>
      let acc' := 2 * acc + Z.b2z b in
      match cnt with
      | 7%nat => acc' :: pack_bits_from bits' 0 0
      | _ => pack_bits_from bits' acc' (S cnt)
      end
  end.

Definition pack_bits (bits : list bool) : list Z := pack_bits_from bits 0 0.


(** ** Outcomes of the modelled code

    [Undef] stands for a read or a write outside an object (undefined
    behaviour in C); [NoFuel] is returned when a loop of the model reaches
    its iteration bound. *)

Inductive Run (A : Type) : Type :=
| Ret (a : A)
| Undef
| NoFuel.

Arguments Ret {A} a.
Arguments Undef {A}.
Arguments NoFuel {A}.

Definition run_bind {A B : Type} (m : Run A) (k : A -> Run B) : Run B :=
  match m with
  | Ret a => k a
  | Undef => Undef
  | NoFuel => NoFuel
  end.

(** [gboolean] values. *)
Definition TRUE : Z := 1.
Definition FALSE : Z := 0.

Definition GST_CLOCK_TIME_NONE : Z := 0xffffffffffffffff.

(** ** NAL unit and SEI payload types *)

Definition NAL_UNKNOWN : Z := 0.
Definition NAL_SLICE : Z := 1.
Definition NAL_SLICE_DPA : Z := 2.
Definition NAL_SLICE_DPB : Z := 3.
Definition NAL_SLICE_DPC : Z := 4.
Definition NAL_SLICE_IDR : Z := 5.
Definition NAL_SEI : Z := 6.
Definition NAL_SPS : Z := 7.
Definition NAL_PPS : Z := 8.
Definition NAL_AU_DELIMITER : Z := 9.
Definition NAL_SEQ_END : Z := 10.
Definition NAL_STREAM_END : Z := 11.
Definition NAL_FILTER_DATA : Z := 12.

Definition SEI_BUF_PERIOD : Z := 0.
Definition SEI_PIC_TIMING : Z := 1.

Definition SEI_PIC_STRUCT_FRAME_TRIPLING : Z := 8.

Definition sei_num_clock_ts_table : list Z := [1; 1; 1; 2; 2; 3; 3; 2; 3].

Definition Extended_SAR : Z := 255.

(** Modelled from the spec: the table size [MAX_SPS_COUNT] is defined in
    [gsth264parse.h], which is not part of the sources; the data model keys
    an SPS by [sps_id] in 0..31. *)
Definition MAX_SPS_COUNT : Z := 32.

(** ** Buffers and the decode queue *)

Inductive GstFlowReturn : Type :=
| GST_FLOW_OK
| GST_FLOW_NOT_LINKED
| GST_FLOW_WRONG_STATE
| GST_FLOW_UNEXPECTED
| GST_FLOW_NOT_NEGOTIATED
| GST_FLOW_ERROR
| GST_FLOW_NOT_SUPPORTED.

Definition flow_is_ok (r : GstFlowReturn) : bool :=
  match r with GST_FLOW_OK => true | _ => false end.

(** A [GstBuffer]: its bytes, its timestamp and the two flags the parser
    sets. *)
Record GstBuffer := MkBuffer {
  buf_data : list Z;
  buf_timestamp : Z;
  buf_discont : bool;
  buf_delta_unit : bool
}.

Definition buf_size (b : GstBuffer) : Z := Z.of_nat (length (buf_data b)).

Definition buf_set_discont (v : bool) (b : GstBuffer) : GstBuffer :=
  {| buf_data := buf_data b; buf_timestamp := buf_timestamp b;
     buf_discont := v; buf_delta_unit := buf_delta_unit b |}.

Definition buf_set_delta_unit (v : bool) (b : GstBuffer) : GstBuffer :=
  {| buf_data := buf_data b; buf_timestamp := buf_timestamp b;
     buf_discont := buf_discont b; buf_delta_unit := v |}.

Definition buf_set_timestamp (v : Z) (b : GstBuffer) : GstBuffer :=
  {| buf_data := buf_data b; buf_timestamp := v;
     buf_discont := buf_discont b; buf_delta_unit := buf_delta_unit b |}.

(** [struct _GstNalList]: one link of the decode queue; the queue itself is
    the list of its links, head first. *)
Record GstNalList := MkLink {
  nal_type : Z;
  nal_ref_idc : Z;
  first_mb_in_slice : Z;
  slice_type : Z;
  slice : bool;
  i_frame : bool;
  buffer : GstBuffer
}.

Definition gst_nal_list_new (b : GstBuffer) : GstNalList :=
  {| nal_type := 0; nal_ref_idc := 0; first_mb_in_slice := 0;
     slice_type := 0; slice := false; i_frame := false; buffer := b |}.

Definition gst_nal_list_prepend_link (l : list GstNalList) (link : GstNalList)
  : list GstNalList := link :: l.

Definition gst_nal_list_delete_head (l : list GstNalList) : list GstNalList :=
  match l with
  | [] => []
  | _ :: next => next
  end.

(** ** Parameter sets *)

Record GstH264Sps := MkSps {
  profile_idc : Z;
  level_idc : Z;
  sps_id : Z;
  pic_order_cnt_type : Z;
  log2_max_frame_num_minus4 : Z;
  frame_mbs_only_flag : Z;
  log2_max_pic_order_cnt_lsb_minus4 : Z;
  frame_cropping_flag : Z;
  vui_parameters_present_flag : Z;
  timing_info_present_flag : Z;
  num_units_in_tick : Z;
  time_scale : Z;
  fixed_frame_rate_flag : Z;
  nal_hrd_parameters_present_flag : Z;
  vcl_hrd_parameters_present_flag : Z;
  cpb_cnt_minus1 : Z;
  initial_cpb_removal_delay_length_minus1 : Z;
  cpb_removal_delay_length_minus1 : Z;
  dpb_output_delay_length_minus1 : Z;
  time_offset_length_minus1 : Z;
  pic_struct_present_flag : Z
}.

(** [g_slice_new0 (GstH264Sps)] *)
Definition sps_new0 : GstH264Sps :=
  MkSps 0 0 0 0 0 0 0 0 0 0 0 0 0 0 0 0 0 0 0 0 0.

Record GstH264Pps := MkPps {
  pps_id : Z;
  pps_sps_id : Z
}.

(** [g_slice_new0 (GstH264Pps)] *)
Definition pps_new0 : GstH264Pps := MkPps 0 0.

(** Field assignments [sps->f = v]. *)
Definition set_profile_idc (v : Z) (r : GstH264Sps) : GstH264Sps :=
  let '(MkSps _ x1 x2 x3 x4 x5 x6 x7 x8 x9 x10 x11 x12 x13 x14 x15 x16 x17 x18 x19 x20) := r in
  MkSps v x1 x2 x3 x4 x5 x6 x7 x8 x9 x10 x11 x12 x13 x14 x15 x16 x17 x18 x19 x20.

Definition set_level_idc (v : Z) (r : GstH264Sps) : GstH264Sps :=
  let '(MkSps x0 _ x2 x3 x4 x5 x6 x7 x8 x9 x10 x11 x12 x13 x14 x15 x16 x17 x18 x19 x20) := r in
  MkSps x0 v x2 x3 x4 x5 x6 x7 x8 x9 x10 x11 x12 x13 x14 x15 x16 x17 x18 x19 x20.

Definition set_pic_order_cnt_type (v : Z) (r : GstH264Sps) : GstH264Sps :=
  let '(MkSps x0 x1 x2 _ x4 x5 x6 x7 x8 x9 x10 x11 x12 x13 x14 x15 x16 x17 x18 x19 x20) := r in
  MkSps x0 x1 x2 v x4 x5 x6 x7 x8 x9 x10 x11 x12 x13 x14 x15 x16 x17 x18 x19 x20.

Definition set_log2_max_frame_num_minus4 (v : Z) (r : GstH264Sps) : GstH264Sps :=
  let '(MkSps x0 x1 x2 x3 _ x5 x6 x7 x8 x9 x10 x11 x12 x13 x14 x15 x16 x17 x18 x19 x20) := r in
  MkSps x0 x1 x2 x3 v x5 x6 x7 x8 x9 x10 x11 x12 x13 x14 x15 x16 x17 x18 x19 x20.

Definition set_frame_mbs_only_flag (v : Z) (r : GstH264Sps) : GstH264Sps :=
  let '(MkSps x0 x1 x2 x3 x4 _ x6 x7 x8 x9 x10 x11 x12 x13 x14 x15 x16 x17 x18 x19 x20) := r in
  MkSps x0 x1 x2 x3 x4 v x6 x7 x8 x9 x10 x11 x12 x13 x14 x15 x16 x17 x18 x19 x20.

Definition set_log2_max_pic_order_cnt_lsb_minus4 (v : Z) (r : GstH264Sps) : GstH264Sps :=
  let '(MkSps x0 x1 x2 x3 x4 x5 _ x7 x8 x9 x10 x11 x12 x13 x14 x15 x16 x17 x18 x19 x20) := r in
  MkSps x0 x1 x2 x3 x4 x5 v x7 x8 x9 x10 x11 x12 x13 x14 x15 x16 x17 x18 x19 x20.

Definition set_vui_parameters_present_flag (v : Z) (r : GstH264Sps) : GstH264Sps :=
  let '(MkSps x0 x1 x2 x3 x4 x5 x6 x7 _ x9 x10 x11 x12 x13 x14 x15 x16 x17 x18 x19 x20) := r in
  MkSps x0 x1 x2 x3 x4 x5 x6 x7 v x9 x10 x11 x12 x13 x14 x15 x16 x17 x18 x19 x20.

Definition set_timing_info_present_flag (v : Z) (r : GstH264Sps) : GstH264Sps :=
  let '(MkSps x0 x1 x2 x3 x4 x5 x6 x7 x8 _ x10 x11 x12 x13 x14 x15 x16 x17 x18 x19 x20) := r in
  MkSps x0 x1 x2 x3 x4 x5 x6 x7 x8 v x10 x11 x12 x13 x14 x15 x16 x17 x18 x19 x20.

Definition set_num_units_in_tick (v : Z) (r : GstH264Sps) : GstH264Sps :=
  let '(MkSps x0 x1 x2 x3 x4 x5 x6 x7 x8 x9 _ x11 x12 x13 x14 x15 x16 x17 x18 x19 x20) := r in
  MkSps x0 x1 x2 x3 x4 x5 x6 x7 x8 x9 v x11 x12 x13 x14 x15 x16 x17 x18 x19 x20.

Definition set_time_scale (v : Z) (r : GstH264Sps) : GstH264Sps :=
  let '(MkSps x0 x1 x2 x3 x4 x5 x6 x7 x8 x9 x10 _ x12 x13 x14 x15 x16 x17 x18 x19 x20) := r in
  MkSps x0 x1 x2 x3 x4 x5 x6 x7 x8 x9 x10 v x12 x13 x14 x15 x16 x17 x18 x19 x20.

Definition set_fixed_frame_rate_flag (v : Z) (r : GstH264Sps) : GstH264Sps :=
  let '(MkSps x0 x1 x2 x3 x4 x5 x6 x7 x8 x9 x10 x11 _ x13 x14 x15 x16 x17 x18 x19 x20) := r in
  MkSps x0 x1 x2 x3 x4 x5 x6 x7 x8 x9 x10 x11 v x13 x14 x15 x16 x17 x18 x19 x20.

Definition set_nal_hrd_parameters_present_flag (v : Z) (r : GstH264Sps) : GstH264Sps :=
  let '(MkSps x0 x1 x2 x3 x4 x5 x6 x7 x8 x9 x10 x11 x12 _ x14 x15 x16 x17 x18 x19 x20) := r in
  MkSps x0 x1 x2 x3 x4 x5 x6 x7 x8 x9 x10 x11 x12 v x14 x15 x16 x17 x18 x19 x20.

Definition set_vcl_hrd_parameters_present_flag (v : Z) (r : GstH264Sps) : GstH264Sps :=
  let '(MkSps x0 x1 x2 x3 x4 x5 x6 x7 x8 x9 x10 x11 x12 x13 _ x15 x16 x17 x18 x19 x20) := r in
  MkSps x0 x1 x2 x3 x4 x5 x6 x7 x8 x9 x10 x11 x12 x13 v x15 x16 x17 x18 x19 x20.

Definition set_cpb_cnt_minus1 (v : Z) (r : GstH264Sps) : GstH264Sps :=
  let '(MkSps x0 x1 x2 x3 x4 x5 x6 x7 x8 x9 x10 x11 x12 x13 x14 _ x16 x17 x18 x19 x20) := r in
  MkSps x0 x1 x2 x3 x4 x5 x6 x7 x8 x9 x10 x11 x12 x13 x14 v x16 x17 x18 x19 x20.

Definition set_initial_cpb_removal_delay_length_minus1 (v : Z) (r : GstH264Sps) : GstH264Sps :=
  let '(MkSps x0 x1 x2 x3 x4 x5 x6 x7 x8 x9 x10 x11 x12 x13 x14 x15 _ x17 x18 x19 x20) := r in
  MkSps x0 x1 x2 x3 x4 x5 x6 x7 x8 x9 x10 x11 x12 x13 x14 x15 v x17 x18 x19 x20.

Definition set_cpb_removal_delay_length_minus1 (v : Z) (r : GstH264Sps) : GstH264Sps :=
  let '(MkSps x0 x1 x2 x3 x4 x5 x6 x7 x8 x9 x10 x11 x12 x13 x14 x15 x16 _ x18 x19 x20) := r in
  MkSps x0 x1 x2 x3 x4 x5 x6 x7 x8 x9 x10 x11 x12 x13 x14 x15 x16 v x18 x19 x20.

Definition set_dpb_output_delay_length_minus1 (v : Z) (r : GstH264Sps) : GstH264Sps :=
  let '(MkSps x0 x1 x2 x3 x4 x5 x6 x7 x8 x9 x10 x11 x12 x13 x14 x15 x16 x17 _ x19 x20) := r in
  MkSps x0 x1 x2 x3 x4 x5 x6 x7 x8 x9 x10 x11 x12 x13 x14 x15 x16 x17 v x19 x20.

Definition set_time_offset_length_minus1 (v : Z) (r : GstH264Sps) : GstH264Sps :=
  let '(MkSps x0 x1 x2 x3 x4 x5 x6 x7 x8 x9 x10 x11 x12 x13 x14 x15 x16 x17 x18 _ x20) := r in
  MkSps x0 x1 x2 x3 x4 x5 x6 x7 x8 x9 x10 x11 x12 x13 x14 x15 x16 x17 x18 v x20.

Definition set_pic_struct_present_flag (v : Z) (r : GstH264Sps) : GstH264Sps :=
  let '(MkSps x0 x1 x2 x3 x4 x5 x6 x7 x8 x9 x10 x11 x12 x13 x14 x15 x16 x17 x18 x19 _) := r in
  MkSps x0 x1 x2 x3 x4 x5 x6 x7 x8 x9 x10 x11 x12 x13 x14 x15 x16 x17 x18 x19 v.


(** ** The element state

    Modelled from the spec: [struct _GstH264Parse] is declared in
    [gsth264parse.h], which is not part of the sources.  The fields are the
    ones the functions below use, with the meaning the data model gives
    them: the configuration, the adapter of the forward path, the gather
    list, carry-over buffer and decode queue of the reverse path, the
    parameter-set tables with the current [sps] and [pps] pointers (kept as
    keys of the tables they point into), and the SEI scalars.  The pads and
    the fields that only [gst_h264_parse_init] and the slice-header decoder
    touch are left out. *)

(** What the code observes of the [gdouble] rate of the segment: its
    comparisons with [0.0]. *)
Inductive SegmentRate : Type :=
| RATE_POSITIVE
| RATE_NEGATIVE
| RATE_ZERO_OR_NAN.

Record GstSegment := MkSegment {
  rate : SegmentRate
}.

(** [gst_segment_init] sets the rate to [1.0]. *)
Definition gst_segment_init : GstSegment := {| rate := RATE_POSITIVE |}.

Record GstH264Parse := MkParse {
  split_packetized : bool;
  nal_length_size : Z;
  segment : GstSegment;
  packetized : bool;
  discont : bool;
  gather : list GstBuffer;
  prev : option GstBuffer;
  decode : list GstNalList;
  decode_len : Z;
  have_i_frame : bool;
  adapter : list Z;
  sps_buffers : gmap Z GstH264Sps;
  pps_buffers : gmap Z GstH264Pps;
  sps : option Z;
  pps : option Z;
  initial_cpb_removal_delay : list Z;
  sei_cpb_removal_delay : Z;
  sei_dpb_output_delay : Z;
  sei_pic_struct : Z;
  sei_ct_type : Z;
  dts : Z;
  ts_trn_nb : Z
}.

(** Field assignments [h->f = v]. *)
Definition set_nal_length_size (v : Z) (r : GstH264Parse) : GstH264Parse :=
  let '(MkParse x0 _ x2 x3 x4 x5 x6 x7 x8 x9 x10 x11 x12 x13 x14 x15 x16 x17 x18 x19 x20 x21) := r in
  MkParse x0 v x2 x3 x4 x5 x6 x7 x8 x9 x10 x11 x12 x13 x14 x15 x16 x17 x18 x19 x20 x21.

Definition set_segment (v : GstSegment) (r : GstH264Parse) : GstH264Parse :=
  let '(MkParse x0 x1 _ x3 x4 x5 x6 x7 x8 x9 x10 x11 x12 x13 x14 x15 x16 x17 x18 x19 x20 x21) := r in
  MkParse x0 x1 v x3 x4 x5 x6 x7 x8 x9 x10 x11 x12 x13 x14 x15 x16 x17 x18 x19 x20 x21.

Definition set_packetized (v : bool) (r : GstH264Parse) : GstH264Parse :=
  let '(MkParse x0 x1 x2 _ x4 x5 x6 x7 x8 x9 x10 x11 x12 x13 x14 x15 x16 x17 x18 x19 x20 x21) := r in
  MkParse x0 x1 x2 v x4 x5 x6 x7 x8 x9 x10 x11 x12 x13 x14 x15 x16 x17 x18 x19 x20 x21.

Definition set_discont (v : bool) (r : GstH264Parse) : GstH264Parse :=
  let '(MkParse x0 x1 x2 x3 _ x5 x6 x7 x8 x9 x10 x11 x12 x13 x14 x15 x16 x17 x18 x19 x20 x21) := r in
  MkParse x0 x1 x2 x3 v x5 x6 x7 x8 x9 x10 x11 x12 x13 x14 x15 x16 x17 x18 x19 x20 x21.

Definition set_gather (v : list GstBuffer) (r : GstH264Parse) : GstH264Parse :=
  let '(MkParse x0 x1 x2 x3 x4 _ x6 x7 x8 x9 x10 x11 x12 x13 x14 x15 x16 x17 x18 x19 x20 x21) := r in
  MkParse x0 x1 x2 x3 x4 v x6 x7 x8 x9 x10 x11 x12 x13 x14 x15 x16 x17 x18 x19 x20 x21.

Definition set_prev (v : option GstBuffer) (r : GstH264Parse) : GstH264Parse :=
  let '(MkParse x0 x1 x2 x3 x4 x5 _ x7 x8 x9 x10 x11 x12 x13 x14 x15 x16 x17 x18 x19 x20 x21) := r in
  MkParse x0 x1 x2 x3 x4 x5 v x7 x8 x9 x10 x11 x12 x13 x14 x15 x16 x17 x18 x19 x20 x21.

Definition set_decode (v : list GstNalList) (r : GstH264Parse) : GstH264Parse :=
  let '(MkParse x0 x1 x2 x3 x4 x5 x6 _ x8 x9 x10 x11 x12 x13 x14 x15 x16 x17 x18 x19 x20 x21) := r in
  MkParse x0 x1 x2 x3 x4 x5 x6 v x8 x9 x10 x11 x12 x13 x14 x15 x16 x17 x18 x19 x20 x21.

Definition set_decode_len (v : Z) (r : GstH264Parse) : GstH264Parse :=
  let '(MkParse x0 x1 x2 x3 x4 x5 x6 x7 _ x9 x10 x11 x12 x13 x14 x15 x16 x17 x18 x19 x20 x21) := r in
  MkParse x0 x1 x2 x3 x4 x5 x6 x7 v x9 x10 x11 x12 x13 x14 x15 x16 x17 x18 x19 x20 x21.

Definition set_have_i_frame (v : bool) (r : GstH264Parse) : GstH264Parse :=
  let '(MkParse x0 x1 x2 x3 x4 x5 x6 x7 x8 _ x10 x11 x12 x13 x14 x15 x16 x17 x18 x19 x20 x21) := r in
  MkParse x0 x1 x2 x3 x4 x5 x6 x7 x8 v x10 x11 x12 x13 x14 x15 x16 x17 x18 x19 x20 x21.

Definition set_adapter (v : list Z) (r : GstH264Parse) : GstH264Parse :=
  let '(MkParse x0 x1 x2 x3 x4 x5 x6 x7 x8 x9 _ x11 x12 x13 x14 x15 x16 x17 x18 x19 x20 x21) := r in
  MkParse x0 x1 x2 x3 x4 x5 x6 x7 x8 x9 v x11 x12 x13 x14 x15 x16 x17 x18 x19 x20 x21.

Definition set_sps_buffers (v : gmap Z GstH264Sps) (r : GstH264Parse) : GstH264Parse :=
  let '(MkParse x0 x1 x2 x3 x4 x5 x6 x7 x8 x9 x10 _ x12 x13 x14 x15 x16 x17 x18 x19 x20 x21) := r in
  MkParse x0 x1 x2 x3 x4 x5 x6 x7 x8 x9 x10 v x12 x13 x14 x15 x16 x17 x18 x19 x20 x21.

Definition set_pps_buffers (v : gmap Z GstH264Pps) (r : GstH264Parse) : GstH264Parse :=
  let '(MkParse x0 x1 x2 x3 x4 x5 x6 x7 x8 x9 x10 x11 _ x13 x14 x15 x16 x17 x18 x19 x20 x21) := r in
  MkParse x0 x1 x2 x3 x4 x5 x6 x7 x8 x9 x10 x11 v x13 x14 x15 x16 x17 x18 x19 x20 x21.

Definition set_sps (v : option Z) (r : GstH264Parse) : GstH264Parse :=
  let '(MkParse x0 x1 x2 x3 x4 x5 x6 x7 x8 x9 x10 x11 x12 _ x14 x15 x16 x17 x18 x19 x20 x21) := r in
  MkParse x0 x1 x2 x3 x4 x5 x6 x7 x8 x9 x10 x11 x12 v x14 x15 x16 x17 x18 x19 x20 x21.

Definition set_pps (v : option Z) (r : GstH264Parse) : GstH264Parse :=
  let '(MkParse x0 x1 x2 x3 x4 x5 x6 x7 x8 x9 x10 x11 x12 x13 _ x15 x16 x17 x18 x19 x20 x21) := r in
  MkParse x0 x1 x2 x3 x4 x5 x6 x7 x8 x9 x10 x11 x12 x13 v x15 x16 x17 x18 x19 x20 x21.

Definition set_initial_cpb_removal_delay (v : list Z) (r : GstH264Parse) : GstH264Parse :=
  let '(MkParse x0 x1 x2 x3 x4 x5 x6 x7 x8 x9 x10 x11 x12 x13 x14 _ x16 x17 x18 x19 x20 x21) := r in
  MkParse x0 x1 x2 x3 x4 x5 x6 x7 x8 x9 x10 x11 x12 x13 x14 v x16 x17 x18 x19 x20 x21.

Definition set_sei_cpb_removal_delay (v : Z) (r : GstH264Parse) : GstH264Parse :=
  let '(MkParse x0 x1 x2 x3 x4 x5 x6 x7 x8 x9 x10 x11 x12 x13 x14 x15 _ x17 x18 x19 x20 x21) := r in
  MkParse x0 x1 x2 x3 x4 x5 x6 x7 x8 x9 x10 x11 x12 x13 x14 x15 v x17 x18 x19 x20 x21.

Definition set_sei_dpb_output_delay (v : Z) (r : GstH264Parse) : GstH264Parse :=
  let '(MkParse x0 x1 x2 x3 x4 x5 x6 x7 x8 x9 x10 x11 x12 x13 x14 x15 x16 _ x18 x19 x20 x21) := r in
  MkParse x0 x1 x2 x3 x4 x5 x6 x7 x8 x9 x10 x11 x12 x13 x14 x15 x16 v x18 x19 x20 x21.

Definition set_sei_pic_struct (v : Z) (r : GstH264Parse) : GstH264Parse :=
  let '(MkParse x0 x1 x2 x3 x4 x5 x6 x7 x8 x9 x10 x11 x12 x13 x14 x15 x16 x17 _ x19 x20 x21) := r in
  MkParse x0 x1 x2 x3 x4 x5 x6 x7 x8 x9 x10 x11 x12 x13 x14 x15 x16 x17 v x19 x20 x21.

Definition set_sei_ct_type (v : Z) (r : GstH264Parse) : GstH264Parse :=
  let '(MkParse x0 x1 x2 x3 x4 x5 x6 x7 x8 x9 x10 x11 x12 x13 x14 x15 x16 x17 x18 _ x20 x21) := r in
  MkParse x0 x1 x2 x3 x4 x5 x6 x7 x8 x9 x10 x11 x12 x13 x14 x15 x16 x17 x18 v x20 x21.

Definition set_ts_trn_nb (v : Z) (r : GstH264Parse) : GstH264Parse :=
  let '(MkParse x0 x1 x2 x3 x4 x5 x6 x7 x8 x9 x10 x11 x12 x13 x14 x15 x16 x17 x18 x19 x20 _) := r in
  MkParse x0 x1 x2 x3 x4 x5 x6 x7 x8 x9 x10 x11 x12 x13 x14 x15 x16 x17 x18 x19 x20 v.


(** ** Parameter-set lookup *)

Definition gst_h264_parse_get_sps (h : GstH264Parse) (sps_id : Z)
  : option Z * GstH264Parse :=
  if MAX_SPS_COUNT <=? sps_id then (None, h)
  else
    let sps :=
      match sps_buffers h !! sps_id with
      | Some sps => sps
      | None => sps_new0
      end in
    (Some sps_id,
     set_sps (Some sps_id)
       (set_sps_buffers (<[sps_id := sps]> (sps_buffers h)) h)).

(** [MAX_PPS_COUNT], the size of the PPS table, is defined in
    [gsth264parse.h], which is not part of the sources, and the data model
    does not give its value: it is a parameter of the functions that use
    it. *)
Definition gst_h264_parse_get_pps (MAX_PPS_COUNT : Z) (h : GstH264Parse)
    (pps_id : Z)
  : option Z * GstH264Parse :=
  if MAX_PPS_COUNT <=? pps_id then (None, h)
  else
    let pps :=
      match pps_buffers h !! pps_id with
      | Some pps => pps
      | None => pps_new0
      end in
    (Some pps_id,
     set_pps (Some pps_id)
       (set_pps_buffers (<[pps_id := pps]> (pps_buffers h)) h)).

(** ** The decoder monad

    The decoders take the element [h] and the bit reader [bs], update both,
    and may dereference a pointer that is not there. *)

Definition Dec (A : Type) : Type :=
  GstH264Parse -> GstNalBs -> Run (A * GstH264Parse * GstNalBs).

Definition dec_ret {A : Type} (a : A) : Dec A := fun h bs => Ret (a, h, bs).

Definition dec_bind {A B : Type} (m : Dec A) (k : A -> Dec B) : Dec B :=
  fun h bs =>
    match m h bs with
    | Ret (a, h', bs') => k a h' bs'
    | Undef => Undef
    | NoFuel => NoFuel
    end.

Declare Scope dec_scope.
Delimit Scope dec_scope with dec.
Notation "'let*' x ':=' m 'in' k" := (dec_bind m (fun x => k))
  (at level 10, x name, m at level 100, k at level 200) : dec_scope.
Notation "'let*' ' p ':=' m 'in' k" :=
  (dec_bind m (fun x => let 'p := x in k))
  (at level 10, p pattern, m at level 100, k at level 200) : dec_scope.
Notation "m ';;;' k" := (dec_bind m (fun _ => k))
  (at level 100, k at level 200, right associativity) : dec_scope.
Local Open Scope dec_scope.

Definition dec_undef {A : Type} : Dec A := fun _ _ => Undef.
Definition dec_nofuel {A : Type} : Dec A := fun _ _ => NoFuel.

Definition dec_h : Dec GstH264Parse := fun h bs => Ret (h, h, bs).
Definition dec_bs : Dec GstNalBs := fun h bs => Ret (bs, h, bs).

Definition dec_modify (f : GstH264Parse -> GstH264Parse) : Dec unit :=
  fun h bs => Ret (tt, f h, bs).

(** [gst_nal_bs_read (bs, n)] and [gst_nal_bs_read_ue (bs)] *)
Definition dec_read (n : Z) : Dec Z :=
  fun h bs => let '(r, bs') := gst_nal_bs_read bs n in Ret (r, h, bs').

Definition dec_read_ue : Dec Z :=
  fun h bs => let '(r, bs') := gst_nal_bs_read_ue bs in Ret (r, h, bs').

(** A function of the bit reader alone, run inside a decoder. *)
Definition dec_reader {A : Type} (f : GstNalBs -> A * GstNalBs) : Dec A :=
  fun h bs => let '(a, bs') := f bs in Ret (a, h, bs').

(** [*sps]: the record a pointer into [sps_buffers] points to. *)
Definition sps_load (p : option Z) : Dec GstH264Sps :=
  fun h bs =>
    match p with
    | Some k =>
        match sps_buffers h !! k with
        | Some s => Ret (s, h, bs)
        | None => Undef
        end
    | None => Undef
    end.

(** [sps->f = v], written as the update [upd] of the record. *)
Definition sps_store (p : option Z) (upd : GstH264Sps -> GstH264Sps)
  : Dec unit :=
  let* s := sps_load p in
  match p with
  | Some k =>
      dec_modify (fun h => set_sps_buffers (<[k := upd s]> (sps_buffers h)) h)
  | None => dec_undef
  end.

(** [pps->sps_id = v] *)
Definition pps_store_sps_id (p : option Z) (v : Z) : Dec unit :=
  fun h bs =>
    match p with
    | Some k =>
        match pps_buffers h !! k with
        | Some pps =>
            Ret (tt,
                 set_pps_buffers
                   (<[k := {| pps_id := pps_id pps; pps_sps_id := v |}]>
                      (pps_buffers h)) h,
                 bs)
        | None => Undef
        end
    | None => Undef
    end.

(** ** HRD and VUI parameters *)

(** The [sched_sel_idx] loop of [gst_vui_decode_hrd_parameters]. *)
Fixpoint hrd_sched_sel_loop (count : nat) : Dec unit :=
  match count with
  | O => dec_ret tt
  | S count' =>
      dec_read_ue ;;;     (* bit_rate_value_minus1 *)
      dec_read_ue ;;;     (* cpb_size_value_minus1 *)
      dec_read 1 ;;;      (* cbr_flag *)
      hrd_sched_sel_loop count'
  end.

Definition gst_vui_decode_hrd_parameters : Dec Z :=
  let* h := dec_h in
  let sps := sps h in
  let* v := dec_read_ue in
  sps_store sps (set_cpb_cnt_minus1 (to_guint8 v)) ;;;
  let* s := sps_load sps in
  if 31 <? cpb_cnt_minus1 s then dec_ret FALSE
  else
    dec_read 4 ;;;      (* bit_rate_scale *)
    dec_read 4 ;;;      (* cpb_size_scale *)
    hrd_sched_sel_loop (Z.to_nat (cpb_cnt_minus1 s + 1)) ;;;
    let* v := dec_read 5 in
    sps_store sps (set_initial_cpb_removal_delay_length_minus1 v) ;;;
    let* v := dec_read 5 in
    sps_store sps (set_cpb_removal_delay_length_minus1 v) ;;;
    let* v := dec_read 5 in
    sps_store sps (set_dpb_output_delay_length_minus1 v) ;;;
    let* v := dec_read 5 in
    sps_store sps (set_time_offset_length_minus1 v) ;;;
    dec_ret TRUE.

(** [if (c) { m }] *)
Definition dec_when (c : bool) (m : Dec unit) : Dec unit :=
  if c then m else dec_ret tt.

Definition dec_skip {A : Type} (m : Dec A) : Dec unit := m ;;; dec_ret tt.

Definition gst_sps_decode_vui : Dec Z :=
  let* h := dec_h in
  let sps := sps h in
  let* aspect_ratio_info_present_flag := dec_read 1 in
  dec_when (negb (aspect_ratio_info_present_flag =? 0))
    (let* aspect_ratio_idc := dec_read 8 in
     dec_when (aspect_ratio_idc =? Extended_SAR)
       (dec_read 16 ;;;      (* sar_width *)
        dec_skip (dec_read 16))) ;;;   (* sar_height *)
  let* overscan_info_present_flag := dec_read 1 in
  dec_when (negb (overscan_info_present_flag =? 0))
    (dec_skip (dec_read 1)) ;;;        (* overscan_appropriate_flag *)
  let* video_signal_type_present_flag := dec_read 1 in
  dec_when (negb (video_signal_type_present_flag =? 0))
    (dec_read 3 ;;;          (* video_format *)
     dec_read 1 ;;;          (* video_full_range_flag *)
     let* colour_description_present_flag := dec_read 1 in
     dec_when (negb (colour_description_present_flag =? 0))
       (dec_read 8 ;;;       (* colour_primaries *)
        dec_read 8 ;;;       (* transfer_characteristics *)
        dec_skip (dec_read 8))) ;;;    (* matrix_coefficients *)
  let* chroma_loc_info_present_flag := dec_read 1 in
  dec_when (negb (chroma_loc_info_present_flag =? 0))
    (dec_read_ue ;;;         (* chroma_sample_loc_type_top_field *)
     dec_skip dec_read_ue) ;;;         (* chroma_sample_loc_type_bottom_field *)
  let* v := dec_read 1 in
  sps_store sps (set_timing_info_present_flag v) ;;;
  dec_when (negb (v =? 0))
    (let* num_units_in_tick := dec_read 32 in
     let* time_scale := dec_read 32 in
     if time_scale =? 0 then dec_ret tt
     else if num_units_in_tick =? 0 then dec_ret tt
     else
       sps_store sps (set_num_units_in_tick num_units_in_tick) ;;;
       sps_store sps (set_time_scale time_scale) ;;;
       let* v := dec_read 1 in
       sps_store sps (set_fixed_frame_rate_flag v)) ;;;
  let* nal := dec_read 1 in
  sps_store sps (set_nal_hrd_parameters_present_flag nal) ;;;
  dec_when (negb (nal =? 0)) (dec_skip gst_vui_decode_hrd_parameters) ;;;
  let* vcl := dec_read 1 in
  sps_store sps (set_vcl_hrd_parameters_present_flag vcl) ;;;
  dec_when (negb (vcl =? 0)) (dec_skip gst_vui_decode_hrd_parameters) ;;;
  dec_when (negb (nal =? 0) || negb (vcl =? 0))
    (dec_skip (dec_read 1)) ;;;        (* low_delay_hrd_flag *)
  let* v := dec_read 1 in
  sps_store sps (set_pic_struct_present_flag v) ;;;
  (* Not going down anymore *)
  dec_ret TRUE.

(** ** Sequence and picture parameter sets *)

Definition sps_high_profile (profile_idc : Z) : bool :=
  (profile_idc =? 100) || (profile_idc =? 110) || (profile_idc =? 122)
  || (profile_idc =? 244) || (profile_idc =? 44)
  || (profile_idc =? 83) || (profile_idc =? 86).

(** The reads of [gst_nal_decode_sps] that come before [sps_id]; they give
    [profile_idc] and [level_idc]. *)
Definition sps_read_prefix (bs : GstNalBs) : Z * Z * GstNalBs :=
  let '(profile_idc, bs) := gst_nal_bs_read bs 8 in
  let '(_, bs) := gst_nal_bs_read bs 1 in     (* constraint_set0_flag *)
  let '(_, bs) := gst_nal_bs_read bs 1 in     (* constraint_set1_flag *)
  let '(_, bs) := gst_nal_bs_read bs 1 in     (* constraint_set2_flag *)
  let '(_, bs) := gst_nal_bs_read bs 1 in     (* constraint_set3_flag *)
  let '(_, bs) := gst_nal_bs_read bs 4 in     (* reserved *)
  let '(level_idc, bs) := gst_nal_bs_read bs 8 in
  (to_guint8 profile_idc, to_guint8 level_idc, bs).

(** The chroma block that is read for the high profiles. *)
Definition sps_read_chroma (profile_idc : Z) (bs : GstNalBs) : GstNalBs :=
  if sps_high_profile profile_idc then
    let '(chroma_format_idc, bs) := gst_nal_bs_read_ue bs in
    let bs :=
      if chroma_format_idc =? 3
      then snd (gst_nal_bs_read bs 1)         (* separate_colour_plane_flag *)
      else bs in
    let '(_, bs) := gst_nal_bs_read_ue bs in  (* bit_depth_luma_minus8 *)
    let '(_, bs) := gst_nal_bs_read_ue bs in  (* bit_depth_chroma_minus8 *)
    let '(_, bs) := gst_nal_bs_read bs 1 in   (* qpprime_y_zero_transform_bypass_flag *)
    let '(_, bs) := gst_nal_bs_read bs 1 in   (* seq_scaling_matrix_present_flag *)
    bs
  else bs.

(** [gst_nal_decode_sps] from [pic_order_cnt_type] on. *)
Definition sps_decode_rest (sps : option Z) : Dec Z :=
  let* v := dec_read_ue in
  sps_store sps (set_pic_order_cnt_type (to_guint8 v)) ;;;
  dec_when (to_guint8 v =? 0)
    (let* v := dec_read_ue in
     sps_store sps (set_log2_max_pic_order_cnt_lsb_minus4 (to_guint8 v))) ;;;
  dec_read_ue ;;;     (* max_num_ref_frames *)
  dec_read 1 ;;;      (* gaps_in_frame_num_value_allowed_flag *)
  dec_read_ue ;;;     (* pic_width_in_mbs_minus1 *)
  dec_read_ue ;;;     (* pic_height_in_map_units_minus1 *)
  let* v := dec_read 1 in
  sps_store sps (set_frame_mbs_only_flag v) ;;;
  dec_when (v =? 0)
    (dec_skip (dec_read 1)) ;;;        (* mb_adaptive_frame_field_flag *)
  dec_read 1 ;;;      (* direct_8x8_inference_flag *)
  let* frame_cropping_flag := dec_read 1 in
  dec_when (negb (frame_cropping_flag =? 0))
    (dec_read_ue ;;;     (* frame_crop_left_offset *)
     dec_read_ue ;;;     (* frame_crop_right_offset *)
     dec_read_ue ;;;     (* frame_crop_top_offset *)
     dec_skip dec_read_ue) ;;;         (* frame_crop_bottom_offset *)
  let* v := dec_read 1 in
  sps_store sps (set_vui_parameters_present_flag v) ;;;
  dec_when (negb (v =? 0)) (dec_skip gst_sps_decode_vui) ;;;
  dec_ret TRUE.

Definition gst_nal_decode_sps : Dec Z :=
  let* '(profile_idc, level_idc) := dec_reader sps_read_prefix in
  let* v := dec_read_ue in
  let sps_id := to_guint8 v in
  let* h := dec_h in
  let '(sps, h') := gst_h264_parse_get_sps h sps_id in
  dec_modify (fun _ => h') ;;;
  match sps with
  | None => dec_ret FALSE
  | Some _ =>
      sps_store sps (set_profile_idc profile_idc) ;;;
      sps_store sps (set_level_idc level_idc) ;;;
      dec_reader (fun bs => (tt, sps_read_chroma profile_idc bs)) ;;;
      let* v := dec_read_ue in
      sps_store sps (set_log2_max_frame_num_minus4 (to_guint8 v)) ;;;
      if 12 <? to_guint8 v then dec_ret FALSE
      else sps_decode_rest sps
  end.

Definition gst_nal_decode_pps (MAX_PPS_COUNT : Z) : Dec Z :=
  let* v := dec_read_ue in
  let pps_id := to_guint8 v in
  let* h := dec_h in
  let '(pps, h') := gst_h264_parse_get_pps MAX_PPS_COUNT h pps_id in
  dec_modify (fun _ => h') ;;;
  match pps with
  | None => dec_ret FALSE
  | Some _ =>
      let* v := dec_read_ue in
      pps_store_sps_id pps (to_guint8 v) ;;;
      dec_ret TRUE
  end.

(** ** SEI messages *)

(** [h->initial_cpb_removal_delay[idx] = v]; the array has 32 elements. *)
Definition store_initial_cpb_removal_delay (idx v : Z) : Dec unit :=
  if (0 <=? idx) && (idx <? 32) then
    dec_modify (fun h =>
      set_initial_cpb_removal_delay
        (<[Z.to_nat idx := v]> (initial_cpb_removal_delay h)) h)
  else dec_undef.

(** One [sched_sel_idx] loop of [gst_sei_decode_buffering_period]; [count]
    is the number of iterations left and [len] the value of
    [sps->initial_cpb_removal_delay_length_minus1]. *)
Fixpoint sei_delay_loop (count : nat) (sched_sel_idx len : Z) : Dec unit :=
  match count with
  | O => dec_ret tt
  | S count' =>
      let* v := dec_read (len + 1) in
      store_initial_cpb_removal_delay sched_sel_idx v ;;;
      dec_read (len + 1) ;;;    (* initial_cpb_removal_delay_offset *)
      sei_delay_loop count' (sched_sel_idx + 1) len
  end.

Definition gst_sei_decode_buffering_period : Dec Z :=
  let* v := dec_read_ue in
  let sps_id := to_guint8 v in
  let* h := dec_h in
  let '(sps, h') := gst_h264_parse_get_sps h sps_id in
  dec_modify (fun _ => h') ;;;
  match sps with
  | None => dec_ret FALSE
  | Some _ =>
      let* s := sps_load sps in
      dec_when (negb (nal_hrd_parameters_present_flag s =? 0))
        (sei_delay_loop (Z.to_nat (cpb_cnt_minus1 s + 1)) 0
           (initial_cpb_removal_delay_length_minus1 s)) ;;;
      dec_when (negb (vcl_hrd_parameters_present_flag s =? 0))
        (sei_delay_loop (Z.to_nat (cpb_cnt_minus1 s + 1)) 0
           (initial_cpb_removal_delay_length_minus1 s)) ;;;
      dec_modify (fun h =>
        if (ts_trn_nb h =? GST_CLOCK_TIME_NONE) || (dts h =? GST_CLOCK_TIME_NONE)
        then set_ts_trn_nb 0 h
        else set_ts_trn_nb (dts h) h) ;;;
      dec_ret 0
  end.

(** The body of the [clock_timestamp_flag] branch of
    [gst_sei_decode_picture_timing]. *)
Definition sei_clock_timestamp (time_offset_length_minus1 : Z) : Dec unit :=
  let* ct_type := dec_read 2 in
  dec_modify (fun h =>
    set_sei_ct_type (Z.lor (sei_ct_type h) (Z.shiftl 1 ct_type)) h) ;;;
  dec_read 1 ;;;      (* nuit_field_based_flag *)
  dec_read 5 ;;;      (* counting_type *)
  let* full_timestamp_flag := dec_read 1 in
  dec_read 1 ;;;      (* discontinuity_flag *)
  dec_read 1 ;;;      (* cnt_dropped_flag *)
  dec_read 8 ;;;      (* n_frames *)
  (if negb (full_timestamp_flag =? 0) then
     dec_read 6 ;;;   (* seconds_value *)
     dec_read 6 ;;;   (* minutes_value *)
     dec_skip (dec_read 5)             (* hours_value *)
   else
     let* seconds_flag := dec_read 1 in
     dec_when (negb (seconds_flag =? 0))
       (dec_read 6 ;;;                 (* seconds_value *)
        let* minutes_flag := dec_read 1 in
        dec_when (negb (minutes_flag =? 0))
          (dec_read 6 ;;;              (* minutes_value *)
           let* hours_flag := dec_read 1 in
           dec_when (negb (hours_flag =? 0))
             (dec_skip (dec_read 5))))) ;;;   (* hours_value *)
  dec_when (0 <=? time_offset_length_minus1)
    (dec_skip (dec_read (time_offset_length_minus1 + 1))).   (* time_offset *)

Fixpoint sei_clock_ts_loop (count : nat) (time_offset_length_minus1 : Z)
  : Dec unit :=
  match count with
  | O => dec_ret tt
  | S count' =>
      let* clock_timestamp_flag := dec_read 1 in
      dec_when (negb (clock_timestamp_flag =? 0))
        (sei_clock_timestamp time_offset_length_minus1) ;;;
      sei_clock_ts_loop count' time_offset_length_minus1
  end.

Definition gst_sei_decode_picture_timing : Dec Z :=
  let* h := dec_h in
  match sps h with
  | None => dec_ret FALSE
  | Some _ =>
      let* s := sps_load (sps h) in
      dec_when (negb (nal_hrd_parameters_present_flag s =? 0)
                || negb (vcl_hrd_parameters_present_flag s =? 0))
        (let* v := dec_read (cpb_removal_delay_length_minus1 s + 1) in
         dec_modify (set_sei_cpb_removal_delay v) ;;;
         let* v := dec_read (dpb_output_delay_length_minus1 s + 1) in
         dec_modify (set_sei_dpb_output_delay v)) ;;;
      if negb (pic_struct_present_flag s =? 0) then
        let* v := dec_read 4 in
        dec_modify (set_sei_pic_struct v) ;;;
        dec_modify (set_sei_ct_type 0) ;;;
        if SEI_PIC_STRUCT_FRAME_TRIPLING <? v then dec_ret FALSE
        else
          match sei_num_clock_ts_table !! Z.to_nat v with
          | None => dec_undef
          | Some num_clock_ts =>
              sei_clock_ts_loop (Z.to_nat num_clock_ts)
                (time_offset_length_minus1 s) ;;;
              dec_ret 0
          end
      else dec_ret 0
  end.

(** The [do { tmp = read (8); acc += tmp; } while (tmp == 255)] loops of
    [gst_nal_decode_sei]. *)
Fixpoint sei_read_ff (fuel : nat) (acc : Z) : Dec Z :=
  let* v := dec_read 8 in
  let tmp := to_guint8 v in
  if tmp =? 255 then
    match fuel with
    | O => dec_nofuel
    | S fuel' => sei_read_ff fuel' (acc + tmp)
    end
  else dec_ret (acc + tmp).

(** Every pass with [tmp == 255] takes a byte from the range, so the
    number of bytes left bounds the iterations. *)
Definition sei_read_ff_all : Dec Z :=
  let* bs := dec_bs in
  sei_read_ff (length (bs_data bs)) 0.

(** The head of [gst_nal_decode_sei]: [payloadType], after [payloadSize]
    has been read as well. *)
Definition sei_decode_header : Dec Z :=
  let* t := sei_read_ff_all in
  let payloadType := to_guint32 t in
  let* _payloadSize := sei_read_ff_all in
  dec_ret payloadType.

Definition gst_nal_decode_sei : Dec Z :=
  let* payloadType := sei_decode_header in
  if payloadType =? SEI_BUF_PERIOD then
    let* r := gst_sei_decode_buffering_period in
    if r =? 0 then dec_ret FALSE else dec_ret TRUE
  else if payloadType =? SEI_PIC_TIMING then
    let* r := gst_sei_decode_picture_timing in
    if r =? 0 then dec_ret FALSE else dec_ret TRUE
  else dec_ret TRUE.

(** ** Run monad notation for the assemblers *)

Declare Scope run_scope.
Delimit Scope run_scope with run.
Notation "'let+' x ':=' m 'in' k" := (run_bind m (fun x => k))
  (at level 10, x name, m at level 100, k at level 200) : run_scope.
Notation "'let+' ' p ':=' m 'in' k" :=
  (run_bind m (fun x => let 'p := x in k))
  (at level 10, p pattern, m at level 100, k at level 200) : run_scope.
Local Open Scope run_scope.

(** [data[off]] for a pointer [data + off] into the bytes [buf]. *)
Definition byte_at (buf : list Z) (off : Z) : Run Z :=
  if 0 <=? off then
    match buf !! Z.to_nat off with
    | Some b => Ret b
    | None => Undef
    end
  else Undef.

(** [for (i = 0; i < nal_length_size; i++) nalu_size = (nalu_size << 8) | data[i];] *)
Fixpoint read_nalu_size (buf : list Z) (off : Z) (count : nat) (nalu_size : Z)
  : Run Z :=
  match count with
  | O => Ret nalu_size
  | S count' =>
      let+ b := byte_at buf off in
      read_nalu_size buf (off + 1) count'
        (to_guint32 (Z.lor (Z.shiftl nalu_size 8) b))
  end.

(** The [switch (slice_type)] of both paths: the cases that are I frames. *)
Definition slice_type_is_i (slice_type : Z) : bool :=
  (slice_type =? 2) || (slice_type =? 7)
  || (slice_type =? 4) || (slice_type =? 9).

(** ** Flush and reset *)

(** The [while (h264parse->decode)] loop of [gst_h264_parse_clear_queues]. *)
Fixpoint clear_decode (l : list GstNalList) : list GstNalList :=
  match l with
  | [] => []
  | _ :: next => clear_decode next
  end.

Definition gst_h264_parse_clear_queues (h : GstH264Parse) : GstH264Parse :=
  let h := set_gather [] h in
  let h := set_decode (clear_decode (decode h)) h in
  let h := set_decode [] h in
  let h := set_decode_len 0 h in
  let h := match prev h with Some _ => set_prev None h | None => h end in
  let h := set_adapter [] h in
  set_have_i_frame false h.

Section Assemblers.

(** The downstream element: what [gst_pad_push (h264parse->srcpad, buf)]
    returns for a buffer. *)
Variable gst_pad_push : GstBuffer -> GstFlowReturn.

(** ** Forward path *)

(** The start-code search of [gst_h264_parse_chain_forward]:
    [for (i = 1; i < avail - 4; ++i)]; [d] is [data + i]. *)
Fixpoint find_next_nalu (d : list Z) (i : Z) : Z :=
  match d with
  | [] => -1
  | b0 :: d1 =>
      match d1 with
      | b1 :: b2 :: b3 :: _ :: _ =>
          if (b0 =? 0) && (b1 =? 0) && (b2 =? 0) && (b3 =? 1) then i
          else find_next_nalu d1 (i + 1)
      | _ => -1
      end
  end.

(** The packetized branch: the NALU size after the sanity check, and
    [next_nalu_pos]. *)
Definition packetized_nalu_size (nal_length_size avail nalu_size : Z) : Z :=
  if (nalu_size <=? 1) || (avail <? to_guint32 (nalu_size + nal_length_size))
  then to_guint32 (avail - nal_length_size)
  else nalu_size.

Definition packetized_next_nalu_pos (split_packetized : bool)
    (nal_length_size avail nalu_size : Z) : Z :=
  if split_packetized then
    if to_guint32 (nalu_size + nal_length_size) <=? avail
    then to_gint (to_guint32 (nalu_size + nal_length_size))
    else -1
  else avail.

(** "Figure out if this is a delta unit": [data] points behind the length
    or sync bytes. *)
Definition forward_delta_unit (data : list Z) : Run bool :=
  let+ b := byte_at data 0 in
  let nal_type := Z.land b 0x1f in
  if (NAL_SLICE <=? nal_type) && (nal_type <=? NAL_SLICE_IDR) then
    let bs := gst_nal_bs_init (drop 1 data) in
    let '(first_mb_in_slice, bs) := gst_nal_bs_read_ue bs in
    let '(slice_type, bs) := gst_nal_bs_read_ue bs in
    Ret (negb (slice_type_is_i slice_type))
  else if (NAL_SPS <=? nal_type) && (nal_type <=? NAL_PPS) then Ret false
  else Ret true.

Fixpoint chain_forward_loop (fuel : nat) (timestamp : Z) (h : GstH264Parse)
  : Run (GstFlowReturn * GstH264Parse * list GstBuffer) :=
  let data := adapter h in
  let avail := Z.of_nat (length data) in
  if avail <? to_guint32 (nal_length_size h + 1) then Ret (GST_FLOW_OK, h, [])
  else
    let+ next_nalu_pos :=
      if negb (packetized h) then Ret (find_next_nalu (drop 1 data) 1)
      else
        let+ nalu_size :=
          read_nalu_size data 0 (Z.to_nat (nal_length_size h)) 0 in
        let nalu_size :=
          packetized_nalu_size (nal_length_size h) avail nalu_size in
        Ret (packetized_next_nalu_pos (split_packetized h)
               (nal_length_size h) avail nalu_size) in
    let+ delta_unit :=
      forward_delta_unit (drop (Z.to_nat (nal_length_size h)) data) in
    if 0 <? next_nalu_pos then
      let outbuf :=
        {| buf_data := take (Z.to_nat next_nalu_pos) data;
           buf_timestamp := timestamp;
           buf_discont := discont h;
           buf_delta_unit := delta_unit |} in
      let h := set_adapter (drop (Z.to_nat next_nalu_pos) data) h in
      let h := if discont h then set_discont false h else h in
      let res := gst_pad_push outbuf in
      if flow_is_ok res then
        match fuel with
        | O => NoFuel
        | S fuel' =>
            let+ '(res, h, out) := chain_forward_loop fuel' timestamp h in
            Ret (res, h, outbuf :: out)
        end
      else Ret (res, h, [outbuf])
    else Ret (GST_FLOW_OK, h, []).

(** Every pass of the loop that pushes a buffer takes at least one byte
    from the adapter, which bounds the iterations. *)
Definition gst_h264_parse_chain_forward (h : GstH264Parse) (discont : bool)
    (buffer : GstBuffer)
  : Run (GstFlowReturn * GstH264Parse * list GstBuffer) :=
  let h := if discont then set_discont true (set_adapter [] h) else h in
  let timestamp := buf_timestamp buffer in
  let h := set_adapter (adapter h ++ buf_data buffer) h in
  chain_forward_loop (length (adapter h)) timestamp h.

(** ** Reverse path: the decode queue *)

(** The [while (h264parse->decode)] loop of [gst_h264_parse_flush_decode];
    it returns the last flow result, [decode_len] and the buffers pushed. *)
Fixpoint flush_decode_loop (queue : list GstNalList) (first : bool)
    (res : GstFlowReturn) (decode_len : Z)
  : GstFlowReturn * Z * list GstBuffer :=
  match queue with
  | [] => (res, decode_len, [])
  | link :: next =>
      let buf := buf_set_discont first (buffer link) in
      let buf := buf_set_delta_unit (negb (i_frame link)) buf in
      let res := gst_pad_push buf in
      let '(res, decode_len, out) :=
        flush_decode_loop next false res (decode_len - 1) in
      (res, decode_len, buf :: out)
  end.

Definition gst_h264_parse_flush_decode (h : GstH264Parse)
  : GstFlowReturn * GstH264Parse * list GstBuffer :=
  let '(res, len, out) :=
    flush_decode_loop (decode h) true GST_FLOW_OK (decode_len h) in
  let h := set_decode_len len (set_decode [] h) in
  (res, set_have_i_frame false h, out).

(** The [while (size >= parse->nal_length_size + 1)] loop of
    [gst_h264_parse_queue_buffer].  [off] is the position of [data] in the
    buffer [buf], and [size] the [guint] the source keeps next to it; as
    long as no byte outside the buffer has been read, [off + size] is the
    size of the buffer. *)
Fixpoint queue_buffer_parse (fuel : nat) (packetized : bool)
    (nal_length_size : Z) (buf : list Z) (off size : Z) (link : GstNalList)
  : Run GstNalList :=
  if size <? to_guint32 (nal_length_size + 1) then Ret link
  else
    let+ nalu_size :=
      if packetized
      then read_nalu_size buf off (Z.to_nat nal_length_size) 0
      else Ret 0 in
    let off := off + nal_length_size in
    let size := to_guint32 (size - nal_length_size) in
    let+ b := byte_at buf off in
    let link :=
      {| nal_type := Z.land b 0x1f;
         nal_ref_idc := Z.shiftr (Z.land b 0x60) 5;
         first_mb_in_slice := first_mb_in_slice link;
         slice_type := slice_type link;
         slice := slice link;
         i_frame := i_frame link;
         buffer := buffer link |} in
    let link :=
      if (NAL_SLICE <=? nal_type link) && (nal_type link <=? NAL_SLICE_IDR)
      then
        let bs :=
          gst_nal_bs_init
            (take (Z.to_nat (size - 1)) (drop (Z.to_nat (off + 1)) buf)) in
        let '(first_mb, bs) := gst_nal_bs_read_ue bs in
        let '(stype, bs) := gst_nal_bs_read_ue bs in
        {| nal_type := nal_type link;
           nal_ref_idc := nal_ref_idc link;
           first_mb_in_slice := first_mb;
           slice_type := stype;
           slice := true;
           i_frame := if slice_type_is_i stype then true else i_frame link;
           buffer := buffer link |}
      else link in
    if negb packetized then Ret link
    else
      match fuel with
      | O => NoFuel
      | S fuel' =>
          queue_buffer_parse fuel' packetized nal_length_size buf
            (off + nalu_size) (to_guint32 (size - nalu_size)) link
      end.

(** The classification of a buffer: the link [gst_h264_parse_queue_buffer]
    builds for it.  With a length or sync prefix of at least one byte every
    pass of the loop moves [data] forward, so the size of the buffer bounds
    the iterations. *)
Definition queue_buffer_link (packetized : bool) (nal_length_size : Z)
    (buffer : GstBuffer) : Run GstNalList :=
  queue_buffer_parse (length (buf_data buffer)) packetized nal_length_size
    (buf_data buffer) 0 (buf_size buffer) (gst_nal_list_new buffer).

Definition gst_h264_parse_queue_buffer (parse : GstH264Parse)
    (buffer : GstBuffer)
  : Run (GstFlowReturn * GstH264Parse * list GstBuffer) :=
  let+ link :=
    queue_buffer_link (packetized parse) (nal_length_size parse) buffer in
  let '(res, parse, out) :=
    if have_i_frame parse && negb (i_frame link) && slice link
    then gst_h264_parse_flush_decode parse
    else (GST_FLOW_OK, parse, []) in
  let parse := if i_frame link then set_have_i_frame true parse else parse in
  let parse :=
    set_decode (gst_nal_list_prepend_link (decode parse) link) parse in
  let parse := set_decode_len (decode_len parse + 1) parse in
  Ret (res, parse, out).

(** ** Reverse path: gathering and splitting *)

(** [gst_h264_parse_find_start_reverse]; the result is the [guint] it
    returns and the updated [*code]. *)
Fixpoint find_start_reverse_loop (data : list Z) (size : nat) (search : Z)
  : Run (Z * Z) :=
  match size with
  | O => Ret (0, search)
  | S size' =>
      let+ b := byte_at data (Z.of_nat size') in
      let search := to_guint32 (Z.lor (Z.shiftl search 8) b) in
      if search =? 0x01000000 then Ret (Z.of_nat size, search)
      else find_start_reverse_loop data size' search
  end.

Definition gst_h264_parse_find_start_reverse (data : list Z) (size code : Z)
  : Run (Z * Z) :=
  let+ '(size, search) := find_start_reverse_loop data (Z.to_nat size) code in
  Ret (to_guint32 (size - 1), search).

(** [gst_buffer_create_sub (buf, offset, size)]: the flags of a sub-buffer
    are set again before it is pushed, and the timestamp is the parent's
    when the offset is zero. *)
Definition gst_buffer_create_sub (buf : GstBuffer) (offset size : Z)
  : GstBuffer :=
  {| buf_data := take (Z.to_nat size) (drop (Z.to_nat offset) (buf_data buf));
     buf_timestamp :=
       if offset =? 0 then buf_timestamp buf else GST_CLOCK_TIME_NONE;
     buf_discont := buf_discont buf;
     buf_delta_unit := buf_delta_unit buf |}.

(** [gst_buffer_join (buf1, buf2)] *)
Definition gst_buffer_join (buf1 buf2 : GstBuffer) : GstBuffer :=
  {| buf_data := buf_data buf1 ++ buf_data buf2;
     buf_timestamp := buf_timestamp buf1;
     buf_discont := false;
     buf_delta_unit := false |}.

(** The [while (last > 0)] loop of [gst_h264_parse_chain_reverse]; the
    third component of the result is the new [prev]. *)
Fixpoint reverse_split_loop (fuel : nat) (gbuf : GstBuffer) (timestamp : Z)
    (last code : Z) (res : GstFlowReturn) (h : GstH264Parse)
  : Run (GstFlowReturn * GstH264Parse * option GstBuffer * list GstBuffer) :=
  if 0 <? last then
    match fuel with
    | O => NoFuel
    | S fuel' =>
        let+ '(start, code) :=
          gst_h264_parse_find_start_reverse (buf_data gbuf) last code in
        if negb (start =? 0xffffffff) then
          let decode := gst_buffer_create_sub gbuf start (last - start) in
          let decode := buf_set_timestamp timestamp decode in
          let+ '(res, h, out) := gst_h264_parse_queue_buffer h decode in
          let+ '(res, h, prev, out') :=
            reverse_split_loop fuel' gbuf timestamp start code res h in
          Ret (res, h, prev, out ++ out')
        else Ret (res, h, Some (gst_buffer_create_sub gbuf 0 last), [])
    end
  else Ret (res, h, None, []).

(** The [while (h264parse->gather)] loop. *)
Fixpoint reverse_gather_loop (gather : list GstBuffer) (prev : option GstBuffer)
    (res : GstFlowReturn) (h : GstH264Parse)
  : Run (GstFlowReturn * GstH264Parse * option GstBuffer * list GstBuffer) :=
  match gather with
  | [] => Ret (res, h, prev, [])
  | gbuf :: gather' =>
      let h := set_gather gather' h in
      if packetized h then
        let+ '(res, h, out) := gst_h264_parse_queue_buffer h gbuf in
        let+ '(res, h, prev, out') := reverse_gather_loop gather' prev res h in
        Ret (res, h, prev, out ++ out')
      else
        let gbuf :=
          match prev with
          | Some p => gst_buffer_join gbuf p
          | None => gbuf
          end in
        let last := buf_size gbuf in
        let+ '(res, h, prev, out) :=
          reverse_split_loop (length (buf_data gbuf)) gbuf (buf_timestamp gbuf)
            last 0xffffffff res h in
        let+ '(res, h, prev, out') := reverse_gather_loop gather' prev res h in
        Ret (res, h, prev, out ++ out')
  end.

Definition gst_h264_parse_chain_reverse (h : GstH264Parse) (discont : bool)
    (buffer : option GstBuffer)
  : Run (GstFlowReturn * GstH264Parse * list GstBuffer) :=
  let+ '(res, h, out) :=
    if discont then
      let prev := prev h in
      let h := set_prev None h in
      let+ '(res, h, prev, out) :=
        reverse_gather_loop (gather h) prev GST_FLOW_OK h in
      let h := match prev with Some _ => set_prev prev h | None => h end in
      Ret (res, h, out)
    else Ret (GST_FLOW_OK, h, []) in
  let h :=
    match buffer with
    | Some b => set_gather (b :: gather h) h
    | None => h
    end in
  Ret (res, h, out).

(** ** Events and state changes *)

Inductive GstEvent : Type :=
| GST_EVENT_FLUSH_STOP
| GST_EVENT_EOS
| GST_EVENT_NEWSEGMENT (rate : SegmentRate)
| GST_EVENT_OTHER.

(** [gst_h264_parse_sink_event]: its effect on the element and the buffers
    it pushes; the boolean it returns is the one of [gst_pad_push_event]. *)
Definition gst_h264_parse_sink_event (h : GstH264Parse) (event : GstEvent)
  : Run (GstH264Parse * list GstBuffer) :=
  match event with
  | GST_EVENT_FLUSH_STOP =>
      let h := set_segment gst_segment_init h in
      Ret (gst_h264_parse_clear_queues h, [])
  | GST_EVENT_EOS =>
      match rate (segment h) with
      | RATE_NEGATIVE =>
          let+ '(_, h, out) := gst_h264_parse_chain_reverse h true None in
          let '(_, h, out') := gst_h264_parse_flush_decode h in
          Ret (h, out ++ out')
      | _ => Ret (h, [])
      end
  | GST_EVENT_NEWSEGMENT r => Ret (set_segment {| rate := r |} h, [])
  | GST_EVENT_OTHER => Ret (h, [])
  end.

End Assemblers.

(** ** Checkers and sample inputs used by the theorems *)

(** [f] holds on [count] consecutive integers from [start]. *)
Fixpoint forall_range (f : Z -> bool) (start : Z) (count : nat) : bool :=
  match count with
  | O => true
  | S count' => f start && forall_range f (start + 1) count'
  end.

(** Encode [v], pack it in front of the bytes [rest], and decode it. *)
Definition ue_roundtrip_ok (rest : list Z) (v : Z) : bool :=
  fst (gst_nal_bs_read_ue (gst_nal_bs_init (pack_bits (ue_encode v) ++ rest)))
  =? v.

(** The element after [gst_h264_parse_init] and a byte-stream
    [gst_h264_parse_sink_setcaps]. *)
Definition h264parse_init : GstH264Parse :=
  {| split_packetized := false;
     nal_length_size := 4;
     segment := gst_segment_init;
     packetized := false;
     discont := false;
     gather := [];
     prev := None;
     decode := [];
     decode_len := 0;
     have_i_frame := false;
     adapter := [];
     sps_buffers := ∅;
     pps_buffers := ∅;
     sps := None;
     pps := None;
     initial_cpb_removal_delay := replicate 32 (-1);
     sei_cpb_removal_delay := 0;
     sei_dpb_output_delay := 0;
     sei_pic_struct := -1;
     sei_ct_type := -1;
     dts := GST_CLOCK_TIME_NONE;
     ts_trn_nb := GST_CLOCK_TIME_NONE |}.

(** A downstream element that accepts every buffer. *)
Definition push_ok (b : GstBuffer) : GstFlowReturn := GST_FLOW_OK.

(** A baseline-profile SPS payload: profile 66, level 30, [sps_id] 0,
    [log2_max_frame_num_minus4] 0, picture order count type 0, one
    reference frame, 20 by 15 macroblocks, frames only, no cropping, no
    VUI. *)
Definition sample_sps : list Z := [0x42; 0x00; 0x1e; 0xf4; 0x0a; 0x0f; 0xc0].

(** The same header with [log2_max_frame_num_minus4] coded as 13. *)
Definition sample_sps_log2_13 : list Z := [0x42; 0x00; 0x1e; 0x8e].

(** The element after [sample_sps] has been decoded. *)
Definition h264parse_after_sps : GstH264Parse :=
  match gst_nal_decode_sps h264parse_init (gst_nal_bs_init sample_sps) with
  | Ret (_, h, _) => h
  | _ => h264parse_init
  end.

(** An SPS with NAL HRD parameters: one CPB, delays of 8 bits. *)
Definition sample_sps_hrd : GstH264Sps :=
  set_nal_hrd_parameters_present_flag 1
    (set_initial_cpb_removal_delay_length_minus1 7 sps_new0).

(** The element with [sample_sps_hrd] stored for [sps_id] 0. *)
Definition h264parse_hrd : GstH264Parse :=
  set_sps_buffers {[ 0 := sample_sps_hrd ]} h264parse_init.

(** A buffering-period payload for [sps_id] 0: [initial_cpb_removal_delay]
    42 and [initial_cpb_removal_delay_offset] 128. *)
Definition sample_buffering_period : list Z := [0x95; 0x40; 0x00].

(** A buffering-period payload whose [sps_id] is 32, outside the table. *)
Definition sample_buffering_period_sps32 : list Z := [0x04; 0x20].

(** A whole SEI message: payload type 0, payload size 3, and
    [sample_buffering_period]. *)
Definition sample_sei : list Z := [0x00; 0x03; 0x95; 0x40; 0x00].

(** The buffer [gst_h264_parse_flush_decode] pushes for a link of the
    decode queue. *)
Definition pushed_unit (first : bool) (link : GstNalList) : GstBuffer :=
  {| buf_data := buf_data (buffer link);
     buf_timestamp := buf_timestamp (buffer link);
     buf_discont := first;
     buf_delta_unit := negb (i_frame link) |}.

Definition flush_output (queue : list GstNalList) : list GstBuffer :=
  match queue with
  | [] => []
  | link :: next => pushed_unit true link :: (pushed_unit false <$> next)
  end.


(** The element after a packetized [gst_h264_parse_sink_setcaps] with
    4-byte NAL lengths, playing a segment in reverse. *)
Definition h264parse_packetized_reverse : GstH264Parse :=
  set_segment {| rate := RATE_NEGATIVE |}
    (set_packetized true h264parse_init).

(** Four packetized units, each a 4-byte length and a slice NAL with
    [first_mb_in_slice] 0: P slices ([slice_type] 0) and an IDR I slice
    ([slice_type] 2). *)
Definition unit_p1 : GstBuffer := MkBuffer [0; 0; 0; 2; 0x41; 0xc0] 1 false false.
Definition unit_p2 : GstBuffer := MkBuffer [0; 0; 0; 2; 0x41; 0xc1] 2 false false.
Definition unit_i3 : GstBuffer := MkBuffer [0; 0; 0; 2; 0x65; 0xb0] 3 false false.
Definition unit_p4 : GstBuffer := MkBuffer [0; 0; 0; 2; 0x41; 0xc3] 4 false false.

Definition link_p2 : GstNalList := MkLink 1 2 0 0 true false unit_p2.
Definition link_i3 : GstNalList := MkLink 5 3 0 2 true true unit_i3.
Definition link_p4 : GstNalList := MkLink 1 2 0 0 true false unit_p4.

(** The reverse path with [unit_i3] and [unit_p4] in the decode queue. *)
Definition h264parse_i_queued : GstH264Parse :=
  set_have_i_frame true
    (set_decode_len 2
       (set_decode [link_i3; link_p4] h264parse_packetized_reverse)).

(** The 4-byte start code of the byte-stream format, and its presence at
    position [i] of a byte range. *)
Definition start_code : list Z := [0; 0; 0; 1].

Definition start_code_at (data : list Z) (i : nat) : Prop :=
  data !! i = Some 0 /\ data !! S i = Some 0 /\
  data !! S (S i) = Some 0 /\ data !! S (S (S i)) = Some 1.

(** A byte-stream buffer with an SPS NAL and an IDR slice NAL. *)
Definition sample_sps_nal : list Z := 0x67 :: sample_sps.
Definition sample_idr_nal : list Z := [0x65; 0xb8; 0x40; 0x01; 0x7f].
Definition sample_bytestream : GstBuffer :=
  {| buf_data := start_code ++ sample_sps_nal ++ start_code ++ sample_idr_nal;
     buf_timestamp := 7;
     buf_discont := false;
     buf_delta_unit := false |}.

(** The element after a packetized [gst_h264_parse_sink_setcaps] with
    4-byte NAL lengths and the [split-packetized] property set. *)
Definition h264parse_split : GstH264Parse :=
  {| split_packetized := true;
     nal_length_size := 4;
     segment := gst_segment_init;
     packetized := true;
     discont := false;
     gather := [];
     prev := None;
     decode := [];
     decode_len := 0;
     have_i_frame := false;
     adapter := [];
     sps_buffers := ∅;
     pps_buffers := ∅;
     sps := None;
     pps := None;
     initial_cpb_removal_delay := replicate 32 (-1);
     sei_cpb_removal_delay := 0;
     sei_dpb_output_delay := 0;
     sei_pic_struct := -1;
     sei_ct_type := -1;
     dts := GST_CLOCK_TIME_NONE;
     ts_trn_nb := GST_CLOCK_TIME_NONE |}.

(** Packetized input whose length field is 0xffffffff, and one whose
    length field is 0xfffffffc, each followed by two bytes of a P slice. *)
Definition sample_length_ffffffff : GstBuffer :=
  MkBuffer [0xff; 0xff; 0xff; 0xff; 0x41; 0xc0] 7 false false.
Definition sample_length_fffffffc : GstBuffer :=
  MkBuffer [0xff; 0xff; 0xff; 0xfc; 0x41; 0xc0] 7 false false.

(** The entry [gst_h264_parse_get_sps] finds or creates for [k]. *)
Definition sps_entry (h : GstH264Parse) (k : Z) : GstH264Sps :=
  match sps_buffers h !! k with
  | Some s => s
  | None => sps_new0
  end.

(** The inner decoder [gst_nal_decode_sei] calls for a payload type. *)
Definition sei_inner_decoder (payloadType : Z) : Dec Z :=
  if payloadType =? SEI_BUF_PERIOD then gst_sei_decode_buffering_period
  else gst_sei_decode_picture_timing.

(** The byte sequence [00 00 03 00 03] occurs in the range: an
    emulation-prevention marker directly followed by [00 03]. *)
Fixpoint has_marker_zero_three (data : list Z) : bool :=
  match data with
  | [] => false
  | b0 :: data1 =>
      match data1 with
      | b1 :: b2 :: b3 :: b4 :: _ =>
          (b0 =? 0) && (b1 =? 0) && (b2 =? 0x03) && (b3 =? 0) && (b4 =? 0x03)
          || has_marker_zero_three data1
      | _ => false
      end
  end.

(** Every element of the range is a [guint8]. *)
Definition is_byte_range (data : list Z) : Prop :=
  Forall (fun b => 0 <= b < 256) data.

(** ** Slice header

    Modelled from the spec: the slice fields of [struct _GstH264Parse],
    which [gsth264parse.h] declares and which is not part of the sources.
    They are the fields that only [gst_h264_parse_init] and
    [gst_nal_decode_slice_header] touch; they are kept in a record of their
    own beside the element.  The width of the fields is not known, so the
    values are kept as they are read. *)

Record GstH264SliceFields := MkSliceFields {
  h_first_mb_in_slice : Z;
  h_slice_type : Z;
  h_frame_num : Z;
  h_field_pic_flag : Z;
  h_bottom_field_flag : Z
}.

(** [*pps]: the record a pointer into [pps_buffers] points to. *)
Definition pps_load (p : option Z) : Dec GstH264Pps :=
  fun h bs =>
    match p with
    | Some k =>
        match pps_buffers h !! k with
        | Some e => Ret (e, h, bs)
        | None => Undef
        end
    | None => Undef
    end.

Definition gst_nal_decode_slice_header (MAX_PPS_COUNT : Z)
    (sl : GstH264SliceFields)
  : Dec (Z * GstH264SliceFields) :=
  let* first_mb := dec_read_ue in
  let* stype := dec_read_ue in
  let sl :=
    {| h_first_mb_in_slice := first_mb;
       h_slice_type := stype;
       h_frame_num := h_frame_num sl;
       h_field_pic_flag := h_field_pic_flag sl;
       h_bottom_field_flag := h_bottom_field_flag sl |} in
  let* v := dec_read_ue in
  let pps_id := to_guint8 v in
  let* h := dec_h in
  let '(pps, h') := gst_h264_parse_get_pps MAX_PPS_COUNT h pps_id in
  dec_modify (fun _ => set_pps pps h') ;;;
  match pps with
  | None => dec_ret (FALSE, sl)
  | Some _ =>
      let* e := pps_load pps in
      let sps_id := to_guint8 (pps_sps_id e) in
      let* h := dec_h in
      let '(sps, h') := gst_h264_parse_get_sps h sps_id in
      dec_modify (fun _ => set_sps sps h') ;;;
      (* h->sps->log2_max_pic_order_cnt_lsb_minus4 *)
      let* s := sps_load sps in
      let* frame_num :=
        dec_read (log2_max_pic_order_cnt_lsb_minus4 s + 4) in
      let sl :=
        {| h_first_mb_in_slice := h_first_mb_in_slice sl;
           h_slice_type := h_slice_type sl;
           h_frame_num := frame_num;
           h_field_pic_flag := h_field_pic_flag sl;
           h_bottom_field_flag := h_bottom_field_flag sl |} in
      (* !h->sps && !h->sps->frame_mbs_only_flag *)
      let* field_coded :=
        match sps with
        | Some _ => dec_ret false
        | None =>
            let* s := sps_load sps in
            dec_ret (frame_mbs_only_flag s =? 0)
        end in
      if field_coded then
        let* field_pic_flag := dec_read 1 in
        let* bottom_field_flag :=
          if negb (field_pic_flag =? 0) then dec_read 1
          else dec_ret (h_bottom_field_flag sl) in
        dec_ret (TRUE,
                 {| h_first_mb_in_slice := h_first_mb_in_slice sl;
                    h_slice_type := h_slice_type sl;
                    h_frame_num := h_frame_num sl;
                    h_field_pic_flag := field_pic_flag;
                    h_bottom_field_flag := bottom_field_flag |})
      else dec_ret (TRUE, sl)
  end.

(** ** Caps negotiation and the chain function *)

(** What [gst_h264_parse_sink_setcaps] reads of the caps: the [codec_data]
    buffer of the first structure, if it has one. *)
Record GstCaps := MkCaps {
  codec_data : option (list Z)
}.

(** [gst_caps_new_simple ("video/x-h264", NULL)] *)
Definition default_caps : GstCaps := {| codec_data := None |}.

Section Negotiation.

(** What [gst_pad_set_caps (h264parse->srcpad, caps)] returns. *)
Variable gst_pad_set_caps : GstCaps -> bool.

Variable gst_pad_push : GstBuffer -> GstFlowReturn.

Definition gst_h264_parse_sink_setcaps (h : GstH264Parse) (caps : GstCaps)
  : Run (bool * GstH264Parse) :=
  match codec_data caps with
  | Some data =>
      let h := set_packetized true h in
      let size := Z.of_nat (length data) in
      if size <? 7 then Ret (false, h)             (* avcc_too_small *)
      else
        let+ version := byte_at data 0 in
        if negb (version =? 1) then Ret (false, h)   (* wrong_version *)
        else
          let+ b1 := byte_at data 1 in
          let+ b2 := byte_at data 2 in
          let+ b3 := byte_at data 3 in
          let profile :=
            Z.lor (Z.lor (Z.shiftl b1 16) (Z.shiftl b2 8)) b3 in
          let+ b4 := byte_at data 4 in
          let h := set_nal_length_size (Z.land b4 0x03 + 1) h in
          Ret (gst_pad_set_caps caps, h)
  | None =>
      let h := set_packetized false h in
      let h := set_nal_length_size 4 h in
      Ret (gst_pad_set_caps caps, h)
  end.

(** [gst_h264_parse_chain]; [have_caps] tells whether the source pad has
    caps when the buffer arrives. *)
Definition gst_h264_parse_chain (have_caps : bool) (h : GstH264Parse)
    (buffer : GstBuffer)
  : Run (GstFlowReturn * GstH264Parse * list GstBuffer) :=
  if negb have_caps && negb (gst_pad_set_caps default_caps)
  then Ret (GST_FLOW_ERROR, h, [])                 (* caps_failed *)
  else
    let h :=
      if negb have_caps
      then set_nal_length_size 4 (set_packetized false h)
      else h in
    let discont := buf_discont buffer in
    match rate (segment h) with
    | RATE_POSITIVE =>
        gst_h264_parse_chain_forward gst_pad_push h discont buffer
    | _ =>
        gst_h264_parse_chain_reverse gst_pad_push h discont (Some buffer)
    end.

End Negotiation.

(** ** Predicates used by the theorems *)

(** [decode_len] counts the links of the decode queue, and [have_i_frame]
    says whether one of them is an I frame. *)
Definition decode_queue_ok (h : GstH264Parse) : Prop :=
  decode_len h = Z.of_nat (length (decode h)) /\
  have_i_frame h = existsb i_frame (decode h).

(** The bytes of the buffers of a list, and of the links of the decode
    queue. *)
Definition pushed_bytes (out : list GstBuffer) : list (list Z) :=
  buf_data <$> out.

Definition queued_bytes (queue : list GstNalList) : list (list Z) :=
  (fun link => buf_data (buffer link)) <$> queue.

(** The element apart from the SPS table and the current-SPS pointer. *)
Definition without_sps (h : GstH264Parse) : GstH264Parse :=
  set_sps None (set_sps_buffers ∅ h).

(** One pass of the loop of [gst_h264_parse_chain_forward], in parts:
    [next_nalu_pos], the buffer taken from the adapter, and the element
    after it has been taken. *)
Definition forward_next_nalu_pos (h : GstH264Parse) : Run Z :=
  let data := adapter h in
  let avail := Z.of_nat (length data) in
  if negb (packetized h) then Ret (find_next_nalu (drop 1 data) 1)
  else
    let+ nalu_size := read_nalu_size data 0 (Z.to_nat (nal_length_size h)) 0 in
    let nalu_size := packetized_nalu_size (nal_length_size h) avail nalu_size in
    Ret (packetized_next_nalu_pos (split_packetized h)
           (nal_length_size h) avail nalu_size).

Definition forward_outbuf (timestamp : Z) (h : GstH264Parse)
    (next_nalu_pos : Z) (delta_unit : bool) : GstBuffer :=
  {| buf_data := take (Z.to_nat next_nalu_pos) (adapter h);
     buf_timestamp := timestamp;
     buf_discont := discont h;
     buf_delta_unit := delta_unit |}.

Definition forward_taken (h : GstH264Parse) (next_nalu_pos : Z)
  : GstH264Parse :=
  let h := set_adapter (drop (Z.to_nat next_nalu_pos) (adapter h)) h in
  if discont h then set_discont false h else h.

(** The result [gst_h264_parse_chain_forward] returns for the buffers it
    pushed: the result of the last push. *)
Definition last_push (gst_pad_push : GstBuffer -> GstFlowReturn)
    (out : list GstBuffer) : GstFlowReturn :=
  match last out with
  | Some b => gst_pad_push b
  | None => GST_FLOW_OK
  end.

(** The element apart from the decode queue, and apart from everything the
    reverse path keeps. *)
Definition without_queue (h : GstH264Parse) : GstH264Parse :=
  set_decode [] (set_decode_len 0 (set_have_i_frame false h)).

Definition without_reverse (h : GstH264Parse) : GstH264Parse :=
  set_gather [] (set_prev None (without_queue h)).

(** A decoder that, run from an element that satisfies [J], returns with an
    element that satisfies [J]: it dereferences no pointer that is not
    there and reaches no bound of the model. *)
Definition dec_keeps {A : Type} (J : GstH264Parse -> Prop) (m : Dec A)
  : Prop :=
  forall h bs, J h ->
  exists a h' bs', m h bs = Ret (a, h', bs') /\ J h'.

(** The header fields of an SPS entry. *)
Definition sps_header (p l v : Z) (s : GstH264Sps) : Prop :=
  profile_idc s = p /\ level_idc s = l /\ log2_max_frame_num_minus4 s = v.

(** While the SPS with id [k] is decoded from the element [h0]: the
    current-SPS pointer refers to the entry [k], which satisfies [P]; the
    other entries and the rest of the element are those of [h0]. *)
Definition decoding_sps (h0 : GstH264Parse) (k : Z)
    (P : GstH264Sps -> Prop) (h : GstH264Parse) : Prop :=
  sps h = Some k /\
  (exists s, sps_buffers h !! k = Some s /\ P s) /\
  (forall j, j <> k -> sps_buffers h !! j = sps_buffers h0 !! j) /\
  without_sps h = without_sps h0.

(** A unit of the byte-stream format begins with the start code. *)
Definition starts_with_start_code (data : list Z) : Prop :=
  take 4 data = start_code.

(** The bytes of the carry-over buffer, none when there is no buffer. *)
Definition carried_bytes (prev : option GstBuffer) : list Z :=
  match prev with
  | Some p => buf_data p
  | None => []
  end.

(** While [gst_sei_decode_buffering_period] runs its loops from the element
    [h1] for an SPS with [cpb_cnt_minus1 = cnt]: only the first [cnt + 1]
    elements of [initial_cpb_removal_delay] differ from [h1]. *)
Definition storing_delays (h1 : GstH264Parse) (cnt : Z) (h : GstH264Parse)
  : Prop :=
  set_initial_cpb_removal_delay [] h = set_initial_cpb_removal_delay [] h1 /\
  length (initial_cpb_removal_delay h) = length (initial_cpb_removal_delay h1)
  /\
  forall i : nat,
    cnt < Z.of_nat i ->
    initial_cpb_removal_delay h !! i = initial_cpb_removal_delay h1 !! i.

(** The element apart from the four fields that
    [gst_sei_decode_picture_timing] sets. *)
Definition without_sei (h : GstH264Parse) : GstH264Parse :=
  set_sei_cpb_removal_delay 0
    (set_sei_dpb_output_delay 0 (set_sei_pic_struct 0 (set_sei_ct_type 0 h))).

(** A reader between two reads: fewer than 8 bits are left in the cache. *)
Definition reader_ok (bs : GstNalBs) : Prop := 0 <= bs_head bs < 8.

(** [dec_keeps] for a decoder whose reads matter: it also keeps the reader
    between two reads. *)
Definition dec_keeps_reading {A : Type} (J : GstH264Parse -> Prop)
    (m : Dec A) : Prop :=
  forall h bs, J h -> reader_ok bs ->
  exists a h' bs', m h bs = Ret (a, h', bs') /\ J h' /\ reader_ok bs'.

(** While [gst_sei_decode_picture_timing] reads the clock timestamps:
    [sei_pic_struct] is a 4-bit value and [sei_ct_type] a mask of the bits
    0 to 3. *)
Definition reading_clock_ts (h0 h : GstH264Parse) : Prop :=
  without_sei h = without_sei h0 /\
  sei_cpb_removal_delay h = sei_cpb_removal_delay h0 /\
  sei_dpb_output_delay h = sei_dpb_output_delay h0 /\
  sei_pic_struct h = sei_pic_struct h0 /\
  0 <= sei_ct_type h < 16.

(** An SPS with NAL HRD parameters, delays of 8 bits and picture
    structure information in the picture-timing messages. *)
Definition sample_sps_pic_struct : GstH264Sps :=
  set_pic_struct_present_flag 1
    (set_cpb_removal_delay_length_minus1 7
       (set_dpb_output_delay_length_minus1 7 sample_sps_hrd)).

(** The element with [sample_sps_pic_struct] as the current SPS. *)
Definition h264parse_pic_struct : GstH264Parse :=
  set_sps (Some 0)
    (set_sps_buffers {[ 0 := sample_sps_pic_struct ]} h264parse_init).

(** A picture-timing payload: [cpb_removal_delay] 5, [dpb_output_delay] 9,
    [pic_struct] 3 (two clock timestamps), both timestamps present, with
    [ct_type] 1 and 2. *)
Definition sample_picture_timing : list Z :=
  [0x05; 0x09; 0x3a; 0x00; 0x00; 0x30; 0x00; 0x00].

(** The slice type that [gst_h264_parse_chain_forward] decodes for a slice
    NAL: the second Exp-Golomb value of the bytes behind the NAL header,
    over which it initialises the reader ([data + 1], up to the end of the
    adapter). *)
Definition forward_slice_type (payload : list Z) : Z :=
  let bs := gst_nal_bs_init payload in
  let '(first_mb_in_slice, bs) := gst_nal_bs_read_ue bs in
  let '(slice_type, bs) := gst_nal_bs_read_ue bs in
  slice_type.

(** The byte-stream buffer that follows [sample_bytestream]: a start code
    and a P slice. *)
Definition sample_next_bytestream : GstBuffer :=
  {| buf_data := start_code ++ [0x41; 0x9a; 0x02];
     buf_timestamp := 8;
     buf_discont := false;
     buf_delta_unit := false |}.

(** * Theorems *)

(** ** The bit reader *)

Lemma land_ones_bound (x n : Z) :
  0 <= n -> 0 <= Z.land x (Z.shiftl 1 n - 1) < 2 ^ n.
Proof.
  intros Hn. rewrite Z.shiftl_1_l.
  change (2 ^ n - 1) with (Z.pred (2 ^ n)). rewrite <- Z.ones_equiv.
  rewrite Z.land_ones by exact Hn.
  apply Z.mod_pos_bound. apply Z.pow_pos_nonneg; lia.
Qed.

(** The cache refill loop stops with between 0 and 7 bits more than it was
    asked for, or at the end of the range with fewer; it never gives bytes
    back, and takes at least one when it had too few bits and did not run
    into the end. *)
Lemma bs_fill_inv (m : nat) :
  forall (data : list Z) (head cache n : Z) (d' : list Z) (h' c' n' : Z),
  (length data <= m)%nat ->
  0 <= head < n + 8 ->
  bs_fill data head cache n = (d', h', c', n') ->
  0 <= h' - n' < 8 /\ 0 <= h' /\ (length d' <= length data)%nat /\
  ((n' = n /\ (head < n -> (length d' < length data)%nat))
   \/ (n' = h' /\ h' < n)).
Proof.
  induction m as [|m IH]; intros data head cache n d' h' c' n' Hm Hhead Hfill.
  - destruct data; [|cbn in Hm; lia]. cbn in Hfill.
    destruct (Z.ltb_spec head n); injection Hfill as <- <- <- <-;
      repeat split; try lia.
  - destruct data as [|byte data1].
    + cbn in Hfill.
      destruct (Z.ltb_spec head n); injection Hfill as <- <- <- <-;
        repeat split; try lia.
    + cbn [bs_fill] in Hfill.
      destruct (Z.ltb_spec head n) as [Hlt|Hge].
      * destruct ((byte =? 3) && (Z.land cache 65535 =? 0)).
        -- destruct data1 as [|byte' data2].
           ++ injection Hfill as <- <- <- <-. cbn. repeat split; try lia.
           ++ apply IH in Hfill; [|cbn in Hm |- *; lia|lia].
              destruct Hfill as (H1 & H2 & H3 & [[-> H4]|[-> H4]]);
                cbn [length] in *; repeat split; try lia.
        -- apply IH in Hfill; [|cbn in Hm |- *; lia|lia].
           destruct Hfill as (H1 & H2 & H3 & [[-> H4]|[-> H4]]);
             cbn [length] in *; repeat split; try lia.
      * injection Hfill as <- <- <- <-. repeat split; try lia.
Qed.

(** Between two reads the head of the cache is below 8, and a read never
    moves [bs->data] backwards. *)
Lemma gst_nal_bs_read_inv (bs bs' : GstNalBs) (n r : Z) :
  0 <= bs_head bs < 8 -> 0 <= n ->
  gst_nal_bs_read bs n = (r, bs') ->
  0 <= bs_head bs' < 8 /\ (length (bs_data bs') <= length (bs_data bs))%nat.
Proof.
  intros Hhead Hn. unfold gst_nal_bs_read.
  destruct (Z.eqb_spec n 0) as [->|Hn0].
  - intros [= <- <-]. lia.
  - destruct (bs_fill (bs_data bs) (bs_head bs) (bs_cache bs) n)
      as [[[d' h'] c'] n'] eqn:Hfill.
    apply (bs_fill_inv (length (bs_data bs))) in Hfill; [|lia|lia].
    unfold bs_extract. intros [= <- <-]. cbn. lia.
Qed.

(** A read of 8 bits that returns 255 has taken a byte from the range. *)
Lemma gst_nal_bs_read_255 (bs bs' : GstNalBs) (r : Z) :
  0 <= bs_head bs < 8 ->
  gst_nal_bs_read bs 8 = (r, bs') ->
  to_guint8 r = 255 ->
  (length (bs_data bs') < length (bs_data bs))%nat.
Proof.
  intros Hhead. unfold gst_nal_bs_read. cbn [Z.eqb].
  destruct (bs_fill (bs_data bs) (bs_head bs) (bs_cache bs) 8)
    as [[[d' h'] c'] n'] eqn:Hfill.
  apply (bs_fill_inv (length (bs_data bs))) in Hfill; [|lia|lia].
  destruct Hfill as (H1 & H2 & H3 & [[-> H4]|[-> H4]]).
  - unfold bs_extract. intros [= <- <-] _. cbn. lia.
  - unfold bs_extract. intros [= <- <-] H255. exfalso.
    replace (h' - h') with 0 in H255 by lia. cbn [Z.ltb Z.compare] in H255.
    destruct (Z.ltb_spec h' 32) as [_|Hge]; [|lia].
    pose proof (land_ones_bound (to_guint32 c') h' H2) as Hb.
    assert (2 ^ h' <= 2 ^ 7) by (apply Z.pow_le_mono_r; lia).
    unfold to_guint8 in H255. change 255 with (Z.ones 8) in H255 at 1.
    rewrite Z.land_ones in H255 by lia.
    rewrite Z.mod_small in H255 by lia. lia.
Qed.

(** The bound of 32 passes in the model of the zero-counting loop is the
    one the source enforces with [i < 32]: a larger bound changes
    nothing. *)
Lemma bs_read_ue_loop_bound (rem : nat) :
  forall (i : Z) (bs : GstNalBs),
  32 - i <= Z.of_nat rem ->
  bs_read_ue_loop (S rem) i bs = bs_read_ue_loop rem i bs.
Proof.
  induction rem as [|rem IH]; intros i bs Hrem.
  - cbn [bs_read_ue_loop]. destruct (gst_nal_bs_read bs 1) as [bit bs1].
    destruct (Z.ltb_spec i 32) as [Hlt|_]; [lia|].
    rewrite andb_false_r. reflexivity.
  - cbn [bs_read_ue_loop] in *. destruct (gst_nal_bs_read bs 1) as [bit bs1].
    destruct ((bit =? 0) && negb (gst_nal_bs_eos bs1) && (i <? 32));
      [|reflexivity].
    apply (IH (i + 1) bs1). lia.
Qed.

Lemma bs_fill_done (data : list Z) (head cache n : Z) :
  (head <? n) = false -> bs_fill data head cache n = (data, head, cache, n).
Proof. intros Hge. destruct data; cbn; rewrite Hge; reflexivity. Qed.

Lemma bs_fill_plain_done (data : list Z) (head cache n : Z) :
  (head <? n) = false ->
  bs_fill_plain data head cache n = (data, head, cache, n).
Proof. intros Hge. destruct data; cbn; rewrite Hge; reflexivity. Qed.

(** The reader reads what a reader without emulation-prevention handling
    reads from the bytes that go through the cache. *)
Lemma bs_fill_cached (m : nat) :
  forall (data : list Z) (head cache n : Z),
  (length data <= m)%nat ->
  let '(d, h, c, n') := bs_fill data head cache n in
  bs_fill_plain (bs_cached_bytes cache data) head cache n
  = (bs_cached_bytes c d, h, c, n').
Proof.
  induction m as [|m IH]; intros data head cache n Hm;
    (destruct (head <? n) eqn:Hlt;
      [|rewrite bs_fill_done, bs_fill_plain_done by exact Hlt; reflexivity]).
  - destruct data; [|cbn in Hm; lia]. cbn. rewrite Hlt. reflexivity.
  - destruct data as [|byte data1]; [cbn; rewrite Hlt; reflexivity|].
    cbn [bs_fill bs_cached_bytes]. rewrite Hlt.
    destruct ((byte =? 3) && (Z.land cache 65535 =? 0)).
    + destruct data1 as [|byte' data2]; [cbn; rewrite Hlt; reflexivity|].
      cbn [bs_fill_plain]. rewrite Hlt.
      apply IH. cbn in Hm |- *. lia.
    + cbn [bs_fill_plain]. rewrite Hlt.
      apply IH. cbn in Hm |- *. lia.
Qed.

Lemma bs_read_cached (bs : GstNalBs) (n : Z) :
  let '(r, bs') := gst_nal_bs_read bs n in
  bs_read_plain
    (MkBs (bs_cached_bytes (bs_cache bs) (bs_data bs)) (bs_head bs)
       (bs_cache bs)) n
  = (r, MkBs (bs_cached_bytes (bs_cache bs') (bs_data bs')) (bs_head bs')
          (bs_cache bs')).
Proof.
  unfold gst_nal_bs_read, bs_read_plain. cbn [bs_data bs_head bs_cache].
  destruct (n =? 0); [reflexivity|].
  pose proof (bs_fill_cached (length (bs_data bs)) (bs_data bs) (bs_head bs)
                (bs_cache bs) n ltac:(lia)) as Hfill.
  destruct (bs_fill (bs_data bs) (bs_head bs) (bs_cache bs) n)
    as [[[d h] c] n'].
  rewrite Hfill. reflexivity.
Qed.

Lemma bs_reads_cached_from (ns : list Z) :
  forall bs : GstNalBs,
  bs_reads bs ns
  = bs_reads_plain
      (MkBs (bs_cached_bytes (bs_cache bs) (bs_data bs)) (bs_head bs)
         (bs_cache bs)) ns.
Proof.
  induction ns as [|n ns IH]; intros bs; [reflexivity|].
  cbn [bs_reads bs_reads_plain].
  pose proof (bs_read_cached bs n) as Hread.
  destruct (gst_nal_bs_read bs n) as [r bs'].
  rewrite Hread. f_equal. apply IH.
Qed.

(** For every byte range and every sequence of reads, [gst_nal_bs_read]
    gives what plain reads give over [bs_cached_bytes] of the range: the
    range without every [03] that arrives while the cache ends in
    [00 00], the byte behind a dropped one being kept whatever it is. *)
Lemma bs_reads_cached (data : list Z) (ns : list Z) :
  bs_reads (gst_nal_bs_init data) ns
  = bs_reads_plain (gst_nal_bs_init (bs_cached_bytes 0xffffffff data)) ns.
Proof. apply (bs_reads_cached_from ns (gst_nal_bs_init data)). Qed.

(** ** Where the reader and the transformed range agree

    The low bytes of the cache after [(cache << 8) | byte]. *)
Lemma cache_shift_or (cache b : Z) :
  0 <= b < 256 -> Z.lor (Z.shiftl cache 8) b = cache * 256 + b.
Proof.
  intros Hb. rewrite Z.shiftl_mul_pow2 by lia. change (2 ^ 8) with 256.
  assert (Z.land (cache * 256) b = 0) as Hdisj.
  { apply Z.bits_inj'. intros n Hn. rewrite Z.land_spec, Z.bits_0.
    destruct (Z.lt_ge_cases n 8).
    - change 256 with (2 ^ 8). rewrite Z.mul_pow2_bits_low by lia.
      reflexivity.
    - rewrite (Z.bits_above_log2 b n); [apply andb_false_r|lia|].
      destruct (Z.eq_dec b 0) as [->|]; [cbn; lia|].
      apply Z.lt_le_trans with 8; [|lia].
      apply Z.log2_lt_pow2; lia. }
  rewrite <- Z.lxor_lor by exact Hdisj.
  symmetry. apply Z.add_nocarry_lxor. exact Hdisj.
Qed.

Lemma cache_push_low8 (cache b : Z) :
  0 <= b < 256 ->
  Z.land (to_guint64 (Z.lor (Z.shiftl cache 8) b)) 0xff = b.
Proof.
  intros Hb. rewrite cache_shift_or by exact Hb. unfold to_guint64.
  change 0xffffffffffffffff with (Z.ones 64). change 0xff with (Z.ones 8).
  rewrite !Z.land_ones by lia.
  rewrite Z.mod_mod_divide by (exists (2 ^ 56); reflexivity).
  change (2 ^ 8) with 256.
  rewrite Z.add_comm, Z.mod_add by lia. apply Z.mod_small. lia.
Qed.

Lemma cache_push_low16 (cache b : Z) :
  0 <= b < 256 ->
  Z.land (to_guint64 (Z.lor (Z.shiftl cache 8) b)) 0xffff
  = Z.land cache 0xff * 256 + b.
Proof.
  intros Hb. rewrite cache_shift_or by exact Hb. unfold to_guint64.
  change 0xffffffffffffffff with (Z.ones 64). change 0xffff with (Z.ones 16).
  change 0xff with (Z.ones 8).
  rewrite !Z.land_ones by lia.
  rewrite Z.mod_mod_divide by (exists (2 ^ 48); reflexivity).
  change (2 ^ 16) with (256 * 256). change (2 ^ 8) with 256.
  pose proof (Z.div_mod cache 256 ltac:(lia)) as Hdm.
  pose proof (Z.mod_pos_bound cache 256 ltac:(lia)) as Hm.
  rewrite Hdm at 1.
  replace ((256 * (cache / 256) + cache mod 256) * 256 + b)
    with (cache mod 256 * 256 + b + (cache / 256) * (256 * 256)) by ring.
  rewrite Z.mod_add by lia.
  apply Z.mod_small. nia.
Qed.

Lemma cache_low16_low8 (cache : Z) :
  Z.land cache 0xffff = 0 -> Z.land cache 0xff = 0.
Proof.
  change 0xffff with (Z.ones 16). change 0xff with (Z.ones 8).
  rewrite !Z.land_ones by lia. intros H16.
  rewrite <- (Z.mod_mod_divide cache (2 ^ 16) (2 ^ 8))
    by (exists (2 ^ 8); reflexivity).
  rewrite H16. reflexivity.
Qed.

(** How [ep_reduce] steps over the head of a range. *)
Lemma ep_reduce_nonzero (b : Z) (data : list Z) :
  b <> 0 -> ep_reduce (b :: data) = b :: ep_reduce data.
Proof.
  intros Hb. cbn [ep_reduce].
  destruct data as [|b1 [|b2 data3]]; try reflexivity.
  destruct (Z.eqb_spec b 0); [contradiction|reflexivity].
Qed.

Lemma ep_reduce_zero_nonzero (b : Z) (data : list Z) :
  b <> 0 -> ep_reduce (0 :: b :: data) = 0 :: ep_reduce (b :: data).
Proof.
  intros Hb. change (ep_reduce (0 :: b :: data)) with
    (match data with
     | b2 :: data3 =>
         if (0 =? 0) && (b =? 0) && (b2 =? 3)
         then 0 :: 0 :: ep_reduce data3
         else 0 :: ep_reduce (b :: data)
     | [] => 0 :: ep_reduce (b :: data)
     end).
  destruct data as [|b2 data3]; [reflexivity|].
  destruct (Z.eqb_spec b 0); [contradiction|reflexivity].
Qed.

Lemma ep_reduce_zero_zero (b : Z) (data : list Z) :
  b <> 3 -> ep_reduce (0 :: 0 :: b :: data) = 0 :: ep_reduce (0 :: b :: data).
Proof.
  intros Hb. change (ep_reduce (0 :: 0 :: b :: data)) with
    (if (0 =? 0) && (0 =? 0) && (b =? 3)
     then 0 :: 0 :: ep_reduce data
     else 0 :: ep_reduce (0 :: b :: data)).
  destruct (Z.eqb_spec b 3); [contradiction|reflexivity].
Qed.

Lemma has_marker_zero_three_tail (b : Z) (data : list Z) :
  has_marker_zero_three (b :: data) = false ->
  has_marker_zero_three data = false.
Proof.
  cbn [has_marker_zero_three].
  destruct data as [|b1 [|b2 [|b3 [|b4 data5]]]]; try reflexivity.
  intros Hor. apply orb_false_elim in Hor. apply Hor.
Qed.

(** The three situations of the cache against the bytes the transformed
    range still has to give: the last cached byte is not zero; it is zero
    and stands for one pending zero of the range; the last two are zero and
    stand for two pending zeros. *)
Lemma bs_cached_bytes_ep_reduce (m : nat) :
  forall (data : list Z) (cache : Z),
  (length data <= m)%nat ->
  is_byte_range data ->
  (Z.land cache 0xff <> 0 ->
   has_marker_zero_three data = false ->
   bs_cached_bytes cache data = ep_reduce data) /\
  (Z.land cache 0xff = 0 ->
   (Z.land cache 0xffff <> 0 \/ head data <> Some 3) ->
   has_marker_zero_three (0 :: data) = false ->
   0 :: bs_cached_bytes cache data = ep_reduce (0 :: data)) /\
  (Z.land cache 0xffff = 0 ->
   has_marker_zero_three (0 :: 0 :: data) = false ->
   0 :: 0 :: bs_cached_bytes cache data = ep_reduce (0 :: 0 :: data)).
Proof.
  induction m as [|m IH]; intros data cache Hm Hrange.
  { destruct data; [|cbn in Hm; lia]. repeat split; reflexivity. }
  destruct data as [|b data1]; [repeat split; reflexivity|].
  apply Forall_cons in Hrange as [Hb Hrange1].
  assert (length data1 <= m)%nat as Hm1 by (cbn in Hm; lia).
  pose proof (cache_push_low8 cache b Hb) as Hlow8.
  pose proof (cache_push_low16 cache b Hb) as Hlow16.
  destruct (IH data1 (to_guint64 (Z.lor (Z.shiftl cache 8) b)) Hm1 Hrange1)
    as (IHn & IHz & IHzz).
  rewrite Hlow8 in IHn, IHz. rewrite Hlow16 in IHz, IHzz.
  split; [|split].
  - (* the last cached byte is not zero: [b] is kept *)
    intros Hc Hpat. cbn [bs_cached_bytes].
    assert ((Z.land cache 0xffff =? 0) = false) as ->.
    { apply Z.eqb_neq. intros H16. apply Hc, cache_low16_low8, H16. }
    rewrite andb_false_r.
    destruct (Z.eq_dec b 0) as [->|Hb0].
    + apply IHz; [reflexivity|left; lia|exact Hpat].
    + rewrite ep_reduce_nonzero by exact Hb0. f_equal.
      apply IHn; [exact Hb0|].
      apply (has_marker_zero_three_tail b), Hpat.
  - (* one pending zero *)
    intros Hc Hkeep Hpat. cbn [bs_cached_bytes].
    assert ((b =? 3) && (Z.land cache 0xffff =? 0) = false) as ->.
    { destruct Hkeep as [H16|Hhd].
      - apply Z.eqb_neq in H16. rewrite H16. apply andb_false_r.
      - destruct (Z.eqb_spec b 3) as [->|]; [|reflexivity].
        exfalso. apply Hhd. reflexivity. }
    destruct (Z.eq_dec b 0) as [->|Hb0].
    + f_equal. apply IHzz; [lia|exact Hpat].
    + rewrite ep_reduce_zero_nonzero, ep_reduce_nonzero by exact Hb0.
      do 2 f_equal. apply IHn; [exact Hb0|].
      apply (has_marker_zero_three_tail b), (has_marker_zero_three_tail 0).
      exact Hpat.
  - (* two pending zeros: a [03] is dropped and the byte behind it kept *)
    intros Hc Hpat. cbn [bs_cached_bytes].
    rewrite Hc. change (0 =? 0) with true. rewrite andb_true_r.
    destruct (Z.eqb_spec b 3) as [->|Hb3].
    + change (ep_reduce (0 :: 0 :: 3 :: data1))
        with (0 :: 0 :: ep_reduce data1).
      do 2 f_equal.
      destruct data1 as [|b' data2]; [reflexivity|].
      apply Forall_cons in Hrange1 as [Hb' Hrange2].
      assert (length data2 <= m)%nat as Hm2 by (cbn in Hm1; lia).
      destruct (IH data2 (to_guint64 (Z.lor (Z.shiftl cache 8) b'))
                  Hm2 Hrange2) as (IHn' & IHz' & _).
      rewrite (cache_push_low8 cache b' Hb') in IHn', IHz'.
      rewrite (cache_push_low16 cache b' Hb') in IHz'.
      assert (has_marker_zero_three (b' :: data2) = false) as Hpat'.
      { apply (has_marker_zero_three_tail 3), (has_marker_zero_three_tail 0),
          (has_marker_zero_three_tail 0), Hpat. }
      destruct (Z.eq_dec b' 0) as [->|Hb'0].
      * apply IHz'; [reflexivity| |exact Hpat'].
        right. destruct data2 as [|b'' data3]; [discriminate|].
        cbn [head]. intros [= ->]. cbn in Hpat. discriminate Hpat.
      * rewrite ep_reduce_nonzero by exact Hb'0. f_equal.
        apply IHn'; [exact Hb'0|].
        apply (has_marker_zero_three_tail b'), Hpat'.
    + rewrite ep_reduce_zero_zero by exact Hb3.
      destruct (Z.eq_dec b 0) as [->|Hb0].
      * f_equal. apply IHzz; [apply cache_low16_low8 in Hc; lia|].
        apply (has_marker_zero_three_tail 0), Hpat.
      * rewrite ep_reduce_zero_nonzero, ep_reduce_nonzero by exact Hb0.
        do 3 f_equal. apply IHn; [exact Hb0|].
        apply (has_marker_zero_three_tail b), (has_marker_zero_three_tail 0),
          (has_marker_zero_three_tail 0), Hpat.
Qed.

(** On a range of bytes that does not contain [00 00 03 00 03], reading
    with [gst_nal_bs_read] gives, for every sequence of reads, what a reader
    without emulation-prevention handling gives over the transformed
    range. *)
Lemma bs_reads_ep_reduce (data : list Z) (ns : list Z) :
  is_byte_range data ->
  has_marker_zero_three data = false ->
  bs_reads (gst_nal_bs_init data) ns
  = bs_reads_plain (gst_nal_bs_init (ep_reduce data)) ns.
Proof.
  intros Hrange Hpat. rewrite bs_reads_cached. do 2 f_equal.
  apply (bs_cached_bytes_ep_reduce (length data) data 0xffffffff
           ltac:(lia) Hrange); [discriminate|exact Hpat].
Qed.

Lemma forall_range_spec (f : Z -> bool) (count : nat) :
  forall start, forall_range f start count = true ->
  forall v, start <= v < start + Z.of_nat count -> f v = true.
Proof.
  induction count as [|count IH]; intros start Hall v Hv.
  - lia.
  - cbn [forall_range] in Hall. apply andb_prop in Hall as [Hstart Hrest].
    destruct (Z.eq_dec v start) as [->|Hne]; [exact Hstart|].
    apply (IH (start + 1) Hrest). lia.
Qed.

Lemma ue_roundtrip_all (rest : list Z) :
  forall_range (ue_roundtrip_ok rest) 0 (Z.to_nat 65536) = true.
Proof. destruct rest; vm_compute; reflexivity. Qed.

(** C1, at the input on which the reader and the specification part: in
    [00 00 03 00 03] only the first [03] follows [00 00], and reading the
    reduced range [00 00 00 03] without emulation-prevention handling gives
    the bytes 0, 0, 0, 3; [gst_nal_bs_read] tests the cache, which holds
    [00 00] again once the byte after the dropped [03] is in it, drops the
    second [03] as well and ends the range one byte early. *)
Theorem bs_read_drops_byte_after_marker :
  ep_reduce [0; 0; 3; 0; 3] = [0; 0; 0; 3] /\
  bs_reads_plain (gst_nal_bs_init (ep_reduce [0; 0; 3; 0; 3])) [8; 8; 8; 8]
    = [0; 0; 0; 3] /\
  bs_reads (gst_nal_bs_init [0; 0; 3; 0; 3]) [8; 8; 8; 8] = [0; 0; 0; 0].
Proof. repeat split; vm_compute; reflexivity. Qed.

(** C2: for every [v] in [0, 2^16), [gst_nal_bs_read_ue] over the bytes that
    hold the Exp-Golomb code of [v], whatever bytes follow them, returns
    [v]. *)
Theorem read_ue_roundtrip (v : Z) (rest : list Z) :
  0 <= v < 2 ^ 16 ->
  fst (gst_nal_bs_read_ue (gst_nal_bs_init (pack_bits (ue_encode v) ++ rest)))
  = v.
Proof.
  intros Hv.
  apply Z.eqb_eq.
  apply (forall_range_spec (ue_roundtrip_ok rest) _ 0 (ue_roundtrip_all rest)).
  change (Z.of_nat (Z.to_nat 65536)) with 65536. lia.
Qed.

Lemma read_ue_roundtrip_witness :
  0 <= 13 < 2 ^ 16 /\
  fst (gst_nal_bs_read_ue (gst_nal_bs_init (pack_bits (ue_encode 13) ++ [0x80])))
  = 13.
Proof. split; [lia | apply (read_ue_roundtrip 13 [0x80]); lia]. Defined.

(** ** Parameter sets *)

Lemma sps_store_eq (k : Z) (upd : GstH264Sps -> GstH264Sps) (s : GstH264Sps)
    (h : GstH264Parse) (bs : GstNalBs) :
  sps_buffers h !! k = Some s ->
  sps_store (Some k) upd h bs
  = Ret (tt, set_sps_buffers (<[k := upd s]> (sps_buffers h)) h, bs).
Proof.
  intros Hk. unfold sps_store, dec_bind, sps_load, dec_modify.
  rewrite Hk. reflexivity.
Qed.

Lemma sps_buffers_set_sps_buffers (m : gmap Z GstH264Sps) (h : GstH264Parse) :
  sps_buffers (set_sps_buffers m h) = m.
Proof. destruct h; reflexivity. Qed.

Lemma set_sps_buffers_twice (m m' : gmap Z GstH264Sps) (h : GstH264Parse) :
  set_sps_buffers m (set_sps_buffers m' h) = set_sps_buffers m h.
Proof. destruct h; reflexivity. Qed.

Lemma sps_buffers_set_sps (p : option Z) (h : GstH264Parse) :
  sps_buffers (set_sps p h) = sps_buffers h.
Proof. destruct h; reflexivity. Qed.

Lemma set_sps_buffers_set_sps (m : gmap Z GstH264Sps) (p : option Z)
    (h : GstH264Parse) :
  set_sps_buffers m (set_sps p h) = set_sps p (set_sps_buffers m h).
Proof. destruct h; reflexivity. Qed.

(** C3, as the code has it: when the [log2_max_frame_num_minus4] field of
    the message decodes to 13 and its [sps_id] is inside the table,
    [gst_nal_decode_sps] returns FALSE, and the table entry of that
    [sps_id] is the prior entry (a zeroed one if there was none) with
    [profile_idc] and [level_idc] of the message and
    [log2_max_frame_num_minus4] equal to 13; [h->sps] points to it. *)
Theorem decode_sps_bad_log2_writes_entry (h : GstH264Parse) (bs : GstNalBs)
    (profile level v_id v_log2 : Z) (bs1 bs2 bs3 : GstNalBs) :
  sps_read_prefix bs = (profile, level, bs1) ->
  gst_nal_bs_read_ue bs1 = (v_id, bs2) ->
  to_guint8 v_id < MAX_SPS_COUNT ->
  gst_nal_bs_read_ue (sps_read_chroma profile bs2) = (v_log2, bs3) ->
  to_guint8 v_log2 = 13 ->
  gst_nal_decode_sps h bs
  = Ret (FALSE,
         set_sps (Some (to_guint8 v_id))
           (set_sps_buffers
              (<[to_guint8 v_id :=
                   set_log2_max_frame_num_minus4 13
                     (set_level_idc level
                        (set_profile_idc profile
                           (sps_entry h (to_guint8 v_id))))]>
                 (sps_buffers h)) h),
         bs3).
Proof.
  intros Hprefix Hid Hrange Hlog2 H13.
  unfold gst_nal_decode_sps, dec_bind at 1, dec_reader at 1.
  rewrite Hprefix.
  unfold dec_bind at 1, dec_read_ue at 1. rewrite Hid.
  unfold dec_bind at 1, dec_h at 1.
  unfold gst_h264_parse_get_sps.
  destruct (MAX_SPS_COUNT <=? to_guint8 v_id) eqn:Hge;
    [apply Z.leb_le in Hge; lia|].
  fold (sps_entry h (to_guint8 v_id)).
  set (k := to_guint8 v_id). set (e := sps_entry h k).
  unfold dec_bind at 1, dec_modify at 1.
  unfold dec_bind at 1.
  erewrite sps_store_eq; last first.
  { rewrite sps_buffers_set_sps, sps_buffers_set_sps_buffers.
    apply lookup_insert_eq. }
  unfold dec_bind at 1.
  erewrite sps_store_eq; last first.
  { rewrite sps_buffers_set_sps_buffers. apply lookup_insert_eq. }
  unfold dec_bind at 1, dec_reader at 1.
  unfold dec_bind at 1, dec_read_ue at 1. rewrite Hlog2.
  unfold dec_bind at 1.
  erewrite sps_store_eq; last first.
  { rewrite sps_buffers_set_sps_buffers. apply lookup_insert_eq. }
  rewrite H13. cbn [Z.ltb Z.compare Pos.compare Pos.compare_cont].
  unfold dec_ret. f_equal. f_equal. f_equal.
  rewrite !sps_buffers_set_sps_buffers, !set_sps_buffers_twice.
  rewrite sps_buffers_set_sps, set_sps_buffers_set_sps.
  rewrite set_sps_buffers_twice.
  rewrite ?insert_insert_eq, ?sps_buffers_set_sps_buffers, ?insert_insert_eq.
  reflexivity.
Qed.

Lemma decode_sps_bad_log2_writes_entry_witness :
  sps_read_prefix (gst_nal_bs_init sample_sps_log2_13)
  = (66, 30, MkBs [0x8e] 0 0xffffffff42001e) /\
  gst_nal_decode_sps h264parse_init (gst_nal_bs_init sample_sps_log2_13)
  = Ret (FALSE,
         set_sps (Some 0)
           (set_sps_buffers
              {[ 0 := set_log2_max_frame_num_minus4 13
                        (set_level_idc 30 (set_profile_idc 66 sps_new0)) ]}
              h264parse_init),
         MkBs [] 0 0xffffffff42001e8e).
Proof.
  split; [vm_compute; reflexivity|].
  apply (decode_sps_bad_log2_writes_entry h264parse_init
           (gst_nal_bs_init sample_sps_log2_13) 66 30 0 13
           (MkBs [0x8e] 0 0xffffffff42001e) (MkBs [] 7 0xffffffff42001e8e)
           (MkBs [] 0 0xffffffff42001e8e));
    vm_compute; reflexivity.
Defined.

(** C3 as stated fails: decoding [sample_sps_log2_13] returns FALSE, but
    the entry of [sps_id] 0 is not what it was before the call, both when
    it held a decoded SPS and when it was absent. *)
Lemma decode_sps_bad_log2_changes_entry :
  (exists h' bs',
     gst_nal_decode_sps h264parse_after_sps (gst_nal_bs_init sample_sps_log2_13)
     = Ret (FALSE, h', bs') /\
     log2_max_frame_num_minus4 <$> sps_buffers h264parse_after_sps !! 0
     = Some 0 /\
     log2_max_frame_num_minus4 <$> sps_buffers h' !! 0 = Some 13 /\
     sps_buffers h' !! 0 <> sps_buffers h264parse_after_sps !! 0) /\
  (exists h' bs',
     gst_nal_decode_sps h264parse_init (gst_nal_bs_init sample_sps_log2_13)
     = Ret (FALSE, h', bs') /\
     sps_buffers h264parse_init !! 0 = None /\
     log2_max_frame_num_minus4 <$> sps_buffers h' !! 0 = Some 13 /\
     sps_buffers h' !! 0 <> sps_buffers h264parse_init !! 0).
Proof.
  split.
  - destruct (gst_nal_decode_sps h264parse_after_sps
                (gst_nal_bs_init sample_sps_log2_13))
      as [[[r h'] bs']| |] eqn:E; [|vm_compute in E; discriminate..].
    exists h', bs'.
    assert (r = FALSE /\
            log2_max_frame_num_minus4 <$> sps_buffers h' !! 0 = Some 13)
      as [-> Hafter].
    { vm_compute in E. injection E as <- <- _. split; reflexivity. }
    assert (log2_max_frame_num_minus4 <$> sps_buffers h264parse_after_sps !! 0
            = Some 0) as Hbefore by (vm_compute; reflexivity).
    split; [reflexivity|].
    split; [exact Hbefore|].
    split; [exact Hafter|].
    intros Heq. rewrite Heq, Hbefore in Hafter. discriminate Hafter.
  - destruct (gst_nal_decode_sps h264parse_init
                (gst_nal_bs_init sample_sps_log2_13))
      as [[[r h'] bs']| |] eqn:E; [|vm_compute in E; discriminate..].
    exists h', bs'.
    assert (r = FALSE /\
            log2_max_frame_num_minus4 <$> sps_buffers h' !! 0 = Some 13)
      as [-> Hafter].
    { vm_compute in E. injection E as <- <- _. split; reflexivity. }
    assert (sps_buffers h264parse_init !! 0 = None) as Hbefore
      by (vm_compute; reflexivity).
    split; [reflexivity|].
    split; [exact Hbefore|].
    split; [exact Hafter|].
    intros Heq. rewrite Heq, Hbefore in Hafter. discriminate Hafter.
Qed.

(** ** SEI messages *)

Lemma dec_bind_ret_inv {A B : Type} (m : Dec A) (k : A -> Dec B)
    (h : GstH264Parse) (bs : GstNalBs) (r : B * GstH264Parse * GstNalBs) :
  dec_bind m k h bs = Ret r ->
  exists a h1 bs1, m h bs = Ret (a, h1, bs1) /\ k a h1 bs1 = Ret r.
Proof.
  unfold dec_bind. destruct (m h bs) as [[[a h1] bs1]| |]; [|discriminate..].
  intros Hk. exists a, h1, bs1. split; [reflexivity | exact Hk].
Qed.

Lemma dec_ret_inv {A : Type} (a b : A) (h h' : GstH264Parse)
    (bs bs' : GstNalBs) :
  dec_ret a h bs = Ret (b, h', bs') -> b = a.
Proof. unfold dec_ret. intros [= <- _ _]. reflexivity. Qed.

(** Take a hypothesis on a sequence of decoder steps apart, down to its
    last step. *)
Ltac dec_last H :=
  repeat
    (let a := fresh "a" in
     let h1 := fresh "h" in
     let bs1 := fresh "bs" in
     let Hm := fresh "Hm" in
     apply dec_bind_ret_inv in H as (a & h1 & bs1 & Hm & H)).

(** The payload type and size loops end before the range does: with the
    number of bytes left as the bound, [sei_read_ff] returns. *)
Lemma sei_read_ff_total (fuel : nat) :
  forall (acc : Z) (h : GstH264Parse) (bs : GstNalBs),
  0 <= bs_head bs < 8 -> (length (bs_data bs) <= fuel)%nat ->
  exists v bs',
    sei_read_ff fuel acc h bs = Ret (v, h, bs') /\ 0 <= bs_head bs' < 8.
Proof.
  induction fuel as [|fuel IH]; intros acc h bs Hhead Hlen;
    cbn [sei_read_ff]; unfold dec_bind, dec_read;
    destruct (gst_nal_bs_read bs 8) as [v bs1] eqn:Hread;
    destruct (gst_nal_bs_read_inv bs bs1 8 v Hhead ltac:(lia) Hread)
      as [Hhead1 Hlen1];
    destruct (Z.eqb_spec (to_guint8 v) 255) as [H255|_];
    try (eexists _, _; split; [reflexivity | exact Hhead1]).
  - pose proof (gst_nal_bs_read_255 _ _ _ Hhead Hread H255). lia.
  - pose proof (gst_nal_bs_read_255 _ _ _ Hhead Hread H255).
    apply IH; [exact Hhead1 | lia].
Qed.

Lemma sei_decode_header_total (h : GstH264Parse) (bs : GstNalBs) :
  0 <= bs_head bs < 8 ->
  exists payloadType bs1,
    sei_decode_header h bs = Ret (payloadType, h, bs1) /\
    0 <= bs_head bs1 < 8.
Proof.
  intros Hhead. unfold sei_decode_header, sei_read_ff_all.
  unfold dec_bind at 1 2, dec_bs at 1.
  destruct (sei_read_ff_total (length (bs_data bs)) 0 h bs Hhead ltac:(lia))
    as (t & bs1 & -> & Hhead1).
  unfold dec_bind at 1 2, dec_bs at 1.
  destruct (sei_read_ff_total (length (bs_data bs1)) 0 h bs1 Hhead1
              ltac:(lia)) as (sz & bs2 & -> & Hhead2).
  eexists _, _. split; [reflexivity | exact Hhead2].
Qed.

(** Whenever [gst_sei_decode_buffering_period] returns, it returns 0. *)
Lemma buffering_period_returns_0 (h h' : GstH264Parse) (bs bs' : GstNalBs)
    (r : Z) :
  gst_sei_decode_buffering_period h bs = Ret (r, h', bs') -> r = 0.
Proof.
  unfold gst_sei_decode_buffering_period. intros H.
  apply dec_bind_ret_inv in H as (v & h1 & bs1 & _ & H).
  apply dec_bind_ret_inv in H as (h2 & h3 & bs3 & _ & H).
  destruct (gst_h264_parse_get_sps h2 (to_guint8 v)) as [[k|] h4].
  - dec_last H. exact (dec_ret_inv _ _ _ _ _ _ H).
  - dec_last H. exact (dec_ret_inv _ _ _ _ _ _ H).
Qed.

(** Whenever [gst_sei_decode_picture_timing] returns, it returns 0. *)
Lemma picture_timing_returns_0 (h h' : GstH264Parse) (bs bs' : GstNalBs)
    (r : Z) :
  gst_sei_decode_picture_timing h bs = Ret (r, h', bs') -> r = 0.
Proof.
  unfold gst_sei_decode_picture_timing. intros H.
  apply dec_bind_ret_inv in H as (h1 & h2 & bs2 & _ & H).
  destruct (sps h1) as [k|]; [|exact (dec_ret_inv _ _ _ _ _ _ H)].
  apply dec_bind_ret_inv in H as (s & h3 & bs3 & _ & H).
  apply dec_bind_ret_inv in H as (u & h4 & bs4 & _ & H).
  destruct (negb (pic_struct_present_flag s =? 0));
    [|exact (dec_ret_inv _ _ _ _ _ _ H)].
  apply dec_bind_ret_inv in H as (v & h5 & bs5 & _ & H).
  apply dec_bind_ret_inv in H as (u1 & h6 & bs6 & _ & H).
  apply dec_bind_ret_inv in H as (u2 & h7 & bs7 & _ & H).
  destruct (SEI_PIC_STRUCT_FRAME_TRIPLING <? v);
    [exact (dec_ret_inv _ _ _ _ _ _ H)|].
  destruct (sei_num_clock_ts_table !! Z.to_nat v) as [n|]; [|discriminate].
  apply dec_bind_ret_inv in H as (u3 & h8 & bs8 & _ & H).
  exact (dec_ret_inv _ _ _ _ _ _ H).
Qed.

(** C10: when [gst_nal_decode_sei] reads a buffering-period or a
    picture-timing payload type, every result of the inner decoder is 0,
    and [gst_nal_decode_sei] returns FALSE with the state the inner decoder
    left. *)
Theorem decode_sei_false_on_decoded_payload (h h1 h2 : GstH264Parse)
    (bs bs1 bs2 : GstNalBs) (payloadType r : Z) :
  sei_decode_header h bs = Ret (payloadType, h1, bs1) ->
  payloadType = SEI_BUF_PERIOD \/ payloadType = SEI_PIC_TIMING ->
  sei_inner_decoder payloadType h1 bs1 = Ret (r, h2, bs2) ->
  r = 0 /\ gst_nal_decode_sei h bs = Ret (FALSE, h2, bs2).
Proof.
  intros Hhead Hty Hinner.
  assert (r = 0) as ->.
  { destruct Hty as [-> | ->]; unfold sei_inner_decoder in Hinner.
    - exact (buffering_period_returns_0 _ _ _ _ _ Hinner).
    - exact (picture_timing_returns_0 _ _ _ _ _ Hinner). }
  split; [reflexivity|].
  unfold gst_nal_decode_sei, dec_bind at 1. rewrite Hhead.
  unfold sei_inner_decoder in Hinner.
  destruct Hty as [-> | ->].
  - change (SEI_BUF_PERIOD =? SEI_BUF_PERIOD) with true in *. cbv iota in *.
    unfold dec_bind. rewrite Hinner. reflexivity.
  - change (SEI_PIC_TIMING =? SEI_BUF_PERIOD) with false in *.
    change (SEI_PIC_TIMING =? SEI_PIC_TIMING) with true. cbv iota in *.
    unfold dec_bind. rewrite Hinner. reflexivity.
Qed.

Lemma decode_sei_false_on_decoded_payload_witness :
  exists h2 bs2,
    gst_nal_decode_sei h264parse_hrd (gst_nal_bs_init sample_sei)
    = Ret (FALSE, h2, bs2) /\
    initial_cpb_removal_delay h2 !! 0%nat = Some 42.
Proof.
  eexists _, _. split.
  - eapply (decode_sei_false_on_decoded_payload h264parse_hrd _ _
              (gst_nal_bs_init sample_sei) _ _ SEI_BUF_PERIOD 0).
    + vm_compute; reflexivity.
    + left; reflexivity.
    + vm_compute; reflexivity.
  - vm_compute; reflexivity.
Defined.

(** C9, at a message that names a known SPS: the delay is read and stored,
    and the function returns FALSE, the value it returns for an [sps_id]
    outside the table. *)
Theorem buffering_period_known_sps_returns_false :
  sps_buffers h264parse_hrd !! 0 = Some sample_sps_hrd /\
  (exists h' bs',
     gst_sei_decode_buffering_period h264parse_hrd
       (gst_nal_bs_init sample_buffering_period)
     = Ret (FALSE, h', bs') /\
     initial_cpb_removal_delay h' !! 0%nat = Some 42) /\
  (exists bs',
     gst_sei_decode_buffering_period h264parse_hrd
       (gst_nal_bs_init sample_buffering_period_sps32)
     = Ret (FALSE, h264parse_hrd, bs')).
Proof.
  split; [vm_compute; reflexivity|]. split.
  - destruct (gst_sei_decode_buffering_period h264parse_hrd
                (gst_nal_bs_init sample_buffering_period))
      as [[[r h'] bs']| |] eqn:E; [|vm_compute in E; discriminate..].
    exists h', bs'.
    rewrite (buffering_period_returns_0 _ _ _ _ _ E). split; [reflexivity|].
    vm_compute in E. injection E as _ <- _. reflexivity.
  - eexists. vm_compute. reflexivity.
Qed.

(** ** Flush and reset *)

(** C4, as the code has it: [gst_h264_parse_clear_queues], and the
    FLUSH_STOP event that calls it, are idempotent; afterwards the gather
    list, the carry-over buffer, the decode queue and the adapter are
    empty and [have_i_frame] is false; the parameter-set tables and the
    [sps] and [pps] pointers are what they were before. *)
Theorem clear_queues_idempotent_keeps_tables
    (gst_pad_push : GstBuffer -> GstFlowReturn) (h : GstH264Parse) :
  let h1 := gst_h264_parse_clear_queues h in
  gst_h264_parse_clear_queues h1 = h1 /\
  gst_h264_parse_sink_event gst_pad_push h GST_EVENT_FLUSH_STOP
  = Ret (set_segment gst_segment_init h1, []) /\
  gst_h264_parse_sink_event gst_pad_push (set_segment gst_segment_init h1)
    GST_EVENT_FLUSH_STOP
  = Ret (set_segment gst_segment_init h1, []) /\
  gather h1 = [] /\ prev h1 = None /\ decode h1 = [] /\ decode_len h1 = 0 /\
  adapter h1 = [] /\ have_i_frame h1 = false /\
  sps_buffers h1 = sps_buffers h /\ pps_buffers h1 = pps_buffers h /\
  sps h1 = sps h /\ pps h1 = pps h.
Proof.
  destruct h as [sp nls seg pk dc ga [pv|] de dl hi ad sb pb s p icrd scrd sdod
                 sps_ sct d_ ttn];
    cbn; repeat split; reflexivity.
Qed.

(** C4 as stated fails: after an SPS has been decoded, the flush leaves it
    in the SPS table. *)
Lemma clear_queues_keeps_decoded_sps :
  (exists bs',
     gst_nal_decode_sps h264parse_init (gst_nal_bs_init sample_sps)
     = Ret (TRUE, h264parse_after_sps, bs')) /\
  profile_idc <$>
    sps_buffers (gst_h264_parse_clear_queues h264parse_after_sps) !! 0
  = Some 66 /\
  sps_buffers (gst_h264_parse_clear_queues h264parse_after_sps) <> ∅.
Proof.
  split; [eexists; vm_compute; reflexivity|].
  split; [vm_compute; reflexivity|].
  intros Hempty.
  assert (sps_buffers (gst_h264_parse_clear_queues h264parse_after_sps) !! 0
          = None) as Hnone by (rewrite Hempty; apply lookup_empty).
  vm_compute in Hnone. discriminate.
Qed.

(** ** The forward path *)

Lemma to_guint32_small (x : Z) : 0 <= x < 2 ^ 32 -> to_guint32 x = x.
Proof.
  intros Hx. unfold to_guint32.
  change 0xffffffff with (Z.ones 32).
  rewrite Z.land_ones by lia. apply Z.mod_small. exact Hx.
Qed.

(** Without wrap-around of the 32-bit sum, an implausible NALU size is
    replaced by the bytes available behind the length field. *)
Lemma packetized_nalu_size_clamps (nal_length_size avail nalu_size : Z) :
  0 <= nalu_size -> 0 <= nal_length_size <= avail -> avail < 2 ^ 32 ->
  nalu_size + nal_length_size < 2 ^ 32 ->
  nalu_size <= 1 \/ avail < nalu_size + nal_length_size ->
  packetized_nalu_size nal_length_size avail nalu_size
  = avail - nal_length_size.
Proof.
  intros Hn Hl Ha Hsum Hbad. unfold packetized_nalu_size.
  rewrite (to_guint32_small (nalu_size + nal_length_size)) by lia.
  rewrite (to_guint32_small (avail - nal_length_size)) by lia.
  destruct (nalu_size <=? 1) eqn:E1; [reflexivity|].
  destruct (avail <? nalu_size + nal_length_size) eqn:E2; [reflexivity|].
  apply Z.leb_gt in E1. apply Z.ltb_ge in E2. lia.
Qed.

(** C6, at a length field for which the clamp is missed: the 32-bit sum
    of 0xffffffff and the prefix size 4 wraps to 3, the test against the
    bytes available does not fire, and with [split-packetized] set the
    parser pushes a unit of 3 bytes, where the clamped size makes it 6;
    for 0xfffffffc the sum wraps to 0 and nothing is pushed at all. *)
Theorem packetized_length_wraps_past_clamp :
  read_nalu_size (buf_data sample_length_ffffffff) 0 4 0 = Ret 0xffffffff /\
  packetized_nalu_size 4 6 0xffffffff = 0xffffffff /\
  packetized_next_nalu_pos true 4 6 0xffffffff = 3 /\
  packetized_next_nalu_pos true 4 6 (6 - 4) = 6 /\
  (exists h',
     gst_h264_parse_chain_forward push_ok h264parse_split false
       sample_length_ffffffff
     = Ret (GST_FLOW_OK, h', [MkBuffer [0xff; 0xff; 0xff] 7 false true]) /\
     adapter h' = [0xff; 0x41; 0xc0]) /\
  (exists h',
     gst_h264_parse_chain_forward push_ok h264parse_split false
       sample_length_fffffffc
     = Ret (GST_FLOW_OK, h', []) /\
     adapter h' = buf_data sample_length_fffffffc).
Proof.
  repeat split; try (vm_compute; reflexivity);
    eexists; split; vm_compute; reflexivity.
Qed.

Lemma find_next_nalu_found (d : list Z) :
  forall (i : Z) (k : nat),
  start_code_at d k -> (k + 4 < length d)%nat ->
  (forall j : nat, (j < k)%nat -> ~ start_code_at d j) ->
  find_next_nalu d i = i + Z.of_nat k.
Proof.
  induction d as [|b0 d1 IH]; intros i k Hk Hlen Hfirst.
  - cbn in Hlen. lia.
  - destruct k as [|k].
    + destruct Hk as (H0 & H1 & H2 & H3).
      destruct d1 as [|b1 [|b2 [|b3 [|b4 d5]]]]; cbn in Hlen; try lia.
      cbn in H0, H1, H2, H3.
      injection H0 as ->. injection H1 as ->.
      injection H2 as ->. injection H3 as ->.
      cbn. lia.
    + assert (find_next_nalu (b0 :: d1) i = find_next_nalu d1 (i + 1)) as ->.
      { destruct d1 as [|b1 [|b2 [|b3 [|b4 d5]]]]; cbn in Hlen; try lia.
        cbn [find_next_nalu].
        destruct ((b0 =? 0) && (b1 =? 0) && (b2 =? 0) && (b3 =? 1)) eqn:E;
          [|reflexivity].
        exfalso. apply (Hfirst 0%nat); [lia|].
        apply andb_prop in E as [E E3]. apply andb_prop in E as [E E2].
        apply andb_prop in E as [E0 E1].
        apply Z.eqb_eq in E0, E1, E2, E3. subst.
        repeat split; reflexivity. }
      rewrite (IH (i + 1) k).
      * lia.
      * exact Hk.
      * cbn in Hlen. lia.
      * intros j Hj Hsc. apply (Hfirst (S j)); [lia | exact Hsc].
Qed.

Lemma find_next_nalu_none (d : list Z) :
  forall i : Z,
  (forall j : nat, (j + 4 < length d)%nat -> ~ start_code_at d j) ->
  find_next_nalu d i = -1.
Proof.
  induction d as [|b0 d1 IH]; intros i Hnone; [reflexivity|].
  destruct d1 as [|b1 [|b2 [|b3 [|b4 d5]]]]; try reflexivity.
  cbn [find_next_nalu].
  destruct ((b0 =? 0) && (b1 =? 0) && (b2 =? 0) && (b3 =? 1)) eqn:E.
  - exfalso. apply (Hnone 0%nat); [cbn; lia|].
    apply andb_prop in E as [E E3]. apply andb_prop in E as [E E2].
    apply andb_prop in E as [E0 E1].
    apply Z.eqb_eq in E0, E1, E2, E3. subst.
    repeat split; reflexivity.
  - apply IH. intros j Hj Hsc.
    apply (Hnone (S j)); [cbn in Hj |- *; lia | exact Hsc].
Qed.

Lemma byte_at_head (d : list Z) (b : Z) : byte_at (b :: d) 0 = Ret b.
Proof. reflexivity. Qed.

Lemma forward_delta_unit_total (d : list Z) (b : Z) :
  exists delta, forward_delta_unit (b :: d) = Ret delta.
Proof.
  unfold forward_delta_unit. rewrite byte_at_head. cbn [run_bind].
  destruct ((NAL_SLICE <=? Z.land b 31) && (Z.land b 31 <=? NAL_SLICE_IDR)).
  - destruct (gst_nal_bs_read_ue _) as [first_mb bs1].
    destruct (gst_nal_bs_read_ue bs1) as [stype bs2]. eauto.
  - destruct ((NAL_SPS <=? Z.land b 31) && (Z.land b 31 <=? NAL_PPS)); eauto.
Qed.

Lemma forward_delta_unit_sps (d : list Z) (b : Z) :
  Z.land b 0x1f = NAL_SPS -> forward_delta_unit (b :: d) = Ret false.
Proof.
  intros Hb. unfold forward_delta_unit. rewrite byte_at_head. cbn [run_bind].
  rewrite Hb. reflexivity.
Qed.

(** C5 as stated fails: for a buffer with a start code, an SPS, a start
    code and an IDR slice, one unit is pushed, not two; the IDR slice is
    still in the adapter when the call returns. *)
Lemma forward_sps_idr_pushes_one_unit :
  exists h' out,
    gst_h264_parse_chain_forward push_ok h264parse_init false sample_bytestream
    = Ret (GST_FLOW_OK, h', out) /\
    length out = 1%nat /\
    length out <> 2%nat /\
    adapter h' = start_code ++ sample_idr_nal.
Proof.
  eexists _, _. split; [vm_compute; reflexivity|].
  split; [reflexivity|]. split; [discriminate | reflexivity].
Qed.

Lemma byte_at_inv (buf : list Z) (off b : Z) :
  byte_at buf off = Ret b -> 0 <= off < Z.of_nat (length buf).
Proof.
  unfold byte_at. destruct (Z.leb_spec 0 off) as [Hoff|]; [|discriminate].
  destruct (buf !! Z.to_nat off) as [b'|] eqn:Hb; [|discriminate].
  intros _. apply lookup_lt_Some in Hb. lia.
Qed.

Lemma byte_at_total (buf : list Z) (off : Z) :
  0 <= off < Z.of_nat (length buf) -> exists b, byte_at buf off = Ret b.
Proof.
  intros Hoff. unfold byte_at.
  destruct (Z.leb_spec 0 off) as [_|]; [|lia].
  destruct (lookup_lt_is_Some_2 buf (Z.to_nat off) ltac:(lia)) as [b ->].
  eauto.
Qed.

Lemma to_guint32_nonneg (x : Z) : 0 <= to_guint32 x.
Proof. unfold to_guint32. apply Z.land_nonneg. right. lia. Qed.

(** The length field is read when it lies inside the bytes, and is never
    negative. *)
Lemma read_nalu_size_total (buf : list Z) (count : nat) :
  forall off acc : Z,
  0 <= off -> off + Z.of_nat count <= Z.of_nat (length buf) ->
  exists v, read_nalu_size buf off count acc = Ret v.
Proof.
  induction count as [|count IH]; intros off acc Hoff Hlen; cbn; [eauto|].
  destruct (byte_at_total buf off ltac:(lia)) as [b ->]. cbn.
  apply IH; lia.
Qed.

Lemma read_nalu_size_inv (buf : list Z) (count : nat) :
  forall off acc : Z,
  0 <= acc ->
  match read_nalu_size buf off count acc with
  | Ret v => 0 <= v
  | Undef => True
  | NoFuel => False
  end.
Proof.
  induction count as [|count IH]; intros off acc Hacc; cbn; [exact Hacc|].
  destruct (byte_at buf off) as [b| |] eqn:Hb; cbn; [|exact I|].
  - apply IH. apply to_guint32_nonneg.
  - unfold byte_at in Hb. destruct (0 <=? off); [|discriminate].
    destruct (buf !! Z.to_nat off); discriminate.
Qed.

(** The forward loop returns: it reads inside the adapter only, and the
    size of the adapter bounds its iterations. *)
Lemma chain_forward_loop_total (gst_pad_push : GstBuffer -> GstFlowReturn)
    (fuel : nat) :
  forall (timestamp : Z) (h : GstH264Parse),
  0 <= nal_length_size h < 2 ^ 32 - 1 ->
  (length (adapter h) <= fuel)%nat ->
  exists res h' out,
    chain_forward_loop gst_pad_push fuel timestamp h = Ret (res, h', out).
Proof.
  induction fuel as [|fuel IH]; intros ts h Hnls Hlen;
    destruct h as [sp nls seg pk dc ga pv de dl hi ad sb pb s p icrd scrd
                   sdod sps_ sct d_ ttn];
    cbn [nal_length_size adapter] in Hnls, Hlen;
    cbn [chain_forward_loop adapter nal_length_size packetized
         split_packetized discont];
    rewrite (to_guint32_small (nls + 1)) by lia;
    (destruct (Z.ltb_spec (Z.of_nat (length ad)) (nls + 1)) as [Hlt|Hge];
      [eauto|]).
  - lia.
  - assert (exists pos,
              (if negb pk then Ret (find_next_nalu (drop 1 ad) 1)
               else
                 let+ nalu_size := read_nalu_size ad 0 (Z.to_nat nls) 0 in
                 Ret (packetized_next_nalu_pos sp nls (Z.of_nat (length ad))
                        (packetized_nalu_size nls (Z.of_nat (length ad))
                           nalu_size)))
              = Ret pos) as [pos ->].
    { destruct pk; cbn [negb]; [|eauto].
      destruct (read_nalu_size_total ad (Z.to_nat nls) 0 0 ltac:(lia)
                  ltac:(lia)) as [v ->].
      cbn. eauto. }
    cbn [run_bind].
    destruct (drop (Z.to_nat nls) ad) as [|b d] eqn:Hdrop.
    { apply (f_equal length) in Hdrop. rewrite length_drop in Hdrop.
      cbn in Hdrop. lia. }
    destruct (forward_delta_unit_total d b) as [delta ->]. cbn [run_bind].
    destruct (Z.ltb_spec 0 pos) as [Hpos|_]; [|eauto].
    destruct (flow_is_ok _); [|eauto].
    match goal with
    | |- context [chain_forward_loop _ fuel ts ?h0] =>
        destruct (IH ts h0) as (res & h' & out & ->)
    end.
    + destruct dc; cbn; lia.
    + destruct dc; cbn [adapter set_adapter set_discont discont];
        rewrite length_drop; lia.
    + cbn. eauto.
Qed.

Lemma chain_forward_total (gst_pad_push : GstBuffer -> GstFlowReturn)
    (h : GstH264Parse) (discont : bool) (buffer : GstBuffer) :
  0 <= nal_length_size h < 2 ^ 32 - 1 ->
  exists res h' out,
    gst_h264_parse_chain_forward gst_pad_push h discont buffer
    = Ret (res, h', out).
Proof.
  intros Hnls. unfold gst_h264_parse_chain_forward.
  apply chain_forward_loop_total; [|lia].
  destruct h, discont; exact Hnls.
Qed.

(** ** The decode queue of the reverse path *)

Lemma flush_decode_loop_out (gst_pad_push : GstBuffer -> GstFlowReturn)
    (queue : list GstNalList) :
  forall (first : bool) (res : GstFlowReturn) (len : Z),
  snd (flush_decode_loop gst_pad_push queue first res len)
  = match queue with
    | [] => []
    | link :: next => pushed_unit first link :: (pushed_unit false <$> next)
    end.
Proof.
  induction queue as [|link next IH]; intros first res len; [reflexivity|].
  cbn [flush_decode_loop].
  specialize (IH false
                (gst_pad_push
                   (buf_set_delta_unit (negb (i_frame link))
                      (buf_set_discont first (buffer link))))
                (len - 1)).
  destruct (flush_decode_loop gst_pad_push next false _ (len - 1))
    as [[res' len'] out].
  cbn [snd] in *. rewrite IH. f_equal.
  destruct next; reflexivity.
Qed.

Lemma flush_decode_spec (gst_pad_push : GstBuffer -> GstFlowReturn)
    (h : GstH264Parse) :
  exists res len,
    gst_h264_parse_flush_decode gst_pad_push h
    = (res, set_have_i_frame false (set_decode_len len (set_decode [] h)),
       flush_output (decode h)).
Proof.
  unfold gst_h264_parse_flush_decode.
  pose proof (flush_decode_loop_out gst_pad_push (decode h) true GST_FLOW_OK
                (decode_len h)) as Hout.
  destruct (flush_decode_loop gst_pad_push (decode h) true GST_FLOW_OK
              (decode_len h)) as [[res len] out].
  cbn [snd] in Hout. subst out. exists res, len. reflexivity.
Qed.

Lemma queue_buffer_parse_buffer (fuel : nat) (pk : bool) (nls : Z)
    (buf : list Z) :
  forall (off size : Z) (link link' : GstNalList),
  queue_buffer_parse fuel pk nls buf off size link = Ret link' ->
  buffer link' = buffer link.
Proof.
  induction fuel as [|fuel IH]; intros off size link link' H;
    cbn [queue_buffer_parse] in H;
    (destruct (size <? to_guint32 (nls + 1));
      [injection H as <-; reflexivity|]);
    (destruct (if pk then read_nalu_size buf off (Z.to_nat nls) 0 else Ret 0)
      as [nalu_size| |]; [|discriminate..]);
    cbn [run_bind] in H;
    (destruct (byte_at buf (off + nls)) as [b| |]; [|discriminate..]);
    cbn [run_bind] in H;
    match type of H with
    | (if negb pk then Ret ?l else _) = _ =>
        set (l1 := l) in H; assert (buffer l1 = buffer link) as Hl1
    end;
    try (subst l1; cbn [nal_type];
         destruct ((NAL_SLICE <=? Z.land b 31)
                   && (Z.land b 31 <=? NAL_SLICE_IDR));
           [|reflexivity];
         destruct (gst_nal_bs_read_ue _) as [first_mb bs1];
         destruct (gst_nal_bs_read_ue bs1) as [stype bs2]; reflexivity);
    (destruct (negb pk); [injection H as <-; exact Hl1|]).
  - discriminate.
  - rewrite <- Hl1. exact (IH _ _ _ _ H).
Qed.

Lemma queue_buffer_link_buffer (pk : bool) (nls : Z) (b : GstBuffer)
    (link : GstNalList) :
  queue_buffer_link pk nls b = Ret link -> buffer link = b.
Proof.
  unfold queue_buffer_link. intros H.
  apply queue_buffer_parse_buffer in H. exact H.
Qed.

(** What [gst_h264_parse_queue_buffer] does once the buffer is
    classified. *)
Lemma queue_buffer_classified (gst_pad_push : GstBuffer -> GstFlowReturn)
    (h : GstH264Parse) (b : GstBuffer) (link : GstNalList) :
  queue_buffer_link (packetized h) (nal_length_size h) b = Ret link ->
  exists res len,
    gst_h264_parse_queue_buffer gst_pad_push h b
    = if have_i_frame h && negb (i_frame link) && slice link then
        Ret (res,
             set_decode_len (len + 1)
               (set_decode [link]
                  (set_have_i_frame (i_frame link) h)),
             flush_output (decode h))
      else
        Ret (GST_FLOW_OK,
             set_decode_len (decode_len h + 1)
               (set_decode (link :: decode h)
                  (set_have_i_frame (i_frame link || have_i_frame h) h)),
             []).
Proof.
  intros Hlink. unfold gst_h264_parse_queue_buffer. rewrite Hlink.
  cbn [run_bind].
  destruct (flush_decode_spec gst_pad_push h) as (res & len & Hflush).
  exists res, len. rewrite Hflush.
  destruct h as [sp nls seg pk dc ga pv de dl hi ad sb pb s p icrd scrd sdod
                 sps_ sct d_ ttn].
  cbn. destruct hi, (i_frame link), (slice link); reflexivity.
Qed.

(** C7: with [have_i_frame] set, queuing a buffer classified as a slice
    that is not an I frame pushes the whole decode queue first, in queue
    order, the first buffer with the discontinuity flag and every buffer
    with the delta-unit flag cleared exactly when its link is an I frame;
    the queue then holds the new unit alone. *)
Theorem queue_buffer_flushes_on_non_i_slice
    (gst_pad_push : GstBuffer -> GstFlowReturn) (h : GstH264Parse)
    (b : GstBuffer) (link : GstNalList) :
  have_i_frame h = true ->
  queue_buffer_link (packetized h) (nal_length_size h) b = Ret link ->
  slice link = true ->
  i_frame link = false ->
  exists res h' out,
    gst_h264_parse_queue_buffer gst_pad_push h b = Ret (res, h', out) /\
    buf_data <$> out = (fun l => buf_data (buffer l)) <$> decode h /\
    (forall (i : nat) (u : GstBuffer),
       out !! i = Some u -> buf_discont u = bool_decide (i = 0%nat)) /\
    (forall (i : nat) (u : GstBuffer) (l : GstNalList),
       out !! i = Some u -> decode h !! i = Some l ->
       buf_delta_unit u = negb (i_frame l)) /\
    decode h' = [link] /\ buffer link = b /\ have_i_frame h' = false.
Proof.
  intros Hi Hlink Hslice Hnoti.
  destruct (queue_buffer_classified gst_pad_push h b link Hlink)
    as (res & len & Hq).
  rewrite Hi, Hnoti, Hslice in Hq. cbn [negb andb] in Hq.
  eexists _, _, _. split; [exact Hq|].
  split.
  { destruct (decode h) as [|l q]; [reflexivity|].
    cbn. f_equal. rewrite <- list_fmap_compose. reflexivity. }
  split.
  { intros i u Hu. destruct (decode h) as [|l q]; [discriminate|].
    destruct i as [|i].
    - injection Hu as <-. reflexivity.
    - change ((pushed_unit false <$> q) !! i = Some u) in Hu.
      rewrite list_lookup_fmap in Hu.
      destruct (q !! i); [|discriminate]. injection Hu as <-. reflexivity. }
  split.
  { intros i u l Hu Hl. destruct (decode h) as [|l0 q]; [discriminate|].
    destruct i as [|i].
    - injection Hu as <-. injection Hl as <-. reflexivity.
    - change ((pushed_unit false <$> q) !! i = Some u) in Hu.
      change (q !! i = Some l) in Hl.
      rewrite list_lookup_fmap, Hl in Hu. injection Hu as <-. reflexivity. }
  split; [destruct h; reflexivity|].
  split; [exact (queue_buffer_link_buffer _ _ _ _ Hlink)|].
  destruct h; reflexivity.
Qed.

Lemma queue_buffer_flushes_on_non_i_slice_witness :
  exists res h',
    gst_h264_parse_queue_buffer push_ok h264parse_i_queued unit_p2
    = Ret (res, h',
           [MkBuffer [0; 0; 0; 2; 0x65; 0xb0] 3 true false;
            MkBuffer [0; 0; 0; 2; 0x41; 0xc3] 4 false true]) /\
    decode h' = [link_p2].
Proof.
  destruct (queue_buffer_flushes_on_non_i_slice push_ok h264parse_i_queued
              unit_p2 link_p2)
    as (res & h' & out & Hq & _ & _ & _ & Hdecode & _ & _);
    [reflexivity | vm_compute; reflexivity | reflexivity | reflexivity |].
  exists res, h'. split; [|exact Hdecode].
  rewrite Hq. vm_compute in Hq. injection Hq as _ _ <-. reflexivity.
Defined.

(** With a length or sync prefix of at least one byte, the loop of
    [gst_h264_parse_queue_buffer] ends, or reads outside the buffer, within
    as many passes as the buffer has bytes. *)
Lemma queue_buffer_parse_fuel (pk : bool) (nls : Z) (buf : list Z)
    (fuel : nat) :
  1 <= nls ->
  forall (off size : Z) (link : GstNalList),
  0 <= off -> Z.of_nat (length buf) - off <= Z.of_nat fuel ->
  queue_buffer_parse fuel pk nls buf off size link <> NoFuel.
Proof.
  intros Hnls.
  induction fuel as [|fuel IH]; intros off size link Hoff Hlen;
    cbn [queue_buffer_parse];
    (destruct (size <? to_guint32 (nls + 1)); [discriminate|]);
    (assert (match (if pk then read_nalu_size buf off (Z.to_nat nls) 0
                    else Ret 0) with
             | Ret v => 0 <= v
             | Undef => True
             | NoFuel => False
             end) as Hsize
       by (destruct pk; [apply read_nalu_size_inv|]; cbn; lia));
    (destruct (if pk then read_nalu_size buf off (Z.to_nat nls) 0 else Ret 0)
       as [nalu_size| |]; [|discriminate|destruct Hsize]);
    cbn [run_bind];
    (destruct (byte_at buf (off + nls)) as [b| |] eqn:Hb;
       [apply byte_at_inv in Hb
       |discriminate
       |unfold byte_at in Hb; destruct (0 <=? off + nls); [|discriminate];
        destruct (buf !! Z.to_nat (off + nls)); discriminate]);
    cbn [run_bind];
    (destruct (negb pk); [discriminate|]).
  - lia.
  - apply IH; lia.
Qed.

Lemma queue_buffer_link_fuel (pk : bool) (nls : Z) (b : GstBuffer) :
  1 <= nls -> queue_buffer_link pk nls b <> NoFuel.
Proof.
  intros Hnls. unfold queue_buffer_link.
  apply queue_buffer_parse_fuel; [exact Hnls | lia | lia].
Qed.

(** ** The reverse path *)

Lemma chain_reverse_gather (gst_pad_push : GstBuffer -> GstFlowReturn)
    (h : GstH264Parse) (b : GstBuffer) :
  gst_h264_parse_chain_reverse gst_pad_push h false (Some b)
  = Ret (GST_FLOW_OK, set_gather (b :: gather h) h, []).
Proof. reflexivity. Qed.




(** * Further properties of the code *)

(** ** The bit reader at the end of the range and on whole bytes *)

Lemma to_guint32_bound (x : Z) : 0 <= to_guint32 x < 2 ^ 32.
Proof.
  unfold to_guint32. change 0xffffffff with (Z.ones 32).
  rewrite Z.land_ones by lia. apply Z.mod_pos_bound. lia.
Qed.

Lemma to_guint8_bound (x : Z) : 0 <= to_guint8 x < 256.
Proof.
  unfold to_guint8. change 0xff with (Z.ones 8).
  rewrite Z.land_ones by lia. apply Z.mod_pos_bound. lia.
Qed.

(** X1: on a range of bytes that does not contain [00 00 03 00 03], every
    sequence of reads with [gst_nal_bs_read] gives what reads without any
    emulation-prevention handling give over the range with each
    [00 00 03] reduced to [00 00]. *)
Theorem bs_reads_agree_without_marker_zero_three (data : list Z)
    (ns : list Z) :
  is_byte_range data ->
  has_marker_zero_three data = false ->
  bs_reads (gst_nal_bs_init data) ns
  = bs_reads_plain (gst_nal_bs_init (ep_reduce data)) ns.
Proof. apply bs_reads_ep_reduce. Qed.

Lemma bs_reads_agree_without_marker_zero_three_witness :
  bs_reads (gst_nal_bs_init [0x25; 0; 0; 3; 1; 0x80]) [8; 16; 3; 5; 9]
  = bs_reads_plain (gst_nal_bs_init [0x25; 0; 0; 1; 0x80]) [8; 16; 3; 5; 9].
Proof.
  apply (bs_reads_agree_without_marker_zero_three [0x25; 0; 0; 3; 1; 0x80]
           [8; 16; 3; 5; 9]).
  - repeat constructor; lia.
  - reflexivity.
Defined.

(** X2: at the end of the range ([gst_nal_bs_eos]) a read of any number of
    bits and an Exp-Golomb read return 0 and leave the reader as it is. *)
Theorem bs_read_at_eos (bs : GstNalBs) (n : Z) :
  0 <= n ->
  gst_nal_bs_eos bs = true ->
  gst_nal_bs_read bs n = (0, bs) /\ gst_nal_bs_read_ue bs = (0, bs).
Proof.
  intros Hn Heos. destruct bs as [data head cache].
  unfold gst_nal_bs_eos in Heos. cbn [bs_data bs_head] in Heos.
  destruct data as [|b data]; [|discriminate].
  apply Z.eqb_eq in Heos. subst head.
  assert (forall m, 0 <= m -> gst_nal_bs_read (MkBs [] 0 cache) m
                              = (0, MkBs [] 0 cache)) as Hread.
  { intros m Hm. unfold gst_nal_bs_read.
    destruct (Z.eqb_spec m 0) as [->|Hm0]; [reflexivity|].
    cbn [bs_data bs_head bs_cache bs_fill].
    assert ((0 <? m) = true) as -> by (apply Z.ltb_lt; lia).
    unfold bs_extract. cbn. rewrite Z.land_0_r. reflexivity. }
  split; [apply Hread, Hn|].
  unfold gst_nal_bs_read_ue. cbn [bs_read_ue_loop].
  rewrite (Hread 1) by lia. cbn [gst_nal_bs_eos bs_data bs_head].
  cbn [Z.eqb negb andb]. rewrite (Hread 0) by lia. reflexivity.
Qed.

Lemma bs_read_at_eos_witness :
  gst_nal_bs_read (snd (gst_nal_bs_read (gst_nal_bs_init [0xa5]) 8)) 12
  = (0, MkBs [] 0 0xffffffffa5) /\
  gst_nal_bs_read_ue (snd (gst_nal_bs_read (gst_nal_bs_init [0xa5]) 8))
  = (0, MkBs [] 0 0xffffffffa5).
Proof.
  apply (bs_read_at_eos (snd (gst_nal_bs_read (gst_nal_bs_init [0xa5]) 8)) 12);
    [lia | reflexivity].
Defined.

(** The size of what a read returns. *)
Lemma bs_read_bound (bs : GstNalBs) (n : Z) :
  0 <= bs_head bs < 8 -> 0 <= n ->
  0 <= fst (gst_nal_bs_read bs n) < 2 ^ 32 /\
  (n < 32 -> fst (gst_nal_bs_read bs n) < 2 ^ n).
Proof.
  intros Hhead Hn. unfold gst_nal_bs_read.
  destruct (Z.eqb_spec n 0) as [->|Hn0]; [cbn; lia|].
  pose proof (bs_fill_inv (length (bs_data bs)) (bs_data bs) (bs_head bs)
                (bs_cache bs) n) as Hinv.
  destruct (bs_fill (bs_data bs) (bs_head bs) (bs_cache bs) n)
    as [[[d h'] c'] n'] eqn:Hfill.
  specialize (Hinv d h' c' n' ltac:(lia) ltac:(lia) eq_refl)
    as (Hshift & Hh' & _ & Hn').
  assert (0 <= n' <= n) as Hn'n by (destruct Hn' as [[-> _]|[-> ?]]; lia).
  unfold bs_extract. cbn [fst].
  set (res := if 0 <? h' - n' then to_guint32 (Z.shiftr c' (h' - n'))
              else to_guint32 c').
  assert (0 <= res < 2 ^ 32) as Hres
    by (subst res; destruct (0 <? h' - n'); apply to_guint32_bound).
  destruct (n' <? 32) eqn:Hlt.
  - apply Z.ltb_lt in Hlt.
    pose proof (land_ones_bound res n' ltac:(lia)) as Hmask.
    assert (2 ^ n' <= 2 ^ n) by (apply Z.pow_le_mono_r; lia).
    assert (2 ^ n' <= 2 ^ 32) by (apply Z.pow_le_mono_r; lia).
    split; [lia|]. intros _. lia.
  - apply Z.ltb_ge in Hlt. split; [exact Hres|]. intros Hn32. lia.
Qed.

(** X3: a read of [n] bits returns a 32-bit value, and for [n < 32] a
    value below [2 ^ n], also when the range ends before [n] bits are
    there. *)
Theorem bs_read_result_bound (bs : GstNalBs) (n : Z) :
  0 <= bs_head bs < 8 -> 0 <= n ->
  0 <= fst (gst_nal_bs_read bs n) < 2 ^ 32 /\
  (n < 32 -> fst (gst_nal_bs_read bs n) < 2 ^ n).
Proof. apply bs_read_bound. Qed.

Lemma bs_read_result_bound_witness :
  0 <= fst (gst_nal_bs_read (gst_nal_bs_init [0xa5; 0x5a]) 5) < 2 ^ 32 /\
  (5 < 32 -> fst (gst_nal_bs_read (gst_nal_bs_init [0xa5; 0x5a]) 5) < 2 ^ 5).
Proof.
  apply (bs_read_result_bound (gst_nal_bs_init [0xa5; 0x5a]) 5); cbn; lia.
Defined.

(** Plain byte-wise reading returns the bytes of the range. *)
Lemma bs_reads_plain_bytes (data : list Z) :
  forall cache : Z,
  is_byte_range data ->
  bs_reads_plain (MkBs data 0 cache) (replicate (length data) 8) = data.
Proof.
  induction data as [|b data IH]; intros cache Hrange; [reflexivity|].
  apply Forall_cons in Hrange as [Hb Hrange].
  cbn [length replicate bs_reads_plain].
  unfold bs_read_plain. cbn [Z.eqb bs_data bs_head bs_cache bs_fill_plain].
  change (0 <? 8) with true. cbv iota.
  rewrite bs_fill_plain_done by reflexivity.
  unfold bs_extract. change (0 + 8 - 8) with 0. change (0 <? 0) with false.
  change (8 <? 32) with true. cbv iota.
  f_equal; [|apply IH, Hrange].
  unfold to_guint32. rewrite <- Z.land_assoc.
  change (Z.land 0xffffffff (Z.shiftl 1 8 - 1)) with 0xff.
  apply cache_push_low8, Hb.
Qed.

Lemma ep_reduce_byte_range (m : nat) :
  forall data : list Z,
  (length data <= m)%nat -> is_byte_range data -> is_byte_range (ep_reduce data).
Proof.
  unfold is_byte_range.
  induction m as [|m IH]; intros data Hm Hrange.
  { destruct data; [constructor|cbn in Hm; lia]. }
  destruct data as [|b0 [|b1 [|b2 data3]]].
  - constructor.
  - exact Hrange.
  - exact Hrange.
  - cbn [ep_reduce].
    apply Forall_cons in Hrange as [Hb0 Hrange1].
    pose proof Hrange1 as Hrange1'.
    apply Forall_cons in Hrange1' as [Hb1 Hrange2].
    apply Forall_cons in Hrange2 as [Hb2 Hrange3].
    destruct ((b0 =? 0) && (b1 =? 0) && (b2 =? 3)).
    + repeat (apply Forall_cons; split; [lia|]).
      apply IH; [cbn in Hm |- *; lia | exact Hrange3].
    + apply Forall_cons; split; [exact Hb0|].
      apply (IH (b1 :: b2 :: data3)); [cbn in Hm |- *; lia | exact Hrange1].
Qed.

(** X4: reading a range of bytes that does not contain [00 00 03 00 03]
    eight bits at a time returns the bytes of the range without the [03] of
    every [00 00 03]. *)
Theorem bs_reads_whole_bytes (data : list Z) :
  is_byte_range data ->
  has_marker_zero_three data = false ->
  bs_reads (gst_nal_bs_init data) (replicate (length (ep_reduce data)) 8)
  = ep_reduce data.
Proof.
  intros Hrange Hpat.
  rewrite bs_reads_ep_reduce by assumption.
  apply bs_reads_plain_bytes.
  apply (ep_reduce_byte_range (length data)); [lia | exact Hrange].
Qed.

Lemma bs_reads_whole_bytes_witness :
  bs_reads (gst_nal_bs_init [0x25; 0; 0; 3; 1; 0; 0; 3])
    (replicate (length (ep_reduce [0x25; 0; 0; 3; 1; 0; 0; 3])) 8)
  = [0x25; 0; 0; 1; 0; 0].
Proof.
  apply (bs_reads_whole_bytes [0x25; 0; 0; 3; 1; 0; 0; 3]).
  - repeat constructor; lia.
  - reflexivity.
Defined.

(** ** The backward start-code search *)

Lemma search_push (search x : Z) :
  0 <= x < 256 ->
  to_guint32 (Z.lor (Z.shiftl search 8) x) = search mod 16777216 * 256 + x.
Proof.
  intros Hx. rewrite cache_shift_or by exact Hx. unfold to_guint32.
  change 0xffffffff with (Z.ones 32). rewrite Z.land_ones by lia.
  change (2 ^ 32) with 4294967296.
  pose proof (Z.div_mod search 16777216 ltac:(lia)) as Hdm.
  pose proof (Z.mod_pos_bound search 16777216 ltac:(lia)) as Hm.
  rewrite Hdm at 1.
  replace ((16777216 * (search / 16777216) + search mod 16777216) * 256 + x)
    with (search mod 16777216 * 256 + x + search / 16777216 * 4294967296)
    by ring.
  rewrite Z.mod_add by lia. apply Z.mod_small. lia.
Qed.

Lemma start_code_at_app_l (l t : list Z) (k : nat) :
  start_code_at l k -> start_code_at (l ++ t) k.
Proof.
  unfold start_code_at. intros (H0 & H1 & H2 & H3).
  repeat split; apply lookup_app_l_Some; assumption.
Qed.

Lemma start_code_at_app_inv (l t : list Z) (k : nat) :
  (k + 4 <= length l)%nat -> start_code_at (l ++ t) k -> start_code_at l k.
Proof.
  unfold start_code_at. intros Hk (H0 & H1 & H2 & H3).
  rewrite lookup_app_l in H0, H1, H2, H3 by lia. auto.
Qed.

(** The loop against the bytes it has seen: the first [size] bytes of the
    range followed by the three bytes [c], [b], [a] that the low 24 bits of
    [search] hold. *)
Lemma find_start_reverse_loop_spec (data : list Z) :
  is_byte_range data ->
  forall (size : nat) (search a b c : Z),
  (size <= length data)%nat ->
  0 <= a < 256 -> 0 <= b < 256 -> 0 <= c < 256 ->
  search mod 16777216 = a * 65536 + b * 256 + c ->
  exists r code',
    find_start_reverse_loop data size search = Ret (r, code') /\
    ((r = 0 /\
      forall q : nat, (q < size)%nat ->
        ~ start_code_at (take size data ++ [c; b; a]) q) \/
     (exists k : nat,
        r = Z.of_nat (S k) /\ (k < size)%nat /\
        start_code_at (take size data ++ [c; b; a]) k /\
        code' = 0x01000000 /\
        forall q : nat, (k < q < size)%nat ->
          ~ start_code_at (take size data ++ [c; b; a]) q)).
Proof.
  intros Hrange. induction size as [|n IH]; intros search a b c Hsize Ha Hb Hc Hs.
  { exists 0, search. split; [reflexivity|]. left. split; [reflexivity|].
    intros q Hq. lia. }
  destruct (lookup_lt_is_Some_2 data n ltac:(lia)) as [x Hx].
  assert (0 <= x < 256) as Hxb.
  { unfold is_byte_range in Hrange. rewrite Forall_lookup in Hrange.
    apply (Hrange n x Hx). }
  assert (length (take n data) = n) as Hlen by (apply length_take_le; lia).
  assert (take (S n) data ++ [c; b; a] = (take n data ++ [x; c; b]) ++ [a])
    as Hv.
  { rewrite (take_S_r data n x Hx), <- !app_assoc. reflexivity. }
  assert ((take (S n) data ++ [c; b; a]) !! n = Some x /\
          (take (S n) data ++ [c; b; a]) !! S n = Some c /\
          (take (S n) data ++ [c; b; a]) !! S (S n) = Some b /\
          (take (S n) data ++ [c; b; a]) !! S (S (S n)) = Some a)
    as (Hw0 & Hw1 & Hw2 & Hw3).
  { rewrite (take_S_r data n x Hx), <- app_assoc.
    repeat split; rewrite lookup_app_r by lia; rewrite Hlen.
    - replace (n - n)%nat with 0%nat by lia. reflexivity.
    - replace (S n - n)%nat with 1%nat by lia. reflexivity.
    - replace (S (S n) - n)%nat with 2%nat by lia. reflexivity.
    - replace (S (S (S n)) - n)%nat with 3%nat by lia. reflexivity. }
  cbn [find_start_reverse_loop]. unfold byte_at.
  assert ((0 <=? Z.of_nat n) = true) as -> by (apply Z.leb_le; lia).
  rewrite Nat2Z.id, Hx. cbn [run_bind].
  rewrite search_push by exact Hxb. rewrite Hs.
  destruct (Z.eqb_spec ((a * 65536 + b * 256 + c) * 256 + x) 0x01000000)
    as [Heq|Hne].
  - assert (a = 1 /\ b = 0 /\ c = 0 /\ x = 0) as (-> & -> & -> & ->) by lia.
    eexists _, _. split; [reflexivity|]. right. exists n.
    split; [reflexivity|]. split; [lia|].
    split; [repeat split; assumption|].
    split; [reflexivity|]. intros q Hq. lia.
  - assert (~ start_code_at (take (S n) data ++ [c; b; a]) n) as Hnot.
    { intros (H0 & H1 & H2 & H3).
      rewrite Hw0 in H0. rewrite Hw1 in H1. rewrite Hw2 in H2.
      rewrite Hw3 in H3.
      injection H0 as ->. injection H1 as ->. injection H2 as ->.
      injection H3 as ->. apply Hne. reflexivity. }
    destruct (IH ((a * 65536 + b * 256 + c) * 256 + x) b c x
                ltac:(lia) Hb Hc Hxb) as (r & code' & Hloop & Hres).
    { replace ((a * 65536 + b * 256 + c) * 256 + x)
        with (b * 65536 + c * 256 + x + a * 16777216) by ring.
      rewrite Z.mod_add by lia. apply Z.mod_small. lia. }
    exists r, code'. split; [exact Hloop|].
    rewrite Hv.
    destruct Hres as [[-> Hnone]|(k & -> & Hk & Hsc & -> & Hmax)].
    + left. split; [reflexivity|]. intros q Hq Hscq.
      destruct (decide (q = n)) as [->|Hqn].
      * apply Hnot. rewrite Hv. exact Hscq.
      * apply (Hnone q ltac:(lia)).
        apply (start_code_at_app_inv _ [a]); [|exact Hscq].
        rewrite length_app, Hlen. cbn. lia.
    + right. exists k. split; [reflexivity|]. split; [lia|].
      split; [apply start_code_at_app_l, Hsc|]. split; [reflexivity|].
      intros q Hq Hscq.
      destruct (decide (q = n)) as [->|Hqn].
      * apply Hnot. rewrite Hv. exact Hscq.
      * apply (Hmax q ltac:(lia)).
        apply (start_code_at_app_inv _ [a]); [|exact Hscq].
        rewrite length_app, Hlen. cbn. lia.
Qed.

(** A start code in the bytes seen by the loop lies in the range when the
    bytes the search starts from are not [01]. *)
Lemma start_code_at_seen (data : list Z) (size : nat) (p : Z) (k : nat) :
  (size <= length data)%nat -> p <> 1 ->
  start_code_at (take size data ++ [p; p; p]) k <->
  (k + 4 <= size)%nat /\ start_code_at data k.
Proof.
  intros Hsize Hp.
  assert (length (take size data) = size) as Hlen
    by (apply length_take_le; lia).
  split.
  - intros Hsc. pose proof Hsc as (_ & _ & _ & H3).
    assert (k + 4 <= size)%nat as Hk.
    { destruct (decide (k + 4 <= size)%nat) as [|Hgt]; [assumption|].
      exfalso. rewrite lookup_app_r in H3 by lia. rewrite Hlen in H3.
      destruct (S (S (S k)) - size)%nat as [|[|[|j]]]; cbn in H3;
        try discriminate; injection H3 as ->; apply Hp; reflexivity. }
    split; [exact Hk|].
    apply start_code_at_app_inv in Hsc; [|lia].
    destruct Hsc as (H0' & H1' & H2' & H3').
    rewrite lookup_take_lt in H0', H1', H2', H3' by lia.
    repeat split; assumption.
  - intros (Hk & H0 & H1 & H2 & H3).
    apply start_code_at_app_l.
    repeat split; rewrite lookup_take_lt by lia; assumption.
Qed.

(** What [gst_h264_parse_find_start_reverse] finds. *)
Lemma find_start_reverse_spec (data : list Z) (size code : Z) :
  is_byte_range data ->
  0 <= size <= Z.of_nat (length data) -> size < 2 ^ 32 ->
  code = 0xffffffff \/ code = 0x01000000 ->
  exists start code',
    gst_h264_parse_find_start_reverse data size code = Ret (start, code') /\
    ((start = 0xffffffff /\
      forall q : nat, Z.of_nat q + 4 <= size -> ~ start_code_at data q) \/
     (exists k : nat,
        start = Z.of_nat k /\ Z.of_nat k + 4 <= size /\
        start_code_at data k /\ code' = 0x01000000 /\
        forall q : nat,
          (k < q)%nat -> Z.of_nat q + 4 <= size -> ~ start_code_at data q)).
Proof.
  intros Hrange Hsize H32 Hcode.
  assert (exists p, 0 <= p < 256 /\ p <> 1 /\
                    code mod 16777216 = p * 65536 + p * 256 + p)
    as (p & Hp & Hp1 & Hmod).
  { destruct Hcode as [-> | ->]; [exists 255|exists 0]; repeat split; lia. }
  destruct (find_start_reverse_loop_spec data Hrange (Z.to_nat size) code
              p p p ltac:(lia) Hp Hp Hp Hmod) as (r & code' & Hloop & Hres).
  unfold gst_h264_parse_find_start_reverse. rewrite Hloop. cbn [run_bind].
  eexists _, _. split; [reflexivity|].
  destruct Hres as [[-> Hnone]|(k & -> & Hk & Hsc & -> & Hmax)].
  - left. split; [reflexivity|]. intros q Hq Hscq.
    apply (Hnone q ltac:(lia)).
    apply start_code_at_seen; [lia | exact Hp1 |]. split; [lia | exact Hscq].
  - apply start_code_at_seen in Hsc as [Hk4 Hsc]; [|lia|exact Hp1].
    right. exists k.
    split; [rewrite to_guint32_small by lia; lia|].
    split; [lia|]. split; [exact Hsc|]. split; [reflexivity|].
    intros q Hq Hq4 Hscq. apply (Hmax q ltac:(lia)).
    apply start_code_at_seen; [lia | exact Hp1 |]. split; [lia | exact Hscq].
Qed.

(** X5: started from the code [0xffffffff], or from the code a found start
    code leaves behind, [gst_h264_parse_find_start_reverse] over the first
    [size] bytes of a buffer returns the position of the last start code
    [00 00 00 01] that lies within them, and [(guint) -1] exactly when there
    is none. *)
Theorem find_start_reverse_last_start_code (data : list Z) (size code : Z) :
  is_byte_range data ->
  0 <= size <= Z.of_nat (length data) -> size < 2 ^ 32 ->
  code = 0xffffffff \/ code = 0x01000000 ->
  exists start code',
    gst_h264_parse_find_start_reverse data size code = Ret (start, code') /\
    ((start = 0xffffffff /\
      forall q : nat, Z.of_nat q + 4 <= size -> ~ start_code_at data q) \/
     (exists k : nat,
        start = Z.of_nat k /\ Z.of_nat k + 4 <= size /\
        start_code_at data k /\ code' = 0x01000000 /\
        forall q : nat,
          (k < q)%nat -> Z.of_nat q + 4 <= size -> ~ start_code_at data q)).
Proof. apply find_start_reverse_spec. Qed.

Lemma find_start_reverse_last_start_code_witness :
  exists start code',
    gst_h264_parse_find_start_reverse
      [0; 0; 0; 1; 0x67; 0; 0; 0; 1; 0x65; 0x88] 11 0xffffffff
    = Ret (start, code') /\
    ((start = 0xffffffff /\
      forall q : nat, Z.of_nat q + 4 <= 11 ->
        ~ start_code_at [0; 0; 0; 1; 0x67; 0; 0; 0; 1; 0x65; 0x88] q) \/
     (exists k : nat,
        start = Z.of_nat k /\ Z.of_nat k + 4 <= 11 /\
        start_code_at [0; 0; 0; 1; 0x67; 0; 0; 0; 1; 0x65; 0x88] k /\
        code' = 0x01000000 /\
        forall q : nat,
          (k < q)%nat -> Z.of_nat q + 4 <= 11 ->
          ~ start_code_at [0; 0; 0; 1; 0x67; 0; 0; 0; 1; 0x65; 0x88] q)).
Proof.
  apply (find_start_reverse_last_start_code
           [0; 0; 0; 1; 0x67; 0; 0; 0; 1; 0x65; 0x88] 11 0xffffffff).
  - repeat constructor; lia.
  - cbn; lia.
  - lia.
  - left; reflexivity.
Defined.

(** ** The forward path *)

Lemma chain_forward_loop_unfold (gst_pad_push : GstBuffer -> GstFlowReturn)
    (fuel : nat) (timestamp : Z) (h : GstH264Parse) :
  chain_forward_loop gst_pad_push fuel timestamp h
  = if Z.of_nat (length (adapter h)) <? to_guint32 (nal_length_size h + 1)
    then Ret (GST_FLOW_OK, h, [])
    else
      let+ pos := forward_next_nalu_pos h in
      let+ delta :=
        forward_delta_unit (drop (Z.to_nat (nal_length_size h)) (adapter h)) in
      if 0 <? pos then
        let outbuf := forward_outbuf timestamp h pos delta in
        if flow_is_ok (gst_pad_push outbuf) then
          match fuel with
          | O => NoFuel
          | S fuel' =>
              let+ '(res, h2, out) :=
                chain_forward_loop gst_pad_push fuel' timestamp
                  (forward_taken h pos) in
              Ret (res, h2, outbuf :: out)
          end
        else Ret (gst_pad_push outbuf, forward_taken h pos, [outbuf])
      else Ret (GST_FLOW_OK, h, []).
Proof. destruct fuel; reflexivity. Qed.

(** Induction over the passes of the forward loop: a property of a call
    that returns follows from the three ways a pass can end. *)
Lemma chain_forward_loop_passes (gst_pad_push : GstBuffer -> GstFlowReturn)
    (timestamp : Z)
    (P : GstH264Parse -> GstFlowReturn -> GstH264Parse -> list GstBuffer
         -> Prop) :
  (forall h, P h GST_FLOW_OK h []) ->
  (forall h pos delta,
     forward_next_nalu_pos h = Ret pos -> 0 < pos ->
     flow_is_ok (gst_pad_push (forward_outbuf timestamp h pos delta)) = false ->
     P h (gst_pad_push (forward_outbuf timestamp h pos delta))
       (forward_taken h pos) [forward_outbuf timestamp h pos delta]) ->
  (forall h pos delta res h2 out,
     forward_next_nalu_pos h = Ret pos -> 0 < pos ->
     gst_pad_push (forward_outbuf timestamp h pos delta) = GST_FLOW_OK ->
     P (forward_taken h pos) res h2 out ->
     P h res h2 (forward_outbuf timestamp h pos delta :: out)) ->
  forall (fuel : nat) (h : GstH264Parse) (res : GstFlowReturn)
         (h' : GstH264Parse) (out : list GstBuffer),
  chain_forward_loop gst_pad_push fuel timestamp h = Ret (res, h', out) ->
  P h res h' out.
Proof.
  intros Hstop Hfail Hnext.
  induction fuel as [|fuel IH]; intros h res h' out Hloop;
    rewrite chain_forward_loop_unfold in Hloop;
    (destruct (Z.of_nat (length (adapter h)) <? to_guint32 (nal_length_size h + 1));
      [injection Hloop as <- <- <-; apply Hstop|]);
    (destruct (forward_next_nalu_pos h) as [pos| |] eqn:Hpos;
      cbn [run_bind] in Hloop; try discriminate);
    (destruct (forward_delta_unit _) as [delta| |];
      cbn [run_bind] in Hloop; try discriminate);
    (destruct (Z.ltb_spec 0 pos) as [Hlt|_];
      [|injection Hloop as <- <- <-; apply Hstop]);
    cbv zeta in Hloop;
    (destruct (flow_is_ok (gst_pad_push (forward_outbuf timestamp h pos delta)))
       eqn:Hok;
      [|injection Hloop as <- <- <-; apply Hfail; assumption]).
  - discriminate.
  - destruct (chain_forward_loop gst_pad_push fuel timestamp
                (forward_taken h pos)) as [[[res2 h2] out2]| |] eqn:Hrec;
      cbn [run_bind] in Hloop; try discriminate.
    injection Hloop as <- <- <-.
    apply Hnext; [assumption | assumption | | apply IH, Hrec].
    destruct (gst_pad_push _); try discriminate. reflexivity.
Qed.

Lemma forward_taken_frame (h : GstH264Parse) (pos : Z) :
  set_adapter [] (set_discont false (forward_taken h pos))
  = set_adapter [] (set_discont false h) /\
  adapter (forward_taken h pos) = drop (Z.to_nat pos) (adapter h) /\
  discont (forward_taken h pos) = false.
Proof. destruct h as [? ? ? ? [] ? ? ? ? ? ? ? ? ? ? ? ? ? ? ? ? ?]; repeat split. Qed.

(** X6: [gst_h264_parse_chain_forward] neither loses, repeats nor
    reorders a byte: the buffers it pushed, in order, followed by what it
    leaves in the adapter, are the bytes the adapter held (none after a
    discontinuity) followed by the bytes of the input buffer; and it changes
    nothing of the element but the adapter and the pending-discontinuity
    flag. *)
Theorem chain_forward_keeps_bytes (gst_pad_push : GstBuffer -> GstFlowReturn)
    (h : GstH264Parse) (discont : bool) (buffer : GstBuffer)
    (res : GstFlowReturn) (h' : GstH264Parse) (out : list GstBuffer) :
  gst_h264_parse_chain_forward gst_pad_push h discont buffer
  = Ret (res, h', out) ->
  concat (buf_data <$> out) ++ adapter h'
  = (if discont then [] else adapter h) ++ buf_data buffer /\
  set_adapter [] (set_discont false h') = set_adapter [] (set_discont false h).
Proof.
  unfold gst_h264_parse_chain_forward. intros Hloop.
  apply (chain_forward_loop_passes gst_pad_push (buf_timestamp buffer)
           (fun h0 _ h1 out =>
              concat (buf_data <$> out) ++ adapter h1 = adapter h0 /\
              set_adapter [] (set_discont false h1)
              = set_adapter [] (set_discont false h0))) in Hloop.
  - destruct Hloop as [Hbytes Hframe]. split.
    + rewrite Hbytes. destruct h, discont; reflexivity.
    + rewrite Hframe. destruct h, discont; reflexivity.
  - intros h0. split; reflexivity.
  - intros h0 pos delta _ _ _.
    destruct (forward_taken_frame h0 pos) as (Hframe & Had & _).
    split; [|exact Hframe].
    rewrite Had. cbn. rewrite app_nil_r. apply take_drop.
  - intros h0 pos delta res2 h2 out2 _ _ _ [Hbytes Hframe].
    destruct (forward_taken_frame h0 pos) as (Hframe0 & Had & _).
    split; [|rewrite Hframe; exact Hframe0].
    cbn [fmap list_fmap concat forward_outbuf buf_data].
    rewrite <- app_assoc. change (list_fmap _ _ buf_data out2) with (buf_data <$> out2).
    rewrite Hbytes, Had. apply take_drop.
Qed.

Lemma chain_forward_keeps_bytes_witness :
  exists res h' out,
    gst_h264_parse_chain_forward push_ok h264parse_init false sample_bytestream
    = Ret (res, h', out) /\
    concat (buf_data <$> out) ++ adapter h'
    = adapter h264parse_init ++ buf_data sample_bytestream.
Proof.
  destruct (gst_h264_parse_chain_forward push_ok h264parse_init false
              sample_bytestream) as [[[res h'] out]| |] eqn:Hrun;
    [|vm_compute in Hrun; discriminate Hrun
     |vm_compute in Hrun; discriminate Hrun].
  exists res, h', out. split; [reflexivity|].
  apply (chain_forward_keeps_bytes push_ok h264parse_init false
           sample_bytestream res h' out Hrun).
Defined.

(** X7: every buffer [gst_h264_parse_chain_forward] pushes carries the
    timestamp of the input buffer; the first one carries the pending
    discontinuity (the one of this call or one left by an earlier call), the
    others none, and the element keeps a discontinuity pending only when
    nothing was pushed. *)
Theorem chain_forward_timestamps_and_discont
    (gst_pad_push : GstBuffer -> GstFlowReturn)
    (h : GstH264Parse) (discont_in : bool) (buffer : GstBuffer)
    (res : GstFlowReturn) (h' : GstH264Parse) (out : list GstBuffer) :
  gst_h264_parse_chain_forward gst_pad_push h discont_in buffer
  = Ret (res, h', out) ->
  Forall (fun b => buf_timestamp b = buf_timestamp buffer) out /\
  match out with
  | [] => discont h' = discont_in || discont h
  | first :: others =>
      buf_discont first = discont_in || discont h /\
      Forall (fun b => buf_discont b = false) others /\
      discont h' = false
  end.
Proof.
  unfold gst_h264_parse_chain_forward. intros Hloop.
  apply (chain_forward_loop_passes gst_pad_push (buf_timestamp buffer)
           (fun h0 _ h1 out =>
              Forall (fun b => buf_timestamp b = buf_timestamp buffer) out /\
              match out with
              | [] => discont h1 = discont h0
              | first :: others =>
                  buf_discont first = discont h0 /\
                  Forall (fun b => buf_discont b = false) others /\
                  discont h1 = false
              end)) in Hloop.
  - destruct Hloop as [Hts Hdc]. split; [exact Hts|].
    destruct out as [|first others].
    + rewrite Hdc. destruct h, discont_in; reflexivity.
    + destruct Hdc as (Hfirst & Hothers & Hh'). rewrite Hfirst.
      repeat split; try assumption. destruct h, discont_in; reflexivity.
  - intros h0. split; [constructor | reflexivity].
  - intros h0 pos delta _ _ _.
    destruct (forward_taken_frame h0 pos) as (_ & _ & Hdc).
    split; [repeat constructor|]. repeat split; [constructor | exact Hdc].
  - intros h0 pos delta res2 h2 out2 _ _ _ [Hts Hdc].
    destruct (forward_taken_frame h0 pos) as (_ & _ & Hdc0).
    split; [constructor; [reflexivity | exact Hts]|].
    split; [reflexivity|].
    destruct out2 as [|first others].
    + split; [constructor|]. rewrite Hdc. exact Hdc0.
    + destruct Hdc as (Hfirst & Hothers & Hh2).
      split; [|exact Hh2]. constructor; [|exact Hothers].
      rewrite Hfirst. exact Hdc0.
Qed.

Lemma chain_forward_timestamps_and_discont_witness :
  exists res h' first,
    gst_h264_parse_chain_forward push_ok h264parse_init true sample_bytestream
    = Ret (res, h', [first]) /\
    buf_timestamp first = 7 /\ buf_discont first = true /\ discont h' = false.
Proof.
  destruct (gst_h264_parse_chain_forward push_ok h264parse_init true
              sample_bytestream) as [[[res h'] out]| |] eqn:Hrun;
    [|vm_compute in Hrun; discriminate Hrun
     |vm_compute in Hrun; discriminate Hrun].
  pose proof (chain_forward_timestamps_and_discont push_ok h264parse_init true
                sample_bytestream res h' out Hrun) as [Hts Hdc].
  destruct out as [|first [|second others]];
    [vm_compute in Hrun; discriminate Hrun | |
     vm_compute in Hrun; discriminate Hrun].
  exists res, h', first. split; [reflexivity|].
  apply Forall_cons in Hts as [Hts _]. destruct Hdc as (Hfirst & _ & Hh').
  repeat split; assumption.
Defined.

(** X8: the forward loop stops at the first push that is not
    [GST_FLOW_OK]: every buffer but the last was accepted, and the result
    of the call is the result of the last push ([GST_FLOW_OK] when nothing
    was pushed). *)
Theorem chain_forward_stops_at_failed_push
    (gst_pad_push : GstBuffer -> GstFlowReturn)
    (h : GstH264Parse) (discont : bool) (buffer : GstBuffer)
    (res : GstFlowReturn) (h' : GstH264Parse) (out : list GstBuffer) :
  gst_h264_parse_chain_forward gst_pad_push h discont buffer
  = Ret (res, h', out) ->
  res = last_push gst_pad_push out /\
  forall (i : nat) (b : GstBuffer),
    out !! i = Some b -> (S i < length out)%nat ->
    gst_pad_push b = GST_FLOW_OK.
Proof.
  unfold gst_h264_parse_chain_forward. intros Hloop.
  apply (chain_forward_loop_passes gst_pad_push (buf_timestamp buffer)
           (fun _ res out_h out =>
              res = last_push gst_pad_push out /\
              forall (i : nat) (b : GstBuffer),
                out !! i = Some b -> (S i < length out)%nat ->
                gst_pad_push b = GST_FLOW_OK)) in Hloop.
  - exact Hloop.
  - intros _. split; [reflexivity|]. intros i b Hi. destruct i; discriminate.
  - intros h0 pos delta _ _ _. split; [reflexivity|].
    intros i b Hi Hlen. cbn in Hlen. lia.
  - intros h0 pos delta res2 h2 out2 _ _ Hok [Hres Hall]. split.
    + rewrite Hres. unfold last_push.
      destruct out2 as [|b2 out3]; [cbn; symmetry; exact Hok|].
      rewrite last_cons_cons. reflexivity.
    + intros [|i] b Hi Hlen.
      * injection Hi as <-. exact Hok.
      * apply (Hall i b Hi). cbn in Hlen. lia.
Qed.

Lemma chain_forward_stops_at_failed_push_witness :
  exists h' out,
    gst_h264_parse_chain_forward (fun _ => GST_FLOW_WRONG_STATE)
      (set_packetized true h264parse_split) false unit_p1
    = Ret (GST_FLOW_WRONG_STATE, h', out) /\
    length out = 1%nat.
Proof.
  destruct (gst_h264_parse_chain_forward (fun _ => GST_FLOW_WRONG_STATE)
              (set_packetized true h264parse_split) false unit_p1)
    as [[[res h'] out]| |] eqn:Hrun;
    [|vm_compute in Hrun; discriminate Hrun
     |vm_compute in Hrun; discriminate Hrun].
  pose proof (chain_forward_stops_at_failed_push (fun _ => GST_FLOW_WRONG_STATE)
                (set_packetized true h264parse_split) false unit_p1
                res h' out Hrun) as [Hres _].
  exists h', out. vm_compute in Hrun. injection Hrun as _ _ <-.
  split; [rewrite Hres; reflexivity | reflexivity].
Defined.

(** What [find_next_nalu] returns when it finds something: the position of
    a start code. *)
Lemma find_next_nalu_sound (d : list Z) :
  forall i r : Z,
  find_next_nalu d i = r -> r <> -1 ->
  exists k : nat, r = i + Z.of_nat k /\ start_code_at d k.
Proof.
  induction d as [|b0 d1 IH]; intros i r Hfind Hr; [cbn in Hfind; lia|].
  cbn [find_next_nalu] in Hfind.
  destruct d1 as [|b1 [|b2 [|b3 [|b4 d5]]]]; try (lia).
  destruct ((b0 =? 0) && (b1 =? 0) && (b2 =? 0) && (b3 =? 1)) eqn:Hsc.
  - exists 0%nat. split; [lia|].
    apply andb_prop in Hsc as [Hsc H3]. apply andb_prop in Hsc as [Hsc H2].
    apply andb_prop in Hsc as [H0 H1].
    apply Z.eqb_eq in H0, H1, H2, H3. subst. repeat split.
  - destruct (IH (i + 1) r Hfind Hr) as (k & -> & Hk).
    exists (S k). split; [lia|]. exact Hk.
Qed.

Lemma start_code_at_drop (d : list Z) (k : nat) :
  start_code_at d k -> take 4 (drop k d) = start_code.
Proof.
  intros (H0 & H1 & H2 & H3).
  assert (drop k d !! 0%nat = Some 0) as H0'
    by (rewrite lookup_drop, Nat.add_0_r; exact H0).
  assert (drop k d !! 1%nat = Some 0) as H1'
    by (rewrite lookup_drop, Nat.add_1_r; exact H1).
  assert (drop k d !! 2%nat = Some 0) as H2'
    by (rewrite lookup_drop; replace (k + 2)%nat with (S (S k)) by lia;
        exact H2).
  assert (drop k d !! 3%nat = Some 1) as H3'
    by (rewrite lookup_drop; replace (k + 3)%nat with (S (S (S k))) by lia;
        exact H3).
  clear H0 H1 H2 H3.
  destruct (drop k d) as [|x0 [|x1 [|x2 [|x3 t]]]]; try discriminate.
  cbn in H0', H1', H2', H3'. injection H0' as ->. injection H1' as ->.
  injection H2' as ->. injection H3' as ->. reflexivity.
Qed.

(** X9: in byte-stream mode a unit ends where the next start code begins:
    after a call that pushed something the adapter starts with the start
    code [00 00 00 01] of the unit that is still waiting. *)
Theorem chain_forward_leaves_start_code
    (gst_pad_push : GstBuffer -> GstFlowReturn)
    (h : GstH264Parse) (discont : bool) (buffer : GstBuffer)
    (res : GstFlowReturn) (h' : GstH264Parse) (out : list GstBuffer) :
  packetized h = false ->
  gst_h264_parse_chain_forward gst_pad_push h discont buffer
  = Ret (res, h', out) ->
  out <> [] ->
  take 4 (adapter h') = start_code.
Proof.
  unfold gst_h264_parse_chain_forward. intros Hpk Hloop.
  refine (proj2 (chain_forward_loop_passes gst_pad_push (buf_timestamp buffer)
           (fun h0 _ h1 out =>
              packetized h0 = false ->
              (out = [] -> h1 = h0) /\
              (out <> [] -> take 4 (adapter h1) = start_code))
           _ _ _ _ _ _ _ _ Hloop _)).
  4: destruct h, discont; exact Hpk.
  - intros h0 _. split; [reflexivity | congruence].
  - intros h0 pos delta Hpos Hlt _ Hpk0. split; [discriminate|]. intros _.
    destruct (forward_taken_frame h0 pos) as (_ & -> & _).
    unfold forward_next_nalu_pos in Hpos. rewrite Hpk0 in Hpos.
    cbn [negb] in Hpos. injection Hpos as Hpos.
    destruct (find_next_nalu_sound _ _ _ Hpos ltac:(lia)) as (k & -> & Hk).
    replace (Z.to_nat (1 + Z.of_nat k)) with (1 + k)%nat by lia.
    rewrite <- drop_drop. apply start_code_at_drop, Hk.
  - intros h0 pos delta res2 h2 out2 Hpos Hlt _ IH Hpk0.
    split; [discriminate|]. intros _.
    destruct (forward_taken_frame h0 pos) as (Hframe & Had & _).
    assert (packetized (forward_taken h0 pos) = false) as Hpk1.
    { apply (f_equal packetized) in Hframe.
      destruct (forward_taken h0 pos), h0. exact (eq_trans Hframe Hpk0). }
    destruct (IH Hpk1) as [Hnil Hcons].
    destruct out2 as [|b2 out3]; [|apply Hcons; discriminate].
    rewrite (Hnil eq_refl), Had.
    unfold forward_next_nalu_pos in Hpos. rewrite Hpk0 in Hpos.
    cbn [negb] in Hpos. injection Hpos as Hpos.
    destruct (find_next_nalu_sound _ _ _ Hpos ltac:(lia)) as (k & -> & Hk).
    replace (Z.to_nat (1 + Z.of_nat k)) with (1 + k)%nat by lia.
    rewrite <- drop_drop. apply start_code_at_drop, Hk.
Qed.

Lemma chain_forward_leaves_start_code_witness :
  exists res h' out,
    gst_h264_parse_chain_forward push_ok h264parse_init false sample_bytestream
    = Ret (res, h', out) /\
    take 4 (adapter h') = start_code.
Proof.
  destruct (gst_h264_parse_chain_forward push_ok h264parse_init false
              sample_bytestream) as [[[res h'] out]| |] eqn:Hrun;
    [|vm_compute in Hrun; discriminate Hrun
     |vm_compute in Hrun; discriminate Hrun].
  exists res, h', out. split; [reflexivity|].
  apply (chain_forward_leaves_start_code push_ok h264parse_init false
           sample_bytestream res h' out eq_refl Hrun).
  intros ->. vm_compute in Hrun. discriminate Hrun.
Defined.

Lemma flow_is_ok_true (r : GstFlowReturn) :
  flow_is_ok r = true -> r = GST_FLOW_OK.
Proof. destruct r; try discriminate; reflexivity. Qed.

(** The forward loop on an element whose adapter holds [data], as
    [gst_h264_parse_chain_forward] enters it. *)
Lemma chain_forward_enter (gst_pad_push : GstBuffer -> GstFlowReturn)
    (h : GstH264Parse) (discont_in : bool) (buffer : GstBuffer) :
  exists h1,
    gst_h264_parse_chain_forward gst_pad_push h discont_in buffer
    = chain_forward_loop gst_pad_push (length (adapter h1))
        (buf_timestamp buffer) h1 /\
    adapter h1 = (if discont_in then [] else adapter h) ++ buf_data buffer /\
    discont h1 = discont_in || discont h /\
    packetized h1 = packetized h /\
    split_packetized h1 = split_packetized h /\
    nal_length_size h1 = nal_length_size h.
Proof.
  eexists. split; [reflexivity|]. destruct h, discont_in; repeat split.
Qed.

(** X10: in packetized mode without [split-packetized] the forward path
    hands on what it is given: when the adapter with the input buffer holds
    more than the length prefix, all of it is pushed as one buffer and the
    adapter is left empty, whatever length the prefix declares. *)
Theorem chain_forward_packetized_whole
    (gst_pad_push : GstBuffer -> GstFlowReturn)
    (h : GstH264Parse) (discont_in : bool) (buffer : GstBuffer) :
  packetized h = true -> split_packetized h = false ->
  0 <= nal_length_size h < 2 ^ 32 - 1 ->
  nal_length_size h
  < Z.of_nat (length ((if discont_in then [] else adapter h)
                      ++ buf_data buffer)) ->
  exists delta h',
    let outbuf :=
      {| buf_data := (if discont_in then [] else adapter h) ++ buf_data buffer;
         buf_timestamp := buf_timestamp buffer;
         buf_discont := discont_in || discont h;
         buf_delta_unit := delta |} in
    gst_h264_parse_chain_forward gst_pad_push h discont_in buffer
    = Ret (gst_pad_push outbuf, h', [outbuf]) /\
    adapter h' = [].
Proof.
  intros Hpk Hsp Hnls Havail.
  destruct (chain_forward_enter gst_pad_push h discont_in buffer)
    as (h1 & -> & Had & Hdc & Hpk1 & Hsp1 & Hnls1).
  rewrite <- Had in Havail |- *. rewrite <- Hdc. rewrite <- Hpk1 in Hpk.
  rewrite <- Hsp1 in Hsp. rewrite <- Hnls1 in Hnls, Havail.
  clear Had Hdc Hpk1 Hsp1 Hnls1 h discont_in.
  rewrite chain_forward_loop_unfold.
  rewrite (to_guint32_small (nal_length_size h1 + 1)) by lia.
  assert ((Z.of_nat (length (adapter h1)) <? nal_length_size h1 + 1) = false)
    as -> by (apply Z.ltb_ge; lia).
  unfold forward_next_nalu_pos. rewrite Hpk, Hsp. cbn [negb].
  destruct (read_nalu_size_total (adapter h1) (Z.to_nat (nal_length_size h1))
              0 0 ltac:(lia) ltac:(lia)) as [v ->].
  cbn [run_bind]. unfold packetized_next_nalu_pos.
  destruct (drop (Z.to_nat (nal_length_size h1)) (adapter h1)) as [|b d]
    eqn:Hdrop.
  { apply (f_equal length) in Hdrop. rewrite length_drop in Hdrop.
    cbn in Hdrop. lia. }
  destruct (forward_delta_unit_total d b) as [delta ->]. cbn [run_bind].
  assert ((0 <? Z.of_nat (length (adapter h1))) = true) as ->
    by (apply Z.ltb_lt; lia).
  cbv zeta.
  assert (forward_outbuf (buf_timestamp buffer) h1
            (Z.of_nat (length (adapter h1))) delta
          = {| buf_data := adapter h1;
               buf_timestamp := buf_timestamp buffer;
               buf_discont := discont h1;
               buf_delta_unit := delta |}) as ->.
  { unfold forward_outbuf. rewrite Nat2Z.id, firstn_all. reflexivity. }
  destruct (forward_taken_frame h1 (Z.of_nat (length (adapter h1))))
    as (Hframe & Had & _).
  rewrite Nat2Z.id, drop_all in Had.
  exists delta, (forward_taken h1 (Z.of_nat (length (adapter h1)))).
  split; [|exact Had].
  destruct (flow_is_ok _) eqn:Hok; [|reflexivity].
  apply flow_is_ok_true in Hok. rewrite Hok.
  destruct (length (adapter h1)) as [|fuel] eqn:Hlen; [cbn in Havail; lia|].
  rewrite chain_forward_loop_unfold, Had.
  assert (nal_length_size (forward_taken h1 (Z.of_nat (S fuel)))
          = nal_length_size h1) as ->.
  { apply (f_equal nal_length_size) in Hframe.
    destruct (forward_taken h1 (Z.of_nat (S fuel))), h1. exact Hframe. }
  rewrite (to_guint32_small (nal_length_size h1 + 1)) by lia.
  assert ((Z.of_nat (length (@nil Z)) <? nal_length_size h1 + 1) = true)
    as -> by (apply Z.ltb_lt; cbn; lia).
  reflexivity.
Qed.

Lemma chain_forward_packetized_whole_witness :
  exists delta h',
    gst_h264_parse_chain_forward push_ok
      (set_packetized true h264parse_init) false sample_length_ffffffff
    = Ret (GST_FLOW_OK, h',
           [MkBuffer [0xff; 0xff; 0xff; 0xff; 0x41; 0xc0] 7 false delta]) /\
    adapter h' = [].
Proof.
  apply (chain_forward_packetized_whole push_ok
           (set_packetized true h264parse_init) false sample_length_ffffffff);
    try reflexivity; cbn; lia.
Defined.

(** ** The decode queue *)

Lemma flush_decode_loop_spec (gst_pad_push : GstBuffer -> GstFlowReturn)
    (queue : list GstNalList) :
  forall (first : bool) (res : GstFlowReturn) (len : Z),
  flush_decode_loop gst_pad_push queue first res len
  = let out :=
      match queue with
      | [] => []
      | link :: next => pushed_unit first link :: (pushed_unit false <$> next)
      end in
    (match last out with Some b => gst_pad_push b | None => res end,
     len - Z.of_nat (length queue), out).
Proof.
  induction queue as [|link next IH]; intros first res len.
  { cbn. f_equal. f_equal. lia. }
  cbn [flush_decode_loop]. rewrite IH. cbv zeta.
  change (buf_set_delta_unit (negb (i_frame link))
            (buf_set_discont first (buffer link)))
    with (pushed_unit first link).
  destruct next as [|link2 next2].
  - cbn. f_equal. f_equal. lia.
  - cbn [fmap list_fmap]. rewrite last_cons_cons. cbn [length].
    f_equal. f_equal.
    + destruct (last _) eqn:Hlast; [reflexivity|].
      apply last_None in Hlast. discriminate Hlast.
    + lia.
Qed.

(** What [gst_h264_parse_flush_decode] returns and leaves behind. *)
Lemma flush_decode_result
    (gst_pad_push : GstBuffer -> GstFlowReturn) (h : GstH264Parse) :
  exists h',
    gst_h264_parse_flush_decode gst_pad_push h
    = (last_push gst_pad_push (flush_output (decode h)), h',
       flush_output (decode h)) /\
    length (flush_output (decode h)) = length (decode h) /\
    decode h' = [] /\
    decode_len h' = decode_len h - Z.of_nat (length (decode h)) /\
    have_i_frame h' = false /\
    without_queue h' = without_queue h.
Proof.
  unfold gst_h264_parse_flush_decode. rewrite flush_decode_loop_spec.
  cbv zeta. eexists. split; [reflexivity|].
  split; [destruct (decode h); cbn; rewrite ?length_fmap; reflexivity|].
  destruct h; repeat split.
Qed.

(** X11: [gst_h264_parse_flush_decode] pushes every link of the decode
    queue, head first, also after a push has failed; the first buffer is
    marked as a discontinuity and the I frames as non-delta units.  It
    returns the result of the last push, leaves the queue empty with
    [decode_len] reduced by the number of links pushed and [have_i_frame]
    cleared, and changes nothing else. *)
Theorem flush_decode_pushes_whole_queue
    (gst_pad_push : GstBuffer -> GstFlowReturn) (h : GstH264Parse) :
  exists h',
    gst_h264_parse_flush_decode gst_pad_push h
    = (last_push gst_pad_push (flush_output (decode h)), h',
       flush_output (decode h)) /\
    length (flush_output (decode h)) = length (decode h) /\
    decode h' = [] /\
    decode_len h' = decode_len h - Z.of_nat (length (decode h)) /\
    have_i_frame h' = false /\
    without_queue h' = without_queue h.
Proof. apply flush_decode_result. Qed.

(** What [gst_h264_parse_queue_buffer] does with the link it has built. *)
Lemma queue_buffer_spec (gst_pad_push : GstBuffer -> GstFlowReturn)
    (h : GstH264Parse) (b : GstBuffer)
    (res : GstFlowReturn) (h' : GstH264Parse) (out : list GstBuffer) :
  gst_h264_parse_queue_buffer gst_pad_push h b = Ret (res, h', out) ->
  exists link,
    queue_buffer_link (packetized h) (nal_length_size h) b = Ret link /\
    buffer link = b /\
    without_queue h' = without_queue h /\
    ((have_i_frame h = true /\ i_frame link = false /\ slice link = true /\
      out = flush_output (decode h) /\ res = last_push gst_pad_push out /\
      decode h' = [link] /\
      decode_len h' = decode_len h - Z.of_nat (length (decode h)) + 1 /\
      have_i_frame h' = false) \/
     (have_i_frame h && negb (i_frame link) && slice link = false /\
      out = [] /\ res = GST_FLOW_OK /\
      decode h' = link :: decode h /\
      decode_len h' = decode_len h + 1 /\
      have_i_frame h' = i_frame link || have_i_frame h)).
Proof.
  unfold gst_h264_parse_queue_buffer. intros Hq.
  destruct (queue_buffer_link (packetized h) (nal_length_size h) b)
    as [link| |] eqn:Hlink; cbn [run_bind] in Hq; try discriminate.
  exists link. split; [reflexivity|].
  split; [apply (queue_buffer_link_buffer _ _ _ _ Hlink)|].
  destruct (have_i_frame h && negb (i_frame link) && slice link) eqn:Hcond.
  - apply andb_prop in Hcond as [Hcond Hslice].
    apply andb_prop in Hcond as [Hhave Hi]. apply negb_true_iff in Hi.
    destruct (flush_decode_result gst_pad_push h)
      as (h1 & Hflush & _ & Hd1 & Hlen1 & Hhave1 & Hframe1).
    rewrite Hflush, Hi in Hq. injection Hq as <- <- <-.
    split.
    + rewrite <- Hframe1. destruct h1; reflexivity.
    + left. repeat split; try assumption.
      * destruct h1; cbn in Hd1 |- *. rewrite Hd1. reflexivity.
      * destruct h1; cbn in Hlen1 |- *. rewrite Hlen1. reflexivity.
      * destruct h1; exact Hhave1.
  - injection Hq as <- <- <-. split.
    + destruct h, (i_frame link); reflexivity.
    + right. repeat split; destruct h, (i_frame link); reflexivity.
Qed.

Lemma without_queue_fields (h h' : GstH264Parse) :
  without_queue h' = without_queue h ->
  packetized h' = packetized h /\ nal_length_size h' = nal_length_size h /\
  gather h' = gather h /\ prev h' = prev h /\ adapter h' = adapter h /\
  segment h' = segment h /\ sps_buffers h' = sps_buffers h /\
  pps_buffers h' = pps_buffers h.
Proof.
  intros Hframe. destruct h, h'. unfold without_queue in Hframe.
  cbn in Hframe. injection Hframe as -> -> -> -> -> -> -> -> -> -> -> -> ->
    -> -> -> -> -> ->.
  repeat split.
Qed.

Lemma pushed_bytes_flush_output (queue : list GstNalList) :
  pushed_bytes (flush_output queue) = queued_bytes queue.
Proof.
  unfold pushed_bytes, queued_bytes. destruct queue as [|link next];
    [reflexivity|].
  cbn [flush_output fmap list_fmap]. f_equal.
  change (list_fmap _ _ buf_data (list_fmap _ _ (pushed_unit false) next))
    with (buf_data <$> (pushed_unit false <$> next)).
  rewrite <- list_fmap_compose. reflexivity.
Qed.

(** X12: [gst_h264_parse_queue_buffer] keeps [decode_len] equal to the
    number of queued links and [have_i_frame] equal to "some queued link is
    an I frame".  The link of the input buffer becomes the head of the
    queue, and the call pushes either nothing or the whole queue, in which
    case the new link is queued alone. *)
Theorem queue_buffer_keeps_queue_ok
    (gst_pad_push : GstBuffer -> GstFlowReturn)
    (h : GstH264Parse) (b : GstBuffer)
    (res : GstFlowReturn) (h' : GstH264Parse) (out : list GstBuffer) :
  decode_queue_ok h ->
  gst_h264_parse_queue_buffer gst_pad_push h b = Ret (res, h', out) ->
  decode_queue_ok h' /\
  exists link,
    buffer link = b /\
    (out = [] /\ res = GST_FLOW_OK /\ decode h' = link :: decode h \/
     out = flush_output (decode h) /\ res = last_push gst_pad_push out /\
     decode h' = [link]).
Proof.
  intros [Hlen Hhave] Hq.
  destruct (queue_buffer_spec gst_pad_push h b res h' out Hq)
    as (link & _ & Hbuf & _ &
        [(Hh & Hi & Hsl & -> & -> & Hd & Hl & Hh') |
         (Hcond & -> & -> & Hd & Hl & Hh')]).
  - split.
    + split; rewrite Hd; cbn; [lia|]. rewrite Hh', Hi. reflexivity.
    + exists link. split; [exact Hbuf|]. right. repeat split. exact Hd.
  - split.
    + split; rewrite Hd; cbn [length existsb]; [lia|].
      rewrite Hh', Hhave. reflexivity.
    + exists link. split; [exact Hbuf|]. left. repeat split. exact Hd.
Qed.

Lemma queue_buffer_keeps_queue_ok_witness :
  exists res h' out,
    gst_h264_parse_queue_buffer push_ok h264parse_i_queued unit_p2
    = Ret (res, h', out) /\
    decode_queue_ok h' /\ decode h' = [link_p2].
Proof.
  destruct (gst_h264_parse_queue_buffer push_ok h264parse_i_queued unit_p2)
    as [[[res h'] out]| |] eqn:Hrun;
    [|vm_compute in Hrun; discriminate Hrun
     |vm_compute in Hrun; discriminate Hrun].
  destruct (queue_buffer_keeps_queue_ok push_ok h264parse_i_queued unit_p2
              res h' out) as (Hok & _);
    [split; reflexivity | exact Hrun |].
  exists res, h', out. repeat split; try apply Hok.
  vm_compute in Hrun. injection Hrun as _ <- _. reflexivity.
Defined.

(** ** The reverse path *)

Lemma queue_buffer_queue_ok (gst_pad_push : GstBuffer -> GstFlowReturn)
    (h : GstH264Parse) (b : GstBuffer)
    (res : GstFlowReturn) (h' : GstH264Parse) (out : list GstBuffer) :
  gst_h264_parse_queue_buffer gst_pad_push h b = Ret (res, h', out) ->
  without_queue h' = without_queue h /\
  (decode_queue_ok h -> decode_queue_ok h') /\
  pushed_bytes out ++ queued_bytes (decode h')
  ≡ₚ buf_data b :: queued_bytes (decode h).
Proof.
  intros Hq.
  destruct (queue_buffer_spec gst_pad_push h b res h' out Hq)
    as (link & _ & Hbuf & Hframe &
        [(Hh & Hi & Hsl & -> & _ & Hd & Hl & Hh') |
         (Hcond & -> & _ & Hd & Hl & Hh')]);
    (split; [exact Hframe|]); split.
  - intros [Hlen Hhave]. split; rewrite Hd; cbn; [lia|].
    rewrite Hh', Hi. reflexivity.
  - rewrite Hd, pushed_bytes_flush_output. cbn. rewrite Hbuf.
    symmetry. apply Permutation_cons_append.
  - intros [Hlen Hhave]. split; rewrite Hd; cbn [length existsb]; [lia|].
    rewrite Hh', Hhave. reflexivity.
  - rewrite Hd. cbn. rewrite Hbuf. reflexivity.
Qed.

Lemma reverse_split_loop_queue_ok (gst_pad_push : GstBuffer -> GstFlowReturn)
    (fuel : nat) (gbuf : GstBuffer) (timestamp : Z) :
  forall (last code : Z) (res : GstFlowReturn) (h : GstH264Parse)
         (res' : GstFlowReturn) (h' : GstH264Parse)
         (prev' : option GstBuffer) (out : list GstBuffer),
  reverse_split_loop gst_pad_push fuel gbuf timestamp last code res h
  = Ret (res', h', prev', out) ->
  without_queue h' = without_queue h /\
  (decode_queue_ok h -> decode_queue_ok h').
Proof.
  induction fuel as [|fuel IH]; intros last code res h res' h' prev' out Hloop;
    cbn [reverse_split_loop] in Hloop;
    (destruct (0 <? last);
      [|injection Hloop as <- <- <- <-; split; [reflexivity | auto]]).
  - discriminate.
  - destruct (gst_h264_parse_find_start_reverse (buf_data gbuf) last code)
      as [[start code1]| |]; cbn [run_bind] in Hloop; try discriminate.
    destruct (negb (start =? 0xffffffff));
      [|injection Hloop as <- <- <- <-; split; [reflexivity | auto]].
    destruct (gst_h264_parse_queue_buffer gst_pad_push h _)
      as [[[res1 h1] out1]| |] eqn:Hq; cbn [run_bind] in Hloop;
      try discriminate.
    destruct (reverse_split_loop gst_pad_push fuel gbuf timestamp start code1
                res1 h1) as [[[[res2 h2] prev2] out2]| |] eqn:Hrec;
      cbn [run_bind] in Hloop; try discriminate.
    injection Hloop as <- <- <- <-.
    destruct (queue_buffer_queue_ok _ _ _ _ _ _ Hq) as (Hframe1 & Hok1 & _).
    destruct (IH _ _ _ _ _ _ _ _ Hrec) as (Hframe2 & Hok2).
    split; [congruence | auto].
Qed.

Lemma without_queue_set_gather (g : list GstBuffer) (h h' : GstH264Parse) :
  without_queue h' = without_queue (set_gather g h) ->
  gather h' = g /\ without_reverse h' = without_reverse h /\
  prev h' = prev h /\ packetized h' = packetized h.
Proof.
  intros Hframe. destruct h, h'. unfold without_queue in Hframe.
  cbn in Hframe. injection Hframe as -> -> -> -> -> -> -> -> -> -> -> -> ->
    -> -> -> -> -> ->.
  repeat split.
Qed.

Lemma decode_queue_ok_set_gather (g : list GstBuffer) (h : GstH264Parse) :
  decode_queue_ok (set_gather g h) <-> decode_queue_ok h.
Proof. destruct h; reflexivity. Qed.

Lemma reverse_gather_loop_spec (gst_pad_push : GstBuffer -> GstFlowReturn)
    (gather0 : list GstBuffer) :
  forall (prev0 : option GstBuffer) (res : GstFlowReturn) (h : GstH264Parse)
         (res' : GstFlowReturn) (h' : GstH264Parse)
         (prev' : option GstBuffer) (out : list GstBuffer),
  gather h = gather0 ->
  reverse_gather_loop gst_pad_push gather0 prev0 res h
  = Ret (res', h', prev', out) ->
  gather h' = [] /\
  without_reverse h' = without_reverse h /\
  prev h' = prev h /\
  (decode_queue_ok h -> decode_queue_ok h') /\
  (packetized h = true ->
   prev' = prev0 /\
   pushed_bytes out ++ queued_bytes (decode h')
   ≡ₚ (buf_data <$> gather0) ++ queued_bytes (decode h)).
Proof.
  induction gather0 as [|gbuf gather' IH];
    intros prev0 res h res' h' prev' out Hg Hloop;
    cbn [reverse_gather_loop] in Hloop.
  { injection Hloop as <- <- <- <-.
    split; [exact Hg|]. split; [reflexivity|]. split; [reflexivity|].
    split; [auto|]. intros _. split; reflexivity. }
  assert (packetized (set_gather gather' h) = packetized h) as Hpk
    by (destruct h; reflexivity).
  rewrite Hpk in Hloop.
  destruct (packetized h) eqn:Hpacketized.
  - destruct (gst_h264_parse_queue_buffer gst_pad_push
                (set_gather gather' h) gbuf)
      as [[[res1 h1] out1]| |] eqn:Hq; cbn [run_bind] in Hloop;
      try discriminate.
    destruct (reverse_gather_loop gst_pad_push gather' prev0 res1 h1)
      as [[[[res2 h2] prev2] out2]| |] eqn:Hrec;
      cbn [run_bind] in Hloop; try discriminate.
    injection Hloop as <- <- <- <-.
    destruct (queue_buffer_queue_ok _ _ _ _ _ _ Hq)
      as (Hframe1 & Hok1 & Hperm1).
    destruct (without_queue_set_gather _ _ _ Hframe1)
      as (Hg1 & Hrev1 & Hprev1 & Hpk1).
    destruct (IH _ _ _ _ _ _ _ Hg1 Hrec)
      as (Hg2 & Hrev2 & Hprev2 & Hok2 & Hperm2).
    destruct (Hperm2 ltac:(congruence)) as [-> Hperm2'].
    split; [exact Hg2|]. split; [congruence|]. split; [congruence|].
    split; [|intros _; split; [reflexivity|]].
    + intros Hok. apply Hok2, Hok1, decode_queue_ok_set_gather, Hok.
    + assert (decode (set_gather gather' h) = decode h) as Hd
        by (destruct h; reflexivity).
      rewrite Hd in Hperm1.
      unfold pushed_bytes in *. rewrite fmap_app, <- app_assoc, Hperm2'.
      rewrite fmap_cons.
      rewrite (Permutation_app_swap_app (buf_data <$> out1)).
      rewrite Hperm1. symmetry. apply Permutation_middle.
  - set (gbuf1 := match prev0 with
                  | Some p => gst_buffer_join gbuf p
                  | None => gbuf
                  end) in Hloop.
    destruct (reverse_split_loop gst_pad_push (length (buf_data gbuf1)) gbuf1
                (buf_timestamp gbuf1) (buf_size gbuf1) 0xffffffff res
                (set_gather gather' h))
      as [[[[res1 h1] prev1] out1]| |] eqn:Hsplit;
      cbn [run_bind] in Hloop; try discriminate.
    destruct (reverse_gather_loop gst_pad_push gather' prev1 res1 h1)
      as [[[[res2 h2] prev2] out2]| |] eqn:Hrec;
      cbn [run_bind] in Hloop; try discriminate.
    injection Hloop as <- <- <- <-.
    destruct (reverse_split_loop_queue_ok _ _ _ _ _ _ _ _ _ _ _ _ Hsplit)
      as (Hframe1 & Hok1).
    destruct (without_queue_set_gather _ _ _ Hframe1)
      as (Hg1 & Hrev1 & Hprev1 & Hpk1).
    destruct (IH _ _ _ _ _ _ _ Hg1 Hrec)
      as (Hg2 & Hrev2 & Hprev2 & Hok2 & _).
    split; [exact Hg2|]. split; [congruence|]. split; [congruence|].
    split; [|discriminate].
    intros Hok. apply Hok2, Hok1, decode_queue_ok_set_gather, Hok.
Qed.

Lemma without_reverse_fields (h h' : GstH264Parse) :
  without_reverse h' = without_reverse h ->
  packetized h' = packetized h /\ nal_length_size h' = nal_length_size h /\
  adapter h' = adapter h /\ segment h' = segment h /\
  discont h' = discont h /\
  sps_buffers h' = sps_buffers h /\ pps_buffers h' = pps_buffers h.
Proof.
  intros Hframe. destruct h, h'. unfold without_reverse, without_queue in Hframe.
  cbn in Hframe. injection Hframe as -> -> -> -> -> -> -> -> -> -> -> -> ->
    -> -> -> ->.
  repeat split.
Qed.

(** X13: [gst_h264_parse_chain_reverse] touches only the gather list, the
    carry-over buffer and the decode queue, and it keeps [decode_len] and
    [have_i_frame] in step with the queue.  Without a discontinuity it only
    puts the buffer in front of the gather list and pushes nothing; on a
    discontinuity it takes every gathered buffer, so that afterwards the
    gather list holds the new buffer alone. *)
Theorem chain_reverse_gathers_and_drains
    (gst_pad_push : GstBuffer -> GstFlowReturn)
    (h : GstH264Parse) (discont_in : bool) (buffer : option GstBuffer)
    (res : GstFlowReturn) (h' : GstH264Parse) (out : list GstBuffer) :
  decode_queue_ok h ->
  gst_h264_parse_chain_reverse gst_pad_push h discont_in buffer
  = Ret (res, h', out) ->
  decode_queue_ok h' /\
  without_reverse h' = without_reverse h /\
  gather h'
  = match buffer with Some b => [b] | None => [] end
    ++ (if discont_in then [] else gather h) /\
  (discont_in = false ->
   out = [] /\ res = GST_FLOW_OK /\ prev h' = prev h /\ decode h' = decode h).
Proof.
  intros Hok Hrun. unfold gst_h264_parse_chain_reverse in Hrun.
  destruct discont_in.
  - destruct (reverse_gather_loop gst_pad_push (gather (set_prev None h))
                (prev h) GST_FLOW_OK (set_prev None h))
      as [[[[res1 h1] prev1] out1]| |] eqn:Hloop;
      cbn [run_bind] in Hrun; try discriminate.
    injection Hrun as <- <- <-.
    destruct (reverse_gather_loop_spec _ _ _ _ _ _ _ _ _ eq_refl Hloop)
      as (Hg1 & Hrev1 & _ & Hok1 & _).
    assert (decode_queue_ok h1) as Hok1'
      by (apply Hok1; destruct h; exact Hok).
    assert (without_reverse h1 = without_reverse h) as Hrev
      by (rewrite Hrev1; destruct h; reflexivity).
    clear Hloop Hok1 Hrev1.
    destruct h1 as [? ? ? ? ? g1 ? ? ? ? ? ? ? ? ? ? ? ? ? ? ? ?].
    cbn in Hg1. subst g1.
    destruct prev1, buffer; (split; [exact Hok1'|]);
      (split; [exact Hrev|]); (split; [reflexivity|]); discriminate.
  - cbn [run_bind] in Hrun. injection Hrun as <- <- <-.
    destruct h, buffer; (split; [exact Hok|]); repeat split.
Qed.

Lemma chain_reverse_gathers_and_drains_witness :
  exists res h' out,
    gst_h264_parse_chain_reverse push_ok
      (set_gather [unit_p4; unit_i3] h264parse_packetized_reverse)
      true (Some unit_p2)
    = Ret (res, h', out) /\
    decode_queue_ok h' /\ gather h' = [unit_p2].
Proof.
  destruct (gst_h264_parse_chain_reverse push_ok
              (set_gather [unit_p4; unit_i3] h264parse_packetized_reverse)
              true (Some unit_p2)) as [[[res h'] out]| |] eqn:Hrun;
    [|vm_compute in Hrun; discriminate Hrun
     |vm_compute in Hrun; discriminate Hrun].
  destruct (chain_reverse_gathers_and_drains push_ok
              (set_gather [unit_p4; unit_i3] h264parse_packetized_reverse)
              true (Some unit_p2) res h' out)
    as (Hok & _ & Hg & _); [split; reflexivity | exact Hrun |].
  exists res, h', out. repeat split; try apply Hok. exact Hg.
Defined.

(** X14: on a discontinuity in packetized mode the reverse path neither
    loses nor repeats a unit: the buffers pushed together with the buffers
    left in the decode queue are the gathered buffers and the buffers that
    were queued before, and the carry-over buffer is not touched. *)
Theorem chain_reverse_packetized_keeps_units
    (gst_pad_push : GstBuffer -> GstFlowReturn)
    (h : GstH264Parse) (buffer : option GstBuffer)
    (res : GstFlowReturn) (h' : GstH264Parse) (out : list GstBuffer) :
  packetized h = true ->
  gst_h264_parse_chain_reverse gst_pad_push h true buffer
  = Ret (res, h', out) ->
  pushed_bytes out ++ queued_bytes (decode h')
  ≡ₚ (buf_data <$> gather h) ++ queued_bytes (decode h) /\
  prev h' = prev h.
Proof.
  intros Hpk Hrun. unfold gst_h264_parse_chain_reverse in Hrun.
  destruct (reverse_gather_loop gst_pad_push (gather (set_prev None h))
              (prev h) GST_FLOW_OK (set_prev None h))
    as [[[[res1 h1] prev1] out1]| |] eqn:Hloop;
    cbn [run_bind] in Hrun; try discriminate.
  injection Hrun as <- <- <-.
  destruct (reverse_gather_loop_spec _ _ _ _ _ _ _ _ _ eq_refl Hloop)
    as (_ & _ & Hprev1 & _ & Hperm).
  destruct Hperm as [-> Hperm]; [destruct h; exact Hpk|].
  assert (gather (set_prev None h) = gather h /\
          decode (set_prev None h) = decode h /\
          prev (set_prev None h) = None) as (Hg & Hd & Hp)
    by (destruct h; repeat split).
  rewrite Hg, Hd in Hperm. rewrite Hp in Hprev1.
  destruct h1 as [? ? ? ? ? ? p1 ? ? ? ? ? ? ? ? ? ? ? ? ? ? ?].
  cbn in Hprev1. subst p1.
  destruct (prev h) eqn:Hprev, buffer; split; try exact Hperm; reflexivity.
Qed.

Lemma chain_reverse_packetized_keeps_units_witness :
  exists res h' out,
    gst_h264_parse_chain_reverse push_ok
      (set_gather [unit_p4; unit_i3; unit_p2; unit_p1]
         h264parse_packetized_reverse) true None
    = Ret (res, h', out) /\
    pushed_bytes out ++ queued_bytes (decode h')
    ≡ₚ [buf_data unit_p4; buf_data unit_i3; buf_data unit_p2;
        buf_data unit_p1].
Proof.
  destruct (gst_h264_parse_chain_reverse push_ok
              (set_gather [unit_p4; unit_i3; unit_p2; unit_p1]
                 h264parse_packetized_reverse) true None)
    as [[[res h'] out]| |] eqn:Hrun;
    [|vm_compute in Hrun; discriminate Hrun
     |vm_compute in Hrun; discriminate Hrun].
  exists res, h', out. split; [reflexivity|].
  apply (chain_reverse_packetized_keeps_units push_ok
           (set_gather [unit_p4; unit_i3; unit_p2; unit_p1]
              h264parse_packetized_reverse) None res h' out eq_refl Hrun).
Defined.

(** X15: at the end of a stream played in reverse the gathered buffers are
    processed and the decode queue is flushed, so that nothing is left
    gathered or queued, and in packetized mode every gathered or queued
    buffer has been pushed exactly once.  At the end of a stream played
    forward nothing is pushed and the element is left as it is: the bytes
    that wait in the adapter stay there. *)
Theorem sink_event_eos_drains_reverse
    (gst_pad_push : GstBuffer -> GstFlowReturn)
    (h h' : GstH264Parse) (out : list GstBuffer) :
  decode_queue_ok h ->
  gst_h264_parse_sink_event gst_pad_push h GST_EVENT_EOS = Ret (h', out) ->
  match rate (segment h) with
  | RATE_NEGATIVE =>
      gather h' = [] /\ decode h' = [] /\ decode_len h' = 0 /\
      have_i_frame h' = false /\
      without_reverse h' = without_reverse h /\
      (packetized h = true ->
       pushed_bytes out
       ≡ₚ (buf_data <$> gather h) ++ queued_bytes (decode h))
  | _ => h' = h /\ out = []
  end.
Proof.
  intros Hok Hev. cbn [gst_h264_parse_sink_event] in Hev.
  destruct (rate (segment h));
    [injection Hev as <- <-; split; reflexivity | |
     injection Hev as <- <-; split; reflexivity].
  unfold gst_h264_parse_chain_reverse in Hev.
  destruct (reverse_gather_loop gst_pad_push (gather (set_prev None h))
              (prev h) GST_FLOW_OK (set_prev None h))
    as [[[[res1 h1] prev1] out1]| |] eqn:Hloop;
    cbn [run_bind] in Hev; try discriminate.
  destruct (reverse_gather_loop_spec _ _ _ _ _ _ _ _ _ eq_refl Hloop)
    as (Hg1 & Hrev1 & _ & Hok1 & Hperm).
  assert (decode_queue_ok h1) as [Hlen1 Hhave1]
    by (apply Hok1; destruct h; exact Hok).
  assert (without_reverse h1 = without_reverse h) as Hrev
    by (rewrite Hrev1; destruct h; reflexivity).
  assert (packetized (set_prev None h) = packetized h /\
          gather (set_prev None h) = gather h /\
          decode (set_prev None h) = decode h) as (Hpk0 & Hg0 & Hd0)
    by (destruct h; repeat split).
  rewrite Hpk0, Hg0, Hd0 in Hperm.
  set (h2 := match prev1 with Some _ => set_prev prev1 h1 | None => h1 end)
    in Hev.
  assert (gather h2 = [] /\ decode h2 = decode h1 /\
          decode_len h2 = decode_len h1 /\
          without_reverse h2 = without_reverse h) as (Hg2 & Hd2 & Hl2 & Hrev2).
  { subst h2. rewrite <- Hrev.
    destruct prev1, h1; repeat split; exact Hg1. }
  destruct (flush_decode_result gst_pad_push h2)
    as (h3 & Hflush & _ & Hd3 & Hlen3 & Hhave3 & Hframe3).
  rewrite Hflush in Hev. injection Hev as <- <-.
  destruct (without_queue_fields _ _ Hframe3) as (_ & _ & Hg3 & _).
  split; [congruence|]. split; [exact Hd3|].
  split; [rewrite Hlen3, Hl2, Hd2, Hlen1; lia|].
  split; [exact Hhave3|]. split.
  - rewrite <- Hrev2. unfold without_reverse. rewrite Hframe3. reflexivity.
  - intros Hpk. destruct (Hperm Hpk) as [_ Hperm'].
    unfold pushed_bytes in *. rewrite fmap_app.
    change (buf_data <$> flush_output (decode h2))
      with (pushed_bytes (flush_output (decode h2))).
    rewrite pushed_bytes_flush_output, Hd2. exact Hperm'.
Qed.

Lemma sink_event_eos_drains_reverse_witness :
  exists h' out,
    gst_h264_parse_sink_event push_ok
      (set_gather [unit_p4; unit_i3; unit_p2; unit_p1]
         h264parse_packetized_reverse) GST_EVENT_EOS
    = Ret (h', out) /\
    gather h' = [] /\ decode h' = [] /\
    pushed_bytes out
    ≡ₚ [buf_data unit_p4; buf_data unit_i3; buf_data unit_p2;
        buf_data unit_p1].
Proof.
  destruct (gst_h264_parse_sink_event push_ok
              (set_gather [unit_p4; unit_i3; unit_p2; unit_p1]
                 h264parse_packetized_reverse) GST_EVENT_EOS)
    as [[h' out]| |] eqn:Hrun;
    [|vm_compute in Hrun; discriminate Hrun
     |vm_compute in Hrun; discriminate Hrun].
  pose proof (sink_event_eos_drains_reverse push_ok
                (set_gather [unit_p4; unit_i3; unit_p2; unit_p1]
                   h264parse_packetized_reverse) h' out
                ltac:(split; reflexivity) Hrun) as Hspec.
  cbn [rate segment set_gather h264parse_packetized_reverse set_segment
       set_packetized h264parse_init] in Hspec.
  destruct Hspec as (Hg & Hd & _ & _ & _ & Hperm).
  exists h', out. split; [reflexivity|]. split; [exact Hg|].
  split; [exact Hd|]. rewrite (Hperm eq_refl). reflexivity.
Defined.

(** ** Classification of a buffer for the decode queue *)

Lemma queue_buffer_parse_step (fuel : nat) (nls : Z) (buf : list Z)
    (off size n hdr : Z) (link : GstNalList) :
  (size <? to_guint32 (nls + 1)) = false ->
  read_nalu_size buf off (Z.to_nat nls) 0 = Ret n ->
  byte_at buf (off + nls) = Ret hdr ->
  exists link',
    queue_buffer_parse (S fuel) true nls buf off size link
    = queue_buffer_parse fuel true nls buf (off + nls + n)
        (to_guint32 (to_guint32 (size - nls) - n)) link'.
Proof.
  intros Hsize Hread Hhdr. cbn [queue_buffer_parse].
  rewrite Hsize, Hread. cbn [run_bind]. rewrite Hhdr. cbn [run_bind negb].
  cbv zeta. eexists. reflexivity.
Qed.

Lemma read_nalu_size_outside (buf : list Z) (off acc : Z) (count : nat) :
  Z.of_nat (length buf) <= off -> (0 < count)%nat ->
  read_nalu_size buf off count acc = Undef.
Proof.
  intros Hoff Hcount. destruct count as [|count]; [lia|].
  cbn [read_nalu_size]. unfold byte_at.
  destruct (0 <=? off); [|reflexivity].
  rewrite lookup_ge_None_2 by lia. reflexivity.
Qed.

(** X16: in packetized mode the classification loop of
    [gst_h264_parse_queue_buffer] trusts the length prefix: when a unit
    declares more bytes than the buffer holds behind the prefix, [data]
    moves past the end of the buffer, [size] wraps around, and the next
    pass reads the length bytes outside the buffer. *)
Theorem queue_buffer_reads_past_short_unit
    (gst_pad_push : GstBuffer -> GstFlowReturn)
    (h : GstH264Parse) (b : GstBuffer) (n : Z) :
  packetized h = true ->
  1 <= nal_length_size h <= 4 ->
  nal_length_size h + 1 <= buf_size b < 2 ^ 32 ->
  read_nalu_size (buf_data b) 0 (Z.to_nat (nal_length_size h)) 0 = Ret n ->
  buf_size b - nal_length_size h < n < 2 ^ 31 ->
  gst_h264_parse_queue_buffer gst_pad_push h b = Undef.
Proof.
  intros Hpk Hnls Hsize Hread Hn.
  unfold gst_h264_parse_queue_buffer, queue_buffer_link. rewrite Hpk.
  unfold buf_size in *.
  set (nls := nal_length_size h) in *. set (buf := buf_data b) in *.
  assert (exists fuel, length buf = S fuel) as [fuel Hlen]
    by (destruct (length buf); [lia | eauto]).
  rewrite Hlen at 1.
  destruct (byte_at_total buf (0 + nls) ltac:(lia)) as [hdr Hhdr].
  destruct (queue_buffer_parse_step fuel nls buf 0 (Z.of_nat (length buf)) n
              hdr (gst_nal_list_new b)) as [link' ->];
    [|exact Hread|exact Hhdr|].
  { rewrite to_guint32_small by lia. apply Z.ltb_ge. lia. }
  assert (queue_buffer_parse fuel true nls buf (0 + nls + n)
            (to_guint32 (to_guint32 (Z.of_nat (length buf) - nls) - n)) link'
          = Undef) as ->; [|reflexivity].
  rewrite (to_guint32_small (Z.of_nat (length buf) - nls)) by lia.
  assert (to_guint32 (Z.of_nat (length buf) - nls - n)
          = Z.of_nat (length buf) - nls - n + 2 ^ 32) as ->.
  { unfold to_guint32. change 0xffffffff with (Z.ones 32).
    rewrite Z.land_ones by lia.
    rewrite <- (Z.mod_add _ 1 (2 ^ 32)) by lia.
    apply Z.mod_small. lia. }
  destruct fuel; cbn [queue_buffer_parse];
    rewrite (to_guint32_small (nls + 1)) by lia;
    (assert ((Z.of_nat (length buf) - nls - n + 2 ^ 32 <? nls + 1) = false)
       as -> by (apply Z.ltb_ge; lia));
    rewrite read_nalu_size_outside by lia; reflexivity.
Qed.

Lemma queue_buffer_reads_past_short_unit_witness :
  gst_h264_parse_queue_buffer push_ok h264parse_packetized_reverse
    (MkBuffer [0; 0; 0; 9; 0x41; 0xc0] 1 false false)
  = Undef.
Proof.
  apply (queue_buffer_reads_past_short_unit push_ok
           h264parse_packetized_reverse
           (MkBuffer [0; 0; 0; 9; 0x41; 0xc0] 1 false false) 9).
  - reflexivity.
  - vm_compute; split; discriminate.
  - vm_compute; split; [discriminate | reflexivity].
  - reflexivity.
  - vm_compute; split; reflexivity.
Defined.

(** X17: in byte-stream mode the classification reads one byte, the NAL
    header behind the sync bytes, and never a byte outside the buffer.  A
    buffer too short to hold it is queued unclassified; otherwise the link
    carries the NAL type and reference bits of the header, it is a slice
    exactly for the NAL types 1 to 5, and it is an I frame exactly when it
    is a slice whose slice type is 2, 4, 7 or 9. *)
Theorem queue_buffer_link_byte_stream (nls : Z) (b : GstBuffer) :
  0 <= nls < 2 ^ 32 - 1 ->
  exists link,
    queue_buffer_link false nls b = Ret link /\
    buffer link = b /\
    (buf_size b < nls + 1 -> link = gst_nal_list_new b) /\
    (forall hdr : Z,
       buf_data b !! Z.to_nat nls = Some hdr ->
       nal_type link = Z.land hdr 0x1f /\
       nal_ref_idc link = Z.shiftr (Z.land hdr 0x60) 5 /\
       slice link
       = (NAL_SLICE <=? nal_type link) && (nal_type link <=? NAL_SLICE_IDR) /\
       i_frame link = slice link && slice_type_is_i (slice_type link)).
Proof.
  intros Hnls. unfold queue_buffer_link, buf_size.
  destruct (length (buf_data b)) as [|fuel] eqn:Hlen;
    cbn [queue_buffer_parse]; rewrite (to_guint32_small (nls + 1)) by lia.
  - assert ((Z.of_nat 0 <? nls + 1) = true) as -> by (apply Z.ltb_lt; lia).
    eexists. split; [reflexivity|]. split; [reflexivity|].
    split; [reflexivity|]. intros hdr Hhdr.
    apply lookup_lt_Some in Hhdr. lia.
  - destruct (Z.ltb_spec (Z.of_nat (S fuel)) (nls + 1)) as [Hshort|Hlong].
    + eexists. split; [reflexivity|]. split; [reflexivity|].
      split; [reflexivity|]. intros hdr Hhdr.
      apply lookup_lt_Some in Hhdr. lia.
    + cbn [run_bind]. unfold byte_at.
      assert ((0 <=? 0 + nls) = true) as -> by (apply Z.leb_le; lia).
      destruct (lookup_lt_is_Some_2 (buf_data b) (Z.to_nat (0 + nls))
                  ltac:(lia)) as [hdr0 Hhdr0].
      rewrite Hhdr0. cbn [run_bind negb nal_type]. cbv zeta.
      change (0 + nls) with nls in Hhdr0.
      destruct ((NAL_SLICE <=? Z.land hdr0 31)
                && (Z.land hdr0 31 <=? NAL_SLICE_IDR)) eqn:Hslice.
      * destruct (gst_nal_bs_read_ue _) as [first_mb bs1].
        destruct (gst_nal_bs_read_ue bs1) as [stype bs2].
        eexists. split; [reflexivity|]. split; [reflexivity|].
        split; [intros Hs; lia|]. intros hdr Hhdr.
        rewrite Hhdr0 in Hhdr. injection Hhdr as <-.
        cbn [nal_type nal_ref_idc slice i_frame slice_type gst_nal_list_new].
        rewrite Hslice. repeat split.
        destruct (slice_type_is_i stype); reflexivity.
      * eexists. split; [reflexivity|]. split; [reflexivity|].
        split; [intros Hs; lia|]. intros hdr Hhdr.
        rewrite Hhdr0 in Hhdr. injection Hhdr as <-.
        cbn [nal_type nal_ref_idc slice i_frame slice_type gst_nal_list_new].
        rewrite Hslice. repeat split.
Qed.

Lemma queue_buffer_link_byte_stream_witness :
  exists link,
    queue_buffer_link false 4
      (MkBuffer (start_code ++ sample_idr_nal) 3 false false) = Ret link /\
    nal_type link = 5 /\ slice link = true /\ i_frame link = true.
Proof.
  destruct (queue_buffer_link_byte_stream 4
              (MkBuffer (start_code ++ sample_idr_nal) 3 false false))
    as (link & Hlink & _ & _ & Hhdr); [lia|].
  exists link. split; [exact Hlink|].
  destruct (Hhdr 0x65 eq_refl) as (Htype & _ & Hslice & Hi).
  vm_compute in Hlink. injection Hlink as <-. repeat split.
Defined.

(** ** The parameter-set decoders *)

Lemma dec_keeps_ret {A : Type} (J : GstH264Parse -> Prop) (a : A) :
  dec_keeps J (dec_ret a).
Proof. intros h bs HJ. eexists _, _, _. split; [reflexivity | exact HJ]. Qed.

Lemma dec_keeps_bind {A B : Type} (J : GstH264Parse -> Prop)
    (m : Dec A) (k : A -> Dec B) :
  dec_keeps J m -> (forall a, dec_keeps J (k a)) -> dec_keeps J (dec_bind m k).
Proof.
  intros Hm Hk h bs HJ. destruct (Hm h bs HJ) as (a & h1 & bs1 & Hrun & HJ1).
  destruct (Hk a h1 bs1 HJ1) as (b & h2 & bs2 & Hrun2 & HJ2).
  exists b, h2, bs2. split; [|exact HJ2].
  unfold dec_bind. rewrite Hrun. exact Hrun2.
Qed.

Lemma dec_keeps_bind_h {B : Type} (J : GstH264Parse -> Prop)
    (k : GstH264Parse -> Dec B) :
  (forall h0, J h0 -> dec_keeps J (k h0)) -> dec_keeps J (dec_bind dec_h k).
Proof. intros Hk h bs HJ. exact (Hk h HJ h bs HJ). Qed.

Lemma dec_keeps_read (J : GstH264Parse -> Prop) (n : Z) :
  dec_keeps J (dec_read n).
Proof.
  intros h bs HJ. unfold dec_read.
  destruct (gst_nal_bs_read bs n) as [r bs'].
  eexists _, _, _. split; [reflexivity | exact HJ].
Qed.

Lemma dec_keeps_read_ue (J : GstH264Parse -> Prop) :
  dec_keeps J dec_read_ue.
Proof.
  intros h bs HJ. unfold dec_read_ue.
  destruct (gst_nal_bs_read_ue bs) as [r bs'].
  eexists _, _, _. split; [reflexivity | exact HJ].
Qed.

Lemma dec_keeps_reader {A : Type} (J : GstH264Parse -> Prop)
    (f : GstNalBs -> A * GstNalBs) :
  dec_keeps J (dec_reader f).
Proof.
  intros h bs HJ. unfold dec_reader. destruct (f bs) as [a bs'].
  eexists _, _, _. split; [reflexivity | exact HJ].
Qed.

Lemma dec_keeps_when (J : GstH264Parse -> Prop) (c : bool) (m : Dec unit) :
  dec_keeps J m -> dec_keeps J (dec_when c m).
Proof. intros Hm. destruct c; [exact Hm | apply dec_keeps_ret]. Qed.

Lemma dec_keeps_skip {A : Type} (J : GstH264Parse -> Prop) (m : Dec A) :
  dec_keeps J m -> dec_keeps J (dec_skip m).
Proof.
  intros Hm. apply dec_keeps_bind; [exact Hm | intros _; apply dec_keeps_ret].
Qed.

Lemma without_sps_set_sps_buffers (m : gmap Z GstH264Sps) (h : GstH264Parse) :
  without_sps (set_sps_buffers m h) = without_sps h.
Proof. destruct h; reflexivity. Qed.

Lemma sps_set_sps_buffers (m : gmap Z GstH264Sps) (h : GstH264Parse) :
  sps (set_sps_buffers m h) = sps h.
Proof. destruct h; reflexivity. Qed.

(** [sps->f = v] during the decoding of the SPS [k]. *)
Lemma sps_store_changes (h0 : GstH264Parse) (k : Z)
    (P P' : GstH264Sps -> Prop) (upd : GstH264Sps -> GstH264Sps)
    (h : GstH264Parse) (bs : GstNalBs) :
  (forall s, P s -> P' (upd s)) ->
  decoding_sps h0 k P h ->
  exists h',
    sps_store (Some k) upd h bs = Ret (tt, h', bs) /\
    decoding_sps h0 k P' h'.
Proof.
  intros Hupd (Hsps & (s & Hs & HP) & Hothers & Hframe).
  eexists. split; [apply (sps_store_eq k upd s h bs Hs)|].
  split; [rewrite sps_set_sps_buffers; exact Hsps|].
  rewrite sps_buffers_set_sps_buffers.
  split; [exists (upd s); split; [apply lookup_insert_eq | apply Hupd, HP]|].
  split.
  - intros j Hj. rewrite lookup_insert_ne by congruence. apply Hothers, Hj.
  - rewrite without_sps_set_sps_buffers. exact Hframe.
Qed.

Lemma sps_store_keeps (h0 : GstH264Parse) (k : Z) (P : GstH264Sps -> Prop)
    (upd : GstH264Sps -> GstH264Sps) :
  (forall s, P s -> P (upd s)) ->
  dec_keeps (decoding_sps h0 k P) (sps_store (Some k) upd).
Proof.
  intros Hupd h bs HJ.
  destruct (sps_store_changes h0 k P P upd h bs Hupd HJ) as (h' & Hrun & HJ').
  exists tt, h', bs. split; assumption.
Qed.

Ltac sps_header_stable :=
  let s := fresh "s" in
  let Hs := fresh "Hs" in
  intros s Hs; destruct s; exact Hs.

Ltac dec_keeps_go :=
  repeat match goal with
  | |- dec_keeps _ (dec_bind dec_h _) =>
      let h1 := fresh "h" in
      let HJ := fresh "HJ" in
      apply dec_keeps_bind_h; intros h1 HJ; cbv beta zeta;
      rewrite (proj1 HJ); clear h1 HJ
  | |- dec_keeps _ (dec_bind _ _) => apply dec_keeps_bind; [|intros ?]
  | |- dec_keeps _ (dec_ret _) => apply dec_keeps_ret
  | |- dec_keeps _ (dec_read _) => apply dec_keeps_read
  | |- dec_keeps _ dec_read_ue => apply dec_keeps_read_ue
  | |- dec_keeps _ (dec_reader _) => apply dec_keeps_reader
  | |- dec_keeps _ (dec_when _ _) => apply dec_keeps_when
  | |- dec_keeps _ (dec_skip _) => apply dec_keeps_skip
  | |- dec_keeps _ (sps_store (Some _) _) =>
      apply sps_store_keeps; sps_header_stable
  | |- dec_keeps _ (if ?c then _ else _) => destruct c
  end.

Lemma hrd_sched_sel_loop_keeps (J : GstH264Parse -> Prop) (count : nat) :
  dec_keeps J (hrd_sched_sel_loop count).
Proof.
  induction count as [|count IH]; cbn [hrd_sched_sel_loop]; dec_keeps_go.
  exact IH.
Qed.

Lemma hrd_parameters_keeps (h0 : GstH264Parse) (k p l v : Z) :
  dec_keeps (decoding_sps h0 k (sps_header p l v))
    gst_vui_decode_hrd_parameters.
Proof.
  unfold gst_vui_decode_hrd_parameters. dec_keeps_go.
  - intros h bs HJ. pose proof HJ as (_ & (s & Hs & _) & _).
    unfold sps_load. rewrite Hs. eexists _, _, _. split; [reflexivity|].
    exact HJ.
  - apply hrd_sched_sel_loop_keeps.
Qed.

Lemma sps_decode_vui_keeps (h0 : GstH264Parse) (k p l v : Z) :
  dec_keeps (decoding_sps h0 k (sps_header p l v)) gst_sps_decode_vui.
Proof.
  unfold gst_sps_decode_vui. dec_keeps_go; apply hrd_parameters_keeps.
Qed.

Lemma sps_decode_rest_keeps (h0 : GstH264Parse) (k p l v : Z) :
  dec_keeps (decoding_sps h0 k (sps_header p l v)) (sps_decode_rest (Some k)).
Proof.
  unfold sps_decode_rest. dec_keeps_go. apply sps_decode_vui_keeps.
Qed.

Lemma sps_decode_rest_returns_true (p : option Z) (h h' : GstH264Parse)
    (bs bs' : GstNalBs) (r : Z) :
  sps_decode_rest p h bs = Ret (r, h', bs') -> r = TRUE.
Proof.
  unfold sps_decode_rest. intros Hrun. dec_last Hrun.
  apply dec_ret_inv in Hrun. exact Hrun.
Qed.

Lemma dec_bind_run {A B : Type} (m : Dec A) (k : A -> Dec B)
    (h h1 : GstH264Parse) (bs bs1 : GstNalBs) (a : A) :
  m h bs = Ret (a, h1, bs1) -> dec_bind m k h bs = k a h1 bs1.
Proof. intros Hrun. unfold dec_bind. rewrite Hrun. reflexivity. Qed.

Lemma get_sps_in_range (h : GstH264Parse) (k : Z) :
  k < MAX_SPS_COUNT ->
  exists h1,
    gst_h264_parse_get_sps h k = (Some k, h1) /\
    sps_buffers h1 = <[k := sps_entry h k]> (sps_buffers h) /\
    decoding_sps h k (fun s => s = sps_entry h k) h1.
Proof.
  intros Hk. unfold gst_h264_parse_get_sps.
  assert ((MAX_SPS_COUNT <=? k) = false) as -> by (apply Z.leb_gt; exact Hk).
  eexists. split; [reflexivity|].
  assert (sps_buffers
            (set_sps (Some k)
               (set_sps_buffers (<[k := sps_entry h k]> (sps_buffers h)) h))
          = <[k := sps_entry h k]> (sps_buffers h)) as Hbuf
    by (rewrite sps_buffers_set_sps, sps_buffers_set_sps_buffers; reflexivity).
  fold (sps_entry h k). split; [exact Hbuf|].
  split; [destruct h; reflexivity|]. rewrite Hbuf.
  split; [exists (sps_entry h k); split; [apply lookup_insert_eq|reflexivity]|].
  split; [intros j Hj; apply lookup_insert_ne; congruence|].
  destruct h; reflexivity.
Qed.

(** X18: [gst_nal_decode_sps] returns for every element and every input:
    it dereferences only the entry it has just found or created.  It
    changes nothing but that entry of the SPS table and the current-SPS
    pointer, and when it returns TRUE the pointer refers to an entry inside
    the table that holds the profile and the level of the message and a
    [log2_max_frame_num_minus4] of at most 12. *)
Theorem decode_sps_returns_and_frames (h : GstH264Parse) (bs : GstNalBs) :
  exists r h' bs',
    gst_nal_decode_sps h bs = Ret (r, h', bs') /\
    (r = TRUE \/ r = FALSE) /\
    without_sps h' = without_sps h /\
    (forall j, sps h' <> Some j -> sps_buffers h' !! j = sps_buffers h !! j) /\
    (r = TRUE ->
     exists k s,
       sps h' = Some k /\ 0 <= k < MAX_SPS_COUNT /\
       sps_buffers h' !! k = Some s /\
       profile_idc s = to_guint8 (fst (gst_nal_bs_read bs 8)) /\
       level_idc s = snd (fst (sps_read_prefix bs)) /\
       log2_max_frame_num_minus4 s <= 12).
Proof.
  unfold gst_nal_decode_sps.
  destruct (sps_read_prefix bs) as [[p l] bs1] eqn:Hprefix.
  assert (p = to_guint8 (fst (gst_nal_bs_read bs 8))) as Hp.
  { unfold sps_read_prefix in Hprefix.
    destruct (gst_nal_bs_read bs 8) as [p0 b0].
    destruct (gst_nal_bs_read b0 1) as [? b1].
    destruct (gst_nal_bs_read b1 1) as [? b2].
    destruct (gst_nal_bs_read b2 1) as [? b3].
    destruct (gst_nal_bs_read b3 1) as [? b4].
    destruct (gst_nal_bs_read b4 4) as [? b5].
    destruct (gst_nal_bs_read b5 8) as [l0 b6].
    injection Hprefix as <- _ _. reflexivity. }
  rewrite (dec_bind_run _ _ h h bs bs1 (p, l))
    by (unfold dec_reader; rewrite Hprefix; reflexivity).
  cbv beta iota.
  destruct (gst_nal_bs_read_ue bs1) as [v bs2] eqn:Hid.
  rewrite (dec_bind_run _ _ h h bs1 bs2 v)
    by (unfold dec_read_ue; rewrite Hid; reflexivity).
  rewrite (dec_bind_run _ _ h h bs2 bs2 h) by reflexivity.
  cbv beta zeta.
  destruct (Z.leb_spec MAX_SPS_COUNT (to_guint8 v)) as [Hout|Hin].
  { unfold gst_h264_parse_get_sps.
    assert ((MAX_SPS_COUNT <=? to_guint8 v) = true) as ->
      by (apply Z.leb_le; exact Hout).
    exists FALSE, h, bs2. split; [reflexivity|].
    split; [right; reflexivity|]. split; [reflexivity|].
    split; [reflexivity|]. discriminate. }
  set (k := to_guint8 v) in *.
  destruct (get_sps_in_range h k Hin) as (h1 & -> & _ & HJ1).
  rewrite (dec_bind_run _ _ h h1 bs2 bs2 tt) by reflexivity.
  destruct (sps_store_changes h k (fun s => s = sps_entry h k)
              (fun s => profile_idc s = p)
              (set_profile_idc p) h1 bs2) as (h2 & Hrun2 & HJ2);
    [intros [] _; reflexivity | exact HJ1 |].
  rewrite (dec_bind_run _ _ _ _ _ _ _ Hrun2).
  destruct (sps_store_changes h k (fun s => profile_idc s = p)
              (fun s => profile_idc s = p /\ level_idc s = l)
              (set_level_idc l) h2 bs2) as (h3 & Hrun3 & HJ3);
    [intros [] Hs; split; [exact Hs | reflexivity] | exact HJ2 |].
  rewrite (dec_bind_run _ _ _ _ _ _ _ Hrun3).
  rewrite (dec_bind_run _ _ h3 h3 bs2 (sps_read_chroma p bs2) tt)
    by reflexivity.
  destruct (gst_nal_bs_read_ue (sps_read_chroma p bs2)) as [v2 bs4] eqn:Hlog2.
  rewrite (dec_bind_run _ _ h3 h3 _ bs4 v2)
    by (unfold dec_read_ue; rewrite Hlog2; reflexivity).
  destruct (sps_store_changes h k
              (fun s => profile_idc s = p /\ level_idc s = l)
              (sps_header p l (to_guint8 v2))
              (set_log2_max_frame_num_minus4 (to_guint8 v2)) h3 bs4)
    as (h4 & Hrun4 & HJ4);
    [intros [] [Hs1 Hs2]; repeat split; assumption | exact HJ3 |].
  rewrite (dec_bind_run _ _ _ _ _ _ _ Hrun4).
  assert (forall r h5,
            decoding_sps h k (sps_header p l (to_guint8 v2)) h5 ->
            (r = TRUE -> to_guint8 v2 <= 12) ->
            (r = TRUE \/ r = FALSE) ->
            (r = TRUE \/ r = FALSE) /\
            without_sps h5 = without_sps h /\
            (forall j, sps h5 <> Some j ->
               sps_buffers h5 !! j = sps_buffers h !! j) /\
            (r = TRUE ->
             exists k0 s,
               sps h5 = Some k0 /\ 0 <= k0 < MAX_SPS_COUNT /\
               sps_buffers h5 !! k0 = Some s /\
               profile_idc s = to_guint8 (fst (gst_nal_bs_read bs 8)) /\
               level_idc s = snd (fst (p, l, bs1)) /\
               log2_max_frame_num_minus4 s <= 12)) as Hfinish.
  { intros r h5 (Hsps & (s & Hs & Hs1 & Hs2 & Hs3) & Hothers & Hframe)
      Hlog Hr.
    split; [exact Hr|]. split; [exact Hframe|]. split.
    - intros j Hj. apply Hothers. rewrite Hsps in Hj. congruence.
    - intros Htrue. exists k, s. split; [exact Hsps|].
      split; [pose proof (to_guint8_bound v); subst k; lia|].
      split; [exact Hs|]. split; [congruence|]. split; [exact Hs2|].
      rewrite Hs3. apply Hlog, Htrue. }
  destruct (Z.ltb_spec 12 (to_guint8 v2)) as [Hbad|Hgood].
  - exists FALSE, h4, bs4. split; [reflexivity|].
    apply (Hfinish FALSE h4 HJ4); [discriminate | right; reflexivity].
  - destruct (sps_decode_rest_keeps h k p l (to_guint8 v2) h4 bs4 HJ4)
      as (r & h5 & bs5 & Hrun5 & HJ5).
    pose proof (sps_decode_rest_returns_true _ _ _ _ _ _ Hrun5) as ->.
    exists TRUE, h5, bs5. split; [exact Hrun5|].
    apply (Hfinish TRUE h5 HJ5); [intros _; exact Hgood | left; reflexivity].
Qed.

(** X19: [gst_nal_decode_pps] returns for every input, whatever the size
    [MAX_PPS_COUNT] of the PPS table.  With the decoded [pps_id] (a
    [guint8]) inside the table it returns TRUE, makes the entry of that id
    current and stores the decoded [sps_id] in it unchecked, creating the
    entry when it was not there; it leaves the other entries, the SPS table
    and the other fields of the element alone.  With the [pps_id] outside
    the table it returns FALSE after reading the [pps_id] only, and the
    element is unchanged. *)
Theorem decode_pps_by_table_size (MAX_PPS_COUNT : Z) (h : GstH264Parse)
    (bs : GstNalBs) :
  (to_guint8 (fst (gst_nal_bs_read_ue bs)) < MAX_PPS_COUNT ->
   exists h' bs' k,
     gst_nal_decode_pps MAX_PPS_COUNT h bs = Ret (TRUE, h', bs') /\
     k = to_guint8 (fst (gst_nal_bs_read_ue bs)) /\
     pps h' = Some k /\
     pps_buffers h' !! k
     = Some {| pps_id := match pps_buffers h !! k with
                         | Some e => pps_id e
                         | None => 0
                         end;
               pps_sps_id :=
                 to_guint8
                   (fst (gst_nal_bs_read_ue (snd (gst_nal_bs_read_ue bs)))) |}
     /\
     (forall j, j <> k -> pps_buffers h' !! j = pps_buffers h !! j) /\
     set_pps None (set_pps_buffers ∅ h') = set_pps None (set_pps_buffers ∅ h))
  /\
  (MAX_PPS_COUNT <= to_guint8 (fst (gst_nal_bs_read_ue bs)) ->
   gst_nal_decode_pps MAX_PPS_COUNT h bs
   = Ret (FALSE, h, snd (gst_nal_bs_read_ue bs))).
Proof.
  unfold gst_nal_decode_pps.
  destruct (gst_nal_bs_read_ue bs) as [v bs1] eqn:Hid.
  rewrite (dec_bind_run _ _ h h bs bs1 v)
    by (unfold dec_read_ue; rewrite Hid; reflexivity).
  rewrite (dec_bind_run _ _ h h bs1 bs1 h) by reflexivity.
  cbv beta zeta. unfold gst_h264_parse_get_pps. cbn [fst snd].
  split.
  2: { intros Hout.
       assert ((MAX_PPS_COUNT <=? to_guint8 v) = true) as ->
         by (apply Z.leb_le; exact Hout).
       reflexivity. }
  intros Hin.
  assert ((MAX_PPS_COUNT <=? to_guint8 v) = false) as ->
    by (apply Z.leb_gt; exact Hin).
  set (k := to_guint8 v) in *.
  rewrite (dec_bind_run _ _ h _ bs1 bs1 tt) by reflexivity.
  destruct (gst_nal_bs_read_ue bs1) as [v2 bs2] eqn:Hsps.
  match goal with
  | |- context [dec_bind dec_read_ue _ ?h1 bs1] =>
      rewrite (dec_bind_run _ _ h1 h1 bs1 bs2 v2)
        by (unfold dec_read_ue; rewrite Hsps; reflexivity);
      set (h2 := h1)
  end.
  assert (pps_buffers h2
          = <[k := match pps_buffers h !! k with
                   | Some e => e
                   | None => pps_new0
                   end]> (pps_buffers h)) as Hbuf
    by (subst h2; destruct h; reflexivity).
  unfold dec_bind at 1. unfold pps_store_sps_id.
  rewrite Hbuf, lookup_insert_eq. cbn [dec_ret fst].
  eexists _, _, k. split; [reflexivity|]. split; [reflexivity|].
  assert (forall m, pps (set_pps_buffers m h2) = Some k /\
                    pps_buffers (set_pps_buffers m h2) = m /\
                    set_pps None (set_pps_buffers ∅ (set_pps_buffers m h2))
                    = set_pps None (set_pps_buffers ∅ h))
    as Hset by (intros m; subst h2; destruct h; repeat split).
  destruct (Hset (<[k := {| pps_id := pps_id
                               match pps_buffers h !! k with
                               | Some e => e
                               | None => pps_new0
                               end;
                            pps_sps_id := to_guint8 v2 |}]>
                    (<[k := match pps_buffers h !! k with
                            | Some e => e
                            | None => pps_new0
                            end]> (pps_buffers h))))
    as (Hpps & Hbuf' & Hframe).
  split; [exact Hpps|]. rewrite Hbuf'.
  split; [rewrite lookup_insert_eq; destruct (pps_buffers h !! k);
          reflexivity|].
  split; [|exact Hframe].
  intros j Hj. rewrite !lookup_insert_ne by congruence. reflexivity.
Qed.

(** X20: [gst_vui_decode_hrd_parameters] stores [cpb_cnt_minus1] before it
    checks it: for a value above 31 it returns FALSE without reading
    further, and the current SPS keeps the value. *)
Theorem hrd_parameters_keep_bad_cpb_cnt (h : GstH264Parse)
    (bs bs1 : GstNalBs) (k v : Z) (s : GstH264Sps) :
  sps h = Some k ->
  sps_buffers h !! k = Some s ->
  gst_nal_bs_read_ue bs = (v, bs1) ->
  31 < to_guint8 v ->
  gst_vui_decode_hrd_parameters h bs
  = Ret (FALSE,
         set_sps_buffers
           (<[k := set_cpb_cnt_minus1 (to_guint8 v) s]> (sps_buffers h)) h,
         bs1).
Proof.
  intros Hsps Hs Hread Hbad. unfold gst_vui_decode_hrd_parameters.
  rewrite (dec_bind_run _ _ h h bs bs h) by reflexivity.
  cbv beta zeta. rewrite Hsps.
  rewrite (dec_bind_run _ _ h h bs bs1 v)
    by (unfold dec_read_ue; rewrite Hread; reflexivity).
  rewrite (dec_bind_run _ _ _ _ _ _ _
             (sps_store_eq k (set_cpb_cnt_minus1 (to_guint8 v)) s h bs1 Hs)).
  set (h1 := set_sps_buffers _ h).
  assert (sps_buffers h1 !! k = Some (set_cpb_cnt_minus1 (to_guint8 v) s))
    as Hs1 by (subst h1; rewrite sps_buffers_set_sps_buffers;
               apply lookup_insert_eq).
  rewrite (dec_bind_run _ _ h1 h1 bs1 bs1
             (set_cpb_cnt_minus1 (to_guint8 v) s))
    by (unfold sps_load; rewrite Hs1; reflexivity).
  assert (cpb_cnt_minus1 (set_cpb_cnt_minus1 (to_guint8 v) s) = to_guint8 v)
    as -> by (destruct s; reflexivity).
  assert ((31 <? to_guint8 v) = true) as -> by (apply Z.ltb_lt; exact Hbad).
  reflexivity.
Qed.

Lemma hrd_parameters_keep_bad_cpb_cnt_witness :
  exists h' bs',
    gst_vui_decode_hrd_parameters
      (set_sps (Some 0) h264parse_hrd) (gst_nal_bs_init [0x04; 0x20])
    = Ret (FALSE, h', bs') /\
    cpb_cnt_minus1 <$> sps_buffers h' !! 0 = Some 32.
Proof.
  eexists _, _. split.
  - apply (hrd_parameters_keep_bad_cpb_cnt (set_sps (Some 0) h264parse_hrd)
             (gst_nal_bs_init [0x04; 0x20]) _ 0 32 sample_sps_hrd);
      [reflexivity | reflexivity | vm_compute; reflexivity
      | vm_compute; reflexivity].
  - vm_compute. reflexivity.
Defined.

(** ** SEI messages *)

Lemma sei_delay_loop_overrun (count : nat) :
  forall (idx len : Z) (h : GstH264Parse) (bs : GstNalBs),
  0 <= idx <= 32 -> 32 < idx + Z.of_nat count ->
  sei_delay_loop count idx len h bs = Undef.
Proof.
  induction count as [|count IH]; intros idx len h bs Hidx Hcount; [lia|].
  cbn [sei_delay_loop].
  destruct (gst_nal_bs_read bs (len + 1)) as [v bs1] eqn:Hread.
  rewrite (dec_bind_run _ _ h h bs bs1 v)
    by (unfold dec_read; rewrite Hread; reflexivity).
  unfold store_initial_cpb_removal_delay.
  destruct (Z.ltb_spec idx 32) as [Hlt|Hge].
  - assert ((0 <=? idx) = true) as -> by (apply Z.leb_le; lia).
    cbn [andb].
    match goal with
    | |- dec_bind (dec_modify ?f) _ h bs1 = _ =>
        rewrite (dec_bind_run _ _ h (f h) bs1 bs1 tt) by reflexivity
    end.
    destruct (gst_nal_bs_read bs1 (len + 1)) as [v2 bs2] eqn:Hread2.
    match goal with
    | |- dec_bind (dec_read _) _ ?h1 bs1 = _ =>
        rewrite (dec_bind_run _ _ h1 h1 bs1 bs2 v2)
          by (unfold dec_read; rewrite Hread2; reflexivity)
    end.
    apply IH; lia.
  - rewrite andb_false_r. reflexivity.
Qed.

(** X21: [gst_sei_decode_buffering_period] runs its loop up to the
    [cpb_cnt_minus1] of the SPS without a check against the 32 elements of
    [initial_cpb_removal_delay]: for an SPS with HRD parameters present and
    [cpb_cnt_minus1] of 32 or more (which [gst_vui_decode_hrd_parameters]
    rejects but leaves in the SPS) it writes behind the array. *)
Theorem buffering_period_overruns_delay_array (h : GstH264Parse)
    (bs bs1 : GstNalBs) (v : Z) (s : GstH264Sps) :
  gst_nal_bs_read_ue bs = (v, bs1) ->
  to_guint8 v < MAX_SPS_COUNT ->
  sps_buffers h !! to_guint8 v = Some s ->
  nal_hrd_parameters_present_flag s <> 0
  \/ vcl_hrd_parameters_present_flag s <> 0 ->
  32 <= cpb_cnt_minus1 s ->
  gst_sei_decode_buffering_period h bs = Undef.
Proof.
  intros Hread Hin Hs Hflag Hcnt. unfold gst_sei_decode_buffering_period.
  rewrite (dec_bind_run _ _ h h bs bs1 v)
    by (unfold dec_read_ue; rewrite Hread; reflexivity).
  rewrite (dec_bind_run _ _ h h bs1 bs1 h) by reflexivity.
  cbv beta zeta.
  destruct (get_sps_in_range h (to_guint8 v) Hin)
    as (h1 & -> & _ & (_ & (s1 & Hs1 & ->) & _)).
  rewrite (dec_bind_run _ _ h h1 bs1 bs1 tt) by reflexivity.
  assert (sps_entry h (to_guint8 v) = s) as Hentry
    by (unfold sps_entry; rewrite Hs; reflexivity).
  rewrite Hentry in Hs1.
  rewrite (dec_bind_run _ _ h1 h1 bs1 bs1 s)
    by (unfold sps_load; rewrite Hs1; reflexivity).
  assert (forall h2 bs2,
            sei_delay_loop (Z.to_nat (cpb_cnt_minus1 s + 1)) 0
              (initial_cpb_removal_delay_length_minus1 s) h2 bs2 = Undef)
    as Hloop by (intros h2 bs2; apply sei_delay_loop_overrun; lia).
  destruct (Z.eqb_spec (nal_hrd_parameters_present_flag s) 0) as [Hnal|Hnal].
  - destruct Hflag as [Hflag|Hflag]; [contradiction|].
    apply Z.eqb_neq in Hflag. rewrite Hflag.
    cbn [negb dec_when].
    rewrite (dec_bind_run _ _ h1 h1 bs1 bs1 tt) by reflexivity.
    unfold dec_bind. rewrite Hloop. reflexivity.
  - cbn [negb dec_when]. unfold dec_bind at 1. rewrite Hloop. reflexivity.
Qed.

Lemma buffering_period_overruns_delay_array_witness :
  (exists h' bs',
     gst_nal_decode_sps h264parse_init
       (gst_nal_bs_init [0x42; 0x00; 0x1e; 0xfb; 0x90; 0x41; 0x08])
     = Ret (TRUE, h', bs') /\
     gst_sei_decode_buffering_period h' (gst_nal_bs_init [0x80]) = Undef).
Proof.
  destruct (gst_nal_decode_sps h264parse_init
              (gst_nal_bs_init [0x42; 0x00; 0x1e; 0xfb; 0x90; 0x41; 0x08]))
    as [[[r h'] bs']| |] eqn:Hrun;
    [|vm_compute in Hrun; discriminate Hrun
     |vm_compute in Hrun; discriminate Hrun].
  exists h', bs'.
  assert (r = TRUE /\
          exists s, sps_buffers h' !! 0 = Some s /\
                    nal_hrd_parameters_present_flag s = 1 /\
                    cpb_cnt_minus1 s = 32) as (-> & s & Hs & Hnal & Hcnt).
  { vm_compute in Hrun. injection Hrun as <- <- _.
    split; [reflexivity|]. eexists. split; [reflexivity|].
    split; reflexivity. }
  split; [reflexivity|].
  apply (buffering_period_overruns_delay_array h' (gst_nal_bs_init [0x80])
           (snd (gst_nal_bs_read_ue (gst_nal_bs_init [0x80]))) 0 s).
  - vm_compute; reflexivity.
  - vm_compute; reflexivity.
  - exact Hs.
  - left. rewrite Hnal. discriminate.
  - rewrite Hcnt. discriminate.
Defined.

(** X22: [gst_nal_decode_sei] skips what it does not decode: for a payload
    type other than buffering period (0) and picture timing (1) it returns
    TRUE after the payload type and size bytes and leaves the element as it
    is. *)
Theorem decode_sei_ignores_other_payloads (h : GstH264Parse) (bs : GstNalBs) :
  0 <= bs_head bs < 8 ->
  exists payloadType bs1,
    sei_decode_header h bs = Ret (payloadType, h, bs1) /\
    (payloadType <> SEI_BUF_PERIOD -> payloadType <> SEI_PIC_TIMING ->
     gst_nal_decode_sei h bs = Ret (TRUE, h, bs1)).
Proof.
  intros Hhead.
  destruct (sei_decode_header_total h bs Hhead) as (t & bs1 & Hhdr & _).
  exists t, bs1. split; [exact Hhdr|]. intros Hbuf Hpic.
  unfold gst_nal_decode_sei. rewrite (dec_bind_run _ _ _ _ _ _ _ Hhdr).
  apply Z.eqb_neq in Hbuf, Hpic. rewrite Hbuf, Hpic. reflexivity.
Qed.

Lemma decode_sei_ignores_other_payloads_witness :
  exists bs1,
    gst_nal_decode_sei h264parse_hrd (gst_nal_bs_init [0x05; 0x02; 0xaa; 0xbb])
    = Ret (TRUE, h264parse_hrd, bs1).
Proof.
  destruct (decode_sei_ignores_other_payloads h264parse_hrd
              (gst_nal_bs_init [0x05; 0x02; 0xaa; 0xbb]))
    as (t & bs1 & Hhdr & Hsei); [cbn; lia|].
  exists bs1. apply Hsei.
  - intros ->. vm_compute in Hhdr. discriminate Hhdr.
  - intros ->. vm_compute in Hhdr. discriminate Hhdr.
Defined.

(** ** The slice header *)

Lemma get_pps_in_table (MAX_PPS_COUNT : Z) (h : GstH264Parse) (k : Z) :
  k < MAX_PPS_COUNT ->
  exists h1,
    gst_h264_parse_get_pps MAX_PPS_COUNT h k = (Some k, h1) /\
    set_pps (Some k) h1 = h1 /\
    pps h1 = Some k /\
    sps h1 = sps h /\ sps_buffers h1 = sps_buffers h /\
    pps_buffers h1
    = <[k := match pps_buffers h !! k with
             | Some e => e
             | None => pps_new0
             end]> (pps_buffers h).
Proof.
  intros Hk. unfold gst_h264_parse_get_pps.
  assert ((MAX_PPS_COUNT <=? k) = false) as -> by (apply Z.leb_gt; exact Hk).
  eexists. split; [reflexivity|]. destruct h; repeat split.
Qed.

(** The slice header decoder with a [pps_id] inside the PPS table, up to
    the point where it has looked up the SPS that the PPS names. *)
Lemma slice_header_run (MAX_PPS_COUNT : Z) (sl : GstH264SliceFields)
    (h : GstH264Parse) (bs : GstNalBs) :
  to_guint8
    (fst (gst_nal_bs_read_ue
            (snd (gst_nal_bs_read_ue (snd (gst_nal_bs_read_ue bs))))))
  < MAX_PPS_COUNT ->
  exists first_mb stype v bs3 h1 e,
    gst_nal_bs_read_ue
      (snd (gst_nal_bs_read_ue (snd (gst_nal_bs_read_ue bs)))) = (v, bs3) /\
    pps h1 = Some (to_guint8 v) /\ sps h1 = sps h /\
    sps_buffers h1 = sps_buffers h /\
    pps_buffers h1 !! to_guint8 v = Some e /\
    e = match pps_buffers h !! to_guint8 v with
        | Some e => e
        | None => pps_new0
        end /\
    gst_nal_decode_slice_header MAX_PPS_COUNT sl h bs
    = (let sl1 :=
         {| h_first_mb_in_slice := first_mb;
            h_slice_type := stype;
            h_frame_num := h_frame_num sl;
            h_field_pic_flag := h_field_pic_flag sl;
            h_bottom_field_flag := h_bottom_field_flag sl |} in
       let '(sps1, h2) :=
         gst_h264_parse_get_sps h1 (to_guint8 (pps_sps_id e)) in
       match sps1 with
       | None => Undef
       | Some ks =>
           match sps_buffers (set_sps sps1 h2) !! ks with
           | None => Undef
           | Some s =>
               let '(frame_num, bs4) :=
                 gst_nal_bs_read bs3
                   (log2_max_pic_order_cnt_lsb_minus4 s + 4) in
               Ret (TRUE,
                    {| h_first_mb_in_slice := first_mb;
                       h_slice_type := stype;
                       h_frame_num := frame_num;
                       h_field_pic_flag := h_field_pic_flag sl;
                       h_bottom_field_flag := h_bottom_field_flag sl |},
                    set_sps sps1 h2, bs4)
           end
       end).
Proof.
  unfold gst_nal_decode_slice_header.
  destruct (gst_nal_bs_read_ue bs) as [first_mb bs1] eqn:H1. cbn [snd].
  destruct (gst_nal_bs_read_ue bs1) as [stype bs2] eqn:H2. cbn [snd].
  destruct (gst_nal_bs_read_ue bs2) as [v bs3] eqn:H3. cbn [fst].
  intros Hin.
  destruct (get_pps_in_table MAX_PPS_COUNT h (to_guint8 v) Hin)
    as (h1 & Hget & Hfix & Hpps & Hsps & Hbuf & Hpbuf).
  exists first_mb, stype, v, bs3, h1, (match pps_buffers h !! to_guint8 v with
                                      | Some e => e
                                      | None => pps_new0
                                      end).
  split; [reflexivity|]. split; [exact Hpps|]. split; [exact Hsps|].
  split; [exact Hbuf|].
  split; [rewrite Hpbuf; apply lookup_insert_eq|]. split; [reflexivity|].
  rewrite (dec_bind_run _ _ h h bs bs1 first_mb)
    by (unfold dec_read_ue; rewrite H1; reflexivity).
  rewrite (dec_bind_run _ _ h h bs1 bs2 stype)
    by (unfold dec_read_ue; rewrite H2; reflexivity).
  cbv zeta.
  rewrite (dec_bind_run _ _ h h bs2 bs3 v)
    by (unfold dec_read_ue; rewrite H3; reflexivity).
  rewrite (dec_bind_run _ _ h h bs3 bs3 h) by reflexivity.
  rewrite Hget.
  rewrite (dec_bind_run _ _ h h1 bs3 bs3 tt)
    by (unfold dec_modify; rewrite Hfix; reflexivity).
  rewrite (dec_bind_run _ _ h1 h1 bs3 bs3
             (match pps_buffers h !! to_guint8 v with
              | Some e => e
              | None => pps_new0
              end))
    by (unfold pps_load; rewrite Hpbuf, lookup_insert_eq; reflexivity).
  rewrite (dec_bind_run _ _ h1 h1 bs3 bs3 h1) by reflexivity.
  destruct (gst_h264_parse_get_sps h1 _) as [sps1 h2].
  rewrite (dec_bind_run _ _ h1 (set_sps sps1 h2) bs3 bs3 tt) by reflexivity.
  destruct sps1 as [ks|]; [|reflexivity].
  unfold dec_bind at 1. unfold sps_load.
  destruct (sps_buffers (set_sps (Some ks) h2) !! ks) as [s|]; [|reflexivity].
  unfold dec_bind at 1. unfold dec_read.
  destruct (gst_nal_bs_read bs3 _) as [frame_num bs4].
  reflexivity.
Qed.

(** The slice header decoder with a [pps_id] outside the PPS table:
    [h->pps] becomes NULL and the function returns FALSE. *)
Lemma slice_header_outside_pps_table (MAX_PPS_COUNT : Z)
    (sl : GstH264SliceFields) (h : GstH264Parse) (bs : GstNalBs) :
  MAX_PPS_COUNT
  <= to_guint8
       (fst (gst_nal_bs_read_ue
               (snd (gst_nal_bs_read_ue (snd (gst_nal_bs_read_ue bs)))))) ->
  gst_nal_decode_slice_header MAX_PPS_COUNT sl h bs
  = Ret (FALSE,
         {| h_first_mb_in_slice := fst (gst_nal_bs_read_ue bs);
            h_slice_type :=
              fst (gst_nal_bs_read_ue (snd (gst_nal_bs_read_ue bs)));
            h_frame_num := h_frame_num sl;
            h_field_pic_flag := h_field_pic_flag sl;
            h_bottom_field_flag := h_bottom_field_flag sl |},
         set_pps None h,
         snd (gst_nal_bs_read_ue
                (snd (gst_nal_bs_read_ue (snd (gst_nal_bs_read_ue bs)))))).
Proof.
  unfold gst_nal_decode_slice_header.
  destruct (gst_nal_bs_read_ue bs) as [first_mb bs1] eqn:H1. cbn [fst snd].
  destruct (gst_nal_bs_read_ue bs1) as [stype bs2] eqn:H2. cbn [fst snd].
  destruct (gst_nal_bs_read_ue bs2) as [v bs3] eqn:H3. cbn [fst snd].
  intros Hout.
  rewrite (dec_bind_run _ _ h h bs bs1 first_mb)
    by (unfold dec_read_ue; rewrite H1; reflexivity).
  rewrite (dec_bind_run _ _ h h bs1 bs2 stype)
    by (unfold dec_read_ue; rewrite H2; reflexivity).
  cbv zeta.
  rewrite (dec_bind_run _ _ h h bs2 bs3 v)
    by (unfold dec_read_ue; rewrite H3; reflexivity).
  rewrite (dec_bind_run _ _ h h bs3 bs3 h) by reflexivity.
  unfold gst_h264_parse_get_pps.
  assert ((MAX_PPS_COUNT <=? to_guint8 v) = true) as ->
    by (apply Z.leb_le; exact Hout).
  reflexivity.
Qed.

(** X23: wherever [gst_nal_decode_slice_header] returns, it has not
    touched [field_pic_flag] and [bottom_field_flag]: the guard
    [!h->sps && !h->sps->frame_mbs_only_flag] of the only code that sets
    them holds for no SPS the function could have read [frame_num] with.
    Whatever the size [MAX_PPS_COUNT] of the PPS table, it returns in one
    of two ways: FALSE for a [pps_id] outside the table, with [h->pps]
    NULL and [frame_num] and the current SPS untouched; or TRUE for a
    [pps_id] inside the table, with that PPS current and the current SPS
    inside the SPS table. *)
Theorem slice_header_never_reads_field_flags (MAX_PPS_COUNT : Z)
    (sl sl' : GstH264SliceFields) (h h' : GstH264Parse) (bs bs' : GstNalBs)
    (r : Z) :
  gst_nal_decode_slice_header MAX_PPS_COUNT sl h bs = Ret (r, sl', h', bs') ->
  h_field_pic_flag sl' = h_field_pic_flag sl /\
  h_bottom_field_flag sl' = h_bottom_field_flag sl /\
  exists pps_id,
    pps_id
    = to_guint8
        (fst (gst_nal_bs_read_ue
                (snd (gst_nal_bs_read_ue (snd (gst_nal_bs_read_ue bs)))))) /\
    ((r = FALSE /\ MAX_PPS_COUNT <= pps_id /\ pps h' = None /\
      h_frame_num sl' = h_frame_num sl /\ sps h' = sps h) \/
     (r = TRUE /\ pps_id < MAX_PPS_COUNT /\ pps h' = Some pps_id /\
      exists ks, sps h' = Some ks /\ 0 <= ks < MAX_SPS_COUNT /\
                 is_Some (sps_buffers h' !! ks))).
Proof.
  intros Hrun.
  destruct (Z.leb_spec MAX_PPS_COUNT
              (to_guint8
                 (fst (gst_nal_bs_read_ue
                         (snd (gst_nal_bs_read_ue
                                 (snd (gst_nal_bs_read_ue bs))))))))
    as [Hout|Hin].
  - rewrite (slice_header_outside_pps_table _ sl h bs Hout) in Hrun.
    injection Hrun as <- <- <- <-.
    split; [reflexivity|]. split; [reflexivity|].
    eexists; split; [reflexivity|]. left.
    split; [reflexivity|]. split; [exact Hout|].
    split; [destruct h; reflexivity|]. split; [reflexivity|].
    destruct h; reflexivity.
  - destruct (slice_header_run MAX_PPS_COUNT sl h bs Hin)
      as (first_mb & stype & v & bs3 & h1 & e & Hread & Hpps1 & _ & _ & _ & _
          & Heq).
    rewrite Heq in Hrun. clear Heq. cbv zeta in Hrun.
    rewrite Hread in Hin |- *. cbn [fst] in Hin |- *.
    pose proof (to_guint8_bound (pps_sps_id e)) as Hks.
    unfold gst_h264_parse_get_sps in Hrun.
    destruct (MAX_SPS_COUNT <=? to_guint8 (pps_sps_id e)) eqn:Hrange;
      [discriminate|].
    apply Z.leb_gt in Hrange.
    match type of Hrun with
    | context [sps_buffers ?hx !! _] => set (h2 := hx) in *
    end.
    destruct (sps_buffers h2 !! to_guint8 (pps_sps_id e)) as [s|] eqn:Hs;
      [|discriminate].
    destruct (gst_nal_bs_read bs3 _) as [frame_num bs4].
    injection Hrun as <- <- <- <-.
    split; [reflexivity|]. split; [reflexivity|].
    eexists; split; [reflexivity|]. right.
    split; [reflexivity|]. split; [exact Hin|].
    split; [subst h2; rewrite <- Hpps1; destruct h1; reflexivity|].
    exists (to_guint8 (pps_sps_id e)).
    split; [subst h2; destruct h1; reflexivity|]. split; [lia|].
    rewrite Hs. eauto.
Qed.

Lemma slice_header_never_reads_field_flags_witness :
  exists sl' h' bs',
    gst_nal_decode_slice_header 256 (MkSliceFields (-1) (-1) (-1) 0 0)
      h264parse_after_sps (gst_nal_bs_init [0x88; 0x84])
    = Ret (TRUE, sl', h', bs') /\
    h_field_pic_flag sl' = 0 /\ h_bottom_field_flag sl' = 0.
Proof.
  destruct (gst_nal_decode_slice_header 256
              (MkSliceFields (-1) (-1) (-1) 0 0)
              h264parse_after_sps (gst_nal_bs_init [0x88; 0x84]))
    as [[[[r sl'] h'] bs']| |] eqn:Hrun;
    [|vm_compute in Hrun; discriminate Hrun
     |vm_compute in Hrun; discriminate Hrun].
  destruct (slice_header_never_reads_field_flags _ _ _ _ _ _ _ _ Hrun)
    as (Hf & Hb & pps_id & Hid & [(_ & Hout & _)|(-> & _)]).
  - exfalso. subst pps_id. vm_compute in Hout. apply Hout. reflexivity.
  - exists sl', h', bs'. repeat split; assumption.
Defined.

(** X24: when the PPS that a slice header names is inside the PPS table
    (whatever its size [MAX_PPS_COUNT]) and refers to an [sps_id] outside
    the SPS table, [gst_h264_parse_get_sps] returns NULL and
    [gst_nal_decode_slice_header] dereferences it to read [frame_num].
    A [pps_id] is a [guint8]: for a table of 256 entries the first
    hypothesis always holds. *)
Theorem slice_header_dereferences_missing_sps (MAX_PPS_COUNT : Z)
    (sl : GstH264SliceFields) (h : GstH264Parse) (bs bs3 : GstNalBs) (v : Z)
    (e : GstH264Pps) :
  to_guint8 v < MAX_PPS_COUNT ->
  gst_nal_bs_read_ue
    (snd (gst_nal_bs_read_ue (snd (gst_nal_bs_read_ue bs)))) = (v, bs3) ->
  pps_buffers h !! to_guint8 v = Some e ->
  MAX_SPS_COUNT <= to_guint8 (pps_sps_id e) ->
  gst_nal_decode_slice_header MAX_PPS_COUNT sl h bs = Undef.
Proof.
  intros Hin Hread He Hout.
  destruct (slice_header_run MAX_PPS_COUNT sl h bs)
    as (first_mb & stype & v' & bs3' & h1 & e' & Hread' & _ & _ & _ & _ &
        He' & ->).
  { rewrite Hread. exact Hin. }
  rewrite Hread in Hread'. injection Hread' as <- <-.
  rewrite He in He'. subst e'. cbv zeta.
  unfold gst_h264_parse_get_sps.
  assert ((MAX_SPS_COUNT <=? to_guint8 (pps_sps_id e)) = true) as ->
    by (apply Z.leb_le; exact Hout).
  reflexivity.
Qed.

Lemma slice_header_dereferences_missing_sps_witness :
  exists h' bs',
    gst_nal_decode_pps 256 h264parse_init (gst_nal_bs_init [0x82; 0x90])
    = Ret (TRUE, h', bs') /\
    gst_nal_decode_slice_header 256 (MkSliceFields (-1) (-1) (-1) 0 0) h'
      (gst_nal_bs_init [0xe0])
    = Undef.
Proof.
  destruct (gst_nal_decode_pps 256 h264parse_init
              (gst_nal_bs_init [0x82; 0x90]))
    as [[[r h'] bs']| |] eqn:Hrun;
    [|vm_compute in Hrun; discriminate Hrun
     |vm_compute in Hrun; discriminate Hrun].
  exists h', bs'.
  assert (r = TRUE /\ pps_buffers h' !! 0 = Some (MkPps 0 40)) as [-> He]
    by (vm_compute in Hrun; injection Hrun as <- <- _; split; reflexivity).
  split; [reflexivity|].
  apply (slice_header_dereferences_missing_sps 256 _ h'
           (gst_nal_bs_init [0xe0])
           (snd (gst_nal_bs_read_ue
                   (snd (gst_nal_bs_read_ue
                           (snd (gst_nal_bs_read_ue
                                   (gst_nal_bs_init [0xe0])))))))
           0 (MkPps 0 40)).
  - vm_compute; reflexivity.
  - vm_compute; reflexivity.
  - exact He.
  - vm_compute; discriminate.
Defined.

(** ** Caps negotiation and the chain function *)

Lemma land_3_bound (x : Z) : 0 <= Z.land x 3 <= 3.
Proof.
  assert (Z.land x 3 = x mod 2 ^ 2) as ->
    by (apply (Z.land_ones x 2); lia).
  pose proof (Z.mod_pos_bound x (2 ^ 2) ltac:(lia)). lia.
Qed.

(** What [gst_h264_parse_sink_setcaps] returns and sets. *)
Lemma sink_setcaps_result (gst_pad_set_caps : GstCaps -> bool)
    (h : GstH264Parse) (caps : GstCaps) :
  exists r h',
    gst_h264_parse_sink_setcaps gst_pad_set_caps h caps = Ret (r, h') /\
    set_packetized false (set_nal_length_size 0 h')
    = set_packetized false (set_nal_length_size 0 h) /\
    match codec_data caps with
    | None =>
        packetized h' = false /\ nal_length_size h' = 4 /\
        r = gst_pad_set_caps caps
    | Some data =>
        packetized h' = true /\
        ((length data < 7)%nat \/ data !! 0%nat <> Some 1 ->
         r = false /\ nal_length_size h' = nal_length_size h) /\
        ((7 <= length data)%nat -> data !! 0%nat = Some 1 ->
         r = gst_pad_set_caps caps /\
         1 <= nal_length_size h' <= 4 /\
         exists b4, data !! 4%nat = Some b4 /\
                    nal_length_size h' = Z.land b4 0x03 + 1)
    end.
Proof.
  unfold gst_h264_parse_sink_setcaps.
  destruct (codec_data caps) as [data|].
  - destruct (Z.ltb_spec (Z.of_nat (length data)) 7) as [Hshort|Hlong].
    { eexists _, _. split; [reflexivity|].
      split; [destruct h; reflexivity|].
      split; [destruct h; reflexivity|].
      split; [intros _; destruct h; split; reflexivity | intros; lia]. }
    destruct data as [|b0 [|b1 [|b2 [|b3 [|b4 data5]]]]];
      try (cbn in Hlong; lia).
    cbn [byte_at Z.leb Z.to_nat lookup list_lookup run_bind].
    change (byte_at (b0 :: b1 :: b2 :: b3 :: b4 :: data5) 0) with (Ret b0).
    cbn [run_bind].
    destruct (Z.eqb_spec b0 1) as [->|Hversion].
    + cbn [negb].
      change (byte_at (1 :: b1 :: b2 :: b3 :: b4 :: data5) 1) with (Ret b1).
      change (byte_at (1 :: b1 :: b2 :: b3 :: b4 :: data5) 2) with (Ret b2).
      change (byte_at (1 :: b1 :: b2 :: b3 :: b4 :: data5) 3) with (Ret b3).
      change (byte_at (1 :: b1 :: b2 :: b3 :: b4 :: data5) 4) with (Ret b4).
      cbn [run_bind]. cbv zeta.
      eexists _, _. split; [reflexivity|].
      split; [destruct h; reflexivity|].
      split; [destruct h; reflexivity|].
      split; [intros [Hs|Hv]; [lia | exfalso; apply Hv; reflexivity]|].
      intros _ _. split; [reflexivity|].
      pose proof (land_3_bound b4) as Hb.
      assert (nal_length_size
                (set_nal_length_size (Z.land b4 3 + 1)
                   (set_packetized true h)) = Z.land b4 3 + 1) as ->
        by (destruct h; reflexivity).
      split; [lia|]. exists b4. split; reflexivity.
    + cbn [negb].
      eexists _, _. split; [reflexivity|].
      split; [destruct h; reflexivity|].
      split; [destruct h; reflexivity|].
      split; [intros _; destruct h; split; reflexivity|].
      intros _ Hv. cbn in Hv. congruence.
  - eexists _, _. split; [reflexivity|].
    split; [destruct h; reflexivity|]. destruct h; repeat split.
Qed.

(** X25: [gst_h264_parse_sink_setcaps] reads no byte outside the
    [codec_data] and changes only the mode and the prefix length.  Caps
    without [codec_data] select the byte-stream format with 4 sync bytes.
    Caps with [codec_data] select the packetized format before the data is
    looked at: an avcC of fewer than 7 bytes or of a version other than 1 is
    refused, but the element stays packetized with the prefix length it
    had; an accepted one sets the prefix length to the low two bits of the
    fifth byte plus one, a value from 1 to 4. *)
Theorem sink_setcaps_modes (gst_pad_set_caps : GstCaps -> bool)
    (h : GstH264Parse) (caps : GstCaps) :
  exists r h',
    gst_h264_parse_sink_setcaps gst_pad_set_caps h caps = Ret (r, h') /\
    set_packetized false (set_nal_length_size 0 h')
    = set_packetized false (set_nal_length_size 0 h) /\
    match codec_data caps with
    | None =>
        packetized h' = false /\ nal_length_size h' = 4 /\
        r = gst_pad_set_caps caps
    | Some data =>
        packetized h' = true /\
        ((length data < 7)%nat \/ data !! 0%nat <> Some 1 ->
         r = false /\ nal_length_size h' = nal_length_size h) /\
        ((7 <= length data)%nat -> data !! 0%nat = Some 1 ->
         r = gst_pad_set_caps caps /\
         1 <= nal_length_size h' <= 4 /\
         exists b4, data !! 4%nat = Some b4 /\
                    nal_length_size h' = Z.land b4 0x03 + 1)
    end.
Proof. apply sink_setcaps_result. Qed.

(** X26: after caps that [gst_h264_parse_sink_setcaps] has accepted, and
    for a buffer that arrives before any caps, [gst_h264_parse_chain] with a
    segment played forward returns for every buffer: the forward path reads
    no byte outside the adapter.  A buffer that arrives before any caps
    when the default caps are refused gives [GST_FLOW_ERROR] and is neither
    stored nor pushed. *)
Theorem chain_forward_returns_after_setcaps
    (gst_pad_set_caps : GstCaps -> bool)
    (gst_pad_push : GstBuffer -> GstFlowReturn)
    (h0 h : GstH264Parse) (caps : GstCaps) (have_caps : bool)
    (buffer : GstBuffer) :
  gst_h264_parse_sink_setcaps gst_pad_set_caps h0 caps = Ret (true, h) ->
  rate (segment h) = RATE_POSITIVE ->
  (exists res h' out,
     gst_h264_parse_chain gst_pad_set_caps gst_pad_push have_caps h buffer
     = Ret (res, h', out)) /\
  (have_caps = false -> gst_pad_set_caps default_caps = false ->
   gst_h264_parse_chain gst_pad_set_caps gst_pad_push have_caps h buffer
   = Ret (GST_FLOW_ERROR, h, [])).
Proof.
  intros Hcaps Hrate.
  destruct (sink_setcaps_result gst_pad_set_caps h0 caps)
    as (r & h1 & Hrun & _ & Hmode).
  rewrite Hcaps in Hrun. injection Hrun as <- <-.
  assert (1 <= nal_length_size h <= 4) as Hnls.
  { destruct (codec_data caps) as [data|].
    - destruct Hmode as (_ & Hbad & Hgood).
      destruct (decide (7 <= length data)%nat) as [Hlen|Hlen];
        [|destruct Hbad as [Hr _]; [left; lia | discriminate Hr]].
      destruct (decide (data !! 0%nat = Some 1)) as [Hv|Hv];
        [|destruct Hbad as [Hr _]; [right; exact Hv | discriminate Hr]].
      apply (Hgood Hlen Hv).
    - destruct Hmode as (_ & -> & _). lia. }
  unfold gst_h264_parse_chain. split.
  - destruct (negb have_caps && negb (gst_pad_set_caps default_caps));
      [eauto|].
    assert (rate (segment (if negb have_caps
                           then set_nal_length_size 4 (set_packetized false h)
                           else h)) = RATE_POSITIVE) as ->
      by (destruct have_caps, h; exact Hrate).
    apply chain_forward_total. destruct have_caps, h; cbn in *; lia.
  - intros -> ->. reflexivity.
Qed.

Lemma chain_forward_returns_after_setcaps_witness :
  exists res h' out,
    gst_h264_parse_chain (fun _ => true) push_ok true
      (set_nal_length_size 2 (set_packetized true h264parse_init)) unit_p1
    = Ret (res, h', out).
Proof.
  apply (chain_forward_returns_after_setcaps (fun _ => true) push_ok
           h264parse_init
           (set_nal_length_size 2 (set_packetized true h264parse_init))
           (MkCaps (Some [1; 0x42; 0; 0x1e; 0xfd; 0xe1; 0])) true unit_p1).
  - vm_compute; reflexivity.
  - reflexivity.
Defined.

(** ** Parameter-set lookup *)

(** X27: [gst_h264_parse_get_sps] with an id inside the table makes the
    entry current, creating a zeroed one only when there was none: an entry
    that exists is never replaced, the other entries are not touched, and a
    second call with the same id changes nothing.  With an id outside the
    table it returns NULL and leaves the element, the current-SPS pointer
    included, as it is. *)
Theorem get_sps_finds_or_creates (h : GstH264Parse) (k : Z) :
  (k < MAX_SPS_COUNT ->
   exists h1,
     gst_h264_parse_get_sps h k = (Some k, h1) /\
     sps h1 = Some k /\
     sps_buffers h1 !! k = Some (sps_entry h k) /\
     (forall s, sps_buffers h !! k = Some s -> sps_buffers h1 !! k = Some s) /\
     (forall j, j <> k -> sps_buffers h1 !! j = sps_buffers h !! j) /\
     without_sps h1 = without_sps h /\
     gst_h264_parse_get_sps h1 k = (Some k, h1)) /\
  (MAX_SPS_COUNT <= k -> gst_h264_parse_get_sps h k = (None, h)).
Proof.
  split.
  - intros Hk.
    destruct (get_sps_in_range h k Hk)
      as (h1 & Hget & Hbuf & Hsps & (s & Hs & ->) & Hothers & Hframe).
    exists h1. split; [exact Hget|]. split; [exact Hsps|].
    split; [exact Hs|].
    split; [intros s Hs0; rewrite Hs; unfold sps_entry; rewrite Hs0;
            reflexivity|].
    split; [exact Hothers|]. split; [exact Hframe|].
    unfold gst_h264_parse_get_sps.
    assert ((MAX_SPS_COUNT <=? k) = false) as -> by (apply Z.leb_gt; exact Hk).
    rewrite Hs. f_equal.
    rewrite Hbuf, insert_insert_eq, <- Hbuf.
    destruct h1 as [? ? ? ? ? ? ? ? ? ? ? ? ? sp ? ? ? ? ? ? ? ?].
    cbn in Hsps. subst sp. reflexivity.
  - intros Hk. unfold gst_h264_parse_get_sps.
    assert ((MAX_SPS_COUNT <=? k) = true) as -> by (apply Z.leb_le; exact Hk).
    reflexivity.
Qed.

(** ** Splitting a byte stream in reverse *)

Lemma buf_data_sub_timestamp (gbuf : GstBuffer) (timestamp offset size : Z) :
  buf_data (buf_set_timestamp timestamp (gst_buffer_create_sub gbuf offset size))
  = take (Z.to_nat size) (drop (Z.to_nat offset) (buf_data gbuf)).
Proof. reflexivity. Qed.

(** The [while (last > 0)] loop cuts the first [last] bytes of the buffer at
    their start codes, from the back; [pieces] are the sub-buffers it hands
    to [gst_h264_parse_queue_buffer], in that order. *)
Lemma reverse_split_loop_spec (gst_pad_push : GstBuffer -> GstFlowReturn)
    (gbuf : GstBuffer) (timestamp : Z) (fuel : nat) :
  is_byte_range (buf_data gbuf) ->
  Z.of_nat (length (buf_data gbuf)) < 2 ^ 32 ->
  forall (last code : Z) (res : GstFlowReturn) (h : GstH264Parse)
         (res' : GstFlowReturn) (h' : GstH264Parse)
         (prev' : option GstBuffer) (out : list GstBuffer),
  0 <= last <= Z.of_nat (length (buf_data gbuf)) ->
  code = 0xffffffff \/ code = 0x01000000 ->
  reverse_split_loop gst_pad_push fuel gbuf timestamp last code res h
  = Ret (res', h', prev', out) ->
  exists pieces,
    take (Z.to_nat last) (buf_data gbuf)
    = carried_bytes prev' ++ concat (reverse pieces) /\
    Forall starts_with_start_code pieces /\
    pushed_bytes out ++ queued_bytes (decode h')
    ≡ₚ pieces ++ queued_bytes (decode h).
Proof.
  intros Hrange Hlen.
  induction fuel as [|fuel IH];
    intros last code res h res' h' prev' out Hlast Hcode Hloop;
    cbn [reverse_split_loop] in Hloop;
    (destruct (Z.ltb_spec 0 last) as [Hpos|Hzero];
      [|injection Hloop as <- <- <- <-; exists [];
        replace (Z.to_nat last) with 0%nat by lia;
        split; [reflexivity|]; split; [constructor | reflexivity]]).
  - discriminate.
  - destruct (find_start_reverse_spec (buf_data gbuf) last code Hrange
                ltac:(lia) ltac:(lia) Hcode)
      as (start & code1 & Hfind & Hres).
    rewrite Hfind in Hloop. cbn [run_bind] in Hloop.
    destruct Hres as [[-> Hnone]|(k & -> & Hk & Hsc & -> & Hmax)].
    + change (negb (0xffffffff =? 0xffffffff)) with false in Hloop.
      injection Hloop as <- <- <- <-. exists [].
      split; [cbn; rewrite app_nil_r; reflexivity|].
      split; [constructor | reflexivity].
    + assert (negb (Z.of_nat k =? 0xffffffff) = true) as Hfound
        by (apply negb_true_iff, Z.eqb_neq; lia).
      rewrite Hfound in Hloop.
      destruct (gst_h264_parse_queue_buffer gst_pad_push h _)
        as [[[res1 h1] out1]| |] eqn:Hq; cbn [run_bind] in Hloop;
        try discriminate.
      destruct (reverse_split_loop gst_pad_push fuel gbuf timestamp
                  (Z.of_nat k) 0x01000000 res1 h1)
        as [[[[res2 h2] prev2] out2]| |] eqn:Hrec;
        cbn [run_bind] in Hloop; try discriminate.
      injection Hloop as <- <- <- <-.
      destruct (queue_buffer_queue_ok _ _ _ _ _ _ Hq) as (_ & _ & Hperm1).
      rewrite buf_data_sub_timestamp in Hperm1.
      assert (0 <= Z.of_nat k <= Z.of_nat (length (buf_data gbuf))) as Hkb
        by lia.
      destruct (IH (Z.of_nat k) 0x01000000 res1 h1 _ _ _ _ Hkb
                  (or_intror eq_refl) Hrec)
        as (pieces2 & Hbytes2 & Hstarts2 & Hperm2).
      rewrite Nat2Z.id in Hbytes2, Hperm1.
      set (piece := take (Z.to_nat (last - Z.of_nat k))
                      (drop k (buf_data gbuf))) in *.
      exists (piece :: pieces2). split; [|split].
      * rewrite reverse_cons, concat_app. cbn [concat].
        rewrite app_nil_r, app_assoc, <- Hbytes2. subst piece.
        rewrite take_take_drop. f_equal. lia.
      * constructor; [|exact Hstarts2].
        unfold starts_with_start_code. subst piece.
        rewrite take_take.
        replace (4 `min` Z.to_nat (last - Z.of_nat k))%nat with 4%nat by lia.
        apply start_code_at_drop, Hsc.
      * unfold pushed_bytes in *. rewrite fmap_app, <- app_assoc, Hperm2.
        rewrite (Permutation_app_swap_app (buf_data <$> out1)).
        rewrite Hperm1. symmetry. apply Permutation_middle.
Qed.

Lemma reverse_gather_loop_byte_stream
    (gst_pad_push : GstBuffer -> GstFlowReturn) (gather0 : list GstBuffer) :
  forall (prev0 : option GstBuffer) (res : GstFlowReturn) (h : GstH264Parse)
         (res' : GstFlowReturn) (h' : GstH264Parse)
         (prev' : option GstBuffer) (out : list GstBuffer),
  packetized h = false ->
  Forall (fun b => is_byte_range (buf_data b)) gather0 ->
  is_byte_range (carried_bytes prev0) ->
  Z.of_nat (length (concat (buf_data <$> gather0))
            + length (carried_bytes prev0)) < 2 ^ 32 ->
  reverse_gather_loop gst_pad_push gather0 prev0 res h
  = Ret (res', h', prev', out) ->
  exists pieces,
    concat (reverse (buf_data <$> gather0)) ++ carried_bytes prev0
    = carried_bytes prev' ++ concat (reverse pieces) /\
    Forall starts_with_start_code pieces /\
    pushed_bytes out ++ queued_bytes (decode h')
    ≡ₚ pieces ++ queued_bytes (decode h).
Proof.
  induction gather0 as [|gbuf gather' IH];
    intros prev0 res h res' h' prev' out Hpk Hranges Hprev Htotal Hloop;
    cbn [reverse_gather_loop] in Hloop.
  { injection Hloop as <- <- <- <-. exists [].
    split; [cbn; rewrite app_nil_r; reflexivity|].
    split; [constructor | reflexivity]. }
  assert (packetized (set_gather gather' h) = false) as Hpk1
    by (destruct h; exact Hpk).
  rewrite Hpk1 in Hloop.
  set (gbuf1 := match prev0 with
                | Some p => gst_buffer_join gbuf p
                | None => gbuf
                end) in Hloop.
  assert (buf_data gbuf1 = buf_data gbuf ++ carried_bytes prev0) as Hjoin
    by (subst gbuf1; destruct prev0; cbn; rewrite ?app_nil_r; reflexivity).
  apply Forall_cons in Hranges as [Hgbuf Hranges].
  rewrite fmap_cons in Htotal. cbn [concat] in Htotal.
  rewrite length_app in Htotal.
  destruct (reverse_split_loop gst_pad_push (length (buf_data gbuf1)) gbuf1
              (buf_timestamp gbuf1) (buf_size gbuf1) 0xffffffff res
              (set_gather gather' h))
    as [[[[res1 h1] prev1] out1]| |] eqn:Hsplit;
    cbn [run_bind] in Hloop; try discriminate.
  destruct (reverse_gather_loop gst_pad_push gather' prev1 res1 h1)
    as [[[[res2 h2] prev2] out2]| |] eqn:Hrec;
    cbn [run_bind] in Hloop; try discriminate.
  injection Hloop as <- <- <- <-.
  assert (is_byte_range (buf_data gbuf1)) as Hrange1
    by (rewrite Hjoin; apply Forall_app; split; assumption).
  assert (Z.of_nat (length (buf_data gbuf1)) < 2 ^ 32) as Hlen32
    by (rewrite Hjoin, length_app; lia).
  assert (0 <= buf_size gbuf1 <= Z.of_nat (length (buf_data gbuf1))) as Hsz
    by (unfold buf_size; lia).
  destruct (reverse_split_loop_spec gst_pad_push gbuf1 (buf_timestamp gbuf1)
              (length (buf_data gbuf1)) Hrange1 Hlen32
              _ _ _ _ _ _ _ _ Hsz (or_introl eq_refl) Hsplit)
    as (pieces1 & Hbytes1 & Hstarts1 & Hperm1).
  unfold buf_size in Hbytes1. rewrite Nat2Z.id, firstn_all, Hjoin in Hbytes1.
  destruct (reverse_split_loop_queue_ok _ _ _ _ _ _ _ _ _ _ _ _ Hsplit)
    as (Hframe1 & _).
  destruct (without_queue_set_gather _ _ _ Hframe1) as (_ & _ & _ & Hpk2).
  assert (decode (set_gather gather' h) = decode h) as Hd
    by (destruct h; reflexivity).
  rewrite Hd in Hperm1.
  assert (is_byte_range (carried_bytes prev1)) as Hprev1.
  { assert (is_byte_range (buf_data gbuf ++ carried_bytes prev0)) as Hall
      by (apply Forall_app; split; assumption).
    rewrite Hbytes1 in Hall. apply Forall_app in Hall. apply Hall. }
  assert (length (carried_bytes prev1)
          <= length (buf_data gbuf) + length (carried_bytes prev0))%nat
    as Hlen1.
  { rewrite <- length_app, Hbytes1, length_app. lia. }
  assert (packetized h1 = false) as Hpk3 by congruence.
  assert (Z.of_nat (length (concat (buf_data <$> gather'))
                    + length (carried_bytes prev1)) < 2 ^ 32) as Htotal1
    by lia.
  destruct (IH prev1 res1 h1 _ _ _ _ Hpk3 Hranges Hprev1 Htotal1 Hrec)
    as (pieces2 & Hbytes2 & Hstarts2 & Hperm2).
  exists (pieces1 ++ pieces2). split; [|split].
  - rewrite fmap_cons, reverse_cons, concat_app. cbn [concat].
    rewrite app_nil_r, <- app_assoc, Hbytes1, app_assoc, Hbytes2.
    rewrite reverse_app, concat_app, app_assoc. reflexivity.
  - apply Forall_app. split; assumption.
  - unfold pushed_bytes in *. rewrite fmap_app, <- !app_assoc, Hperm2.
    rewrite (Permutation_app_swap_app (buf_data <$> out1)).
    rewrite Hperm1, (Permutation_app_swap_app pieces2). reflexivity.
Qed.

(** X28: on a discontinuity in byte-stream mode the reverse path cuts the
    gathered bytes at their start codes and loses none of them.  The
    gathered buffers in the order they arrived, followed by the bytes
    carried over from the call before, are the bytes carried over to the
    next call (what stands in front of the first start code) followed by
    the units handed to the decode queue, last queued first; every such unit
    begins with [00 00 00 01], and each of them is afterwards either pushed
    or queued. *)
Theorem chain_reverse_byte_stream_splits_at_start_codes
    (gst_pad_push : GstBuffer -> GstFlowReturn)
    (h : GstH264Parse) (buffer : option GstBuffer)
    (res : GstFlowReturn) (h' : GstH264Parse) (out : list GstBuffer) :
  packetized h = false ->
  Forall (fun b => is_byte_range (buf_data b)) (gather h) ->
  is_byte_range (carried_bytes (prev h)) ->
  Z.of_nat (length (concat (buf_data <$> gather h))
            + length (carried_bytes (prev h))) < 2 ^ 32 ->
  gst_h264_parse_chain_reverse gst_pad_push h true buffer
  = Ret (res, h', out) ->
  exists units,
    concat (reverse (buf_data <$> gather h)) ++ carried_bytes (prev h)
    = carried_bytes (prev h') ++ concat (reverse units) /\
    Forall starts_with_start_code units /\
    pushed_bytes out ++ queued_bytes (decode h')
    ≡ₚ units ++ queued_bytes (decode h).
Proof.
  intros Hpk Hranges Hprev Htotal Hrun.
  unfold gst_h264_parse_chain_reverse in Hrun.
  destruct (reverse_gather_loop gst_pad_push (gather (set_prev None h))
              (prev h) GST_FLOW_OK (set_prev None h))
    as [[[[res1 h1] prev1] out1]| |] eqn:Hloop;
    cbn [run_bind] in Hrun; try discriminate.
  injection Hrun as <- <- <-.
  assert (gather (set_prev None h) = gather h /\
          decode (set_prev None h) = decode h /\
          packetized (set_prev None h) = packetized h /\
          prev (set_prev None h) = None) as (Hg & Hd & Hpk0 & Hp)
    by (destruct h; repeat split).
  rewrite Hg in Hloop.
  destruct (reverse_gather_loop_spec _ _ _ _ _ _ _ _ _ Hg Hloop)
    as (_ & _ & Hprev1 & _ & _).
  rewrite Hp in Hprev1.
  assert (packetized (set_prev None h) = false) as Hpk1 by congruence.
  destruct (reverse_gather_loop_byte_stream _ _ _ _ _ _ _ _ _
              Hpk1 Hranges Hprev Htotal Hloop)
    as (units & Hbytes & Hstarts & Hperm).
  rewrite Hd in Hperm.
  exists units.
  assert (forall h2, decode h2 = decode h1 ->
                     prev h2 = prev1 ->
                     carried_bytes (prev h2) = carried_bytes prev1 /\
                     decode h2 = decode h1) as Hfinal
    by (intros h2 -> ->; split; reflexivity).
  destruct h1 as [? ? ? ? ? ? p1 ? ? ? ? ? ? ? ? ? ? ? ? ? ? ?].
  cbn in Hprev1. subst p1.
  destruct prev1 as [p|], buffer as [b|]; cbn in Hperm |- *;
    (split; [exact Hbytes|]); (split; [exact Hstarts|]); exact Hperm.
Qed.

Lemma chain_reverse_byte_stream_splits_at_start_codes_witness :
  exists res h' out units,
    gst_h264_parse_chain_reverse push_ok
      (set_segment {| rate := RATE_NEGATIVE |}
         (set_gather [sample_bytestream] h264parse_init)) true None
    = Ret (res, h', out) /\
    buf_data sample_bytestream
    = carried_bytes (prev h') ++ concat (reverse units) /\
    Forall starts_with_start_code units.
Proof.
  destruct (gst_h264_parse_chain_reverse push_ok
              (set_segment {| rate := RATE_NEGATIVE |}
                 (set_gather [sample_bytestream] h264parse_init)) true None)
    as [[[res h'] out]| |] eqn:Hrun;
    [|vm_compute in Hrun; discriminate Hrun
     |vm_compute in Hrun; discriminate Hrun].
  destruct (chain_reverse_byte_stream_splits_at_start_codes push_ok
              (set_segment {| rate := RATE_NEGATIVE |}
                 (set_gather [sample_bytestream] h264parse_init))
              None res h' out)
    as (units & Hbytes & Hstarts & _).
  - reflexivity.
  - repeat constructor; lia.
  - constructor.
  - vm_compute; reflexivity.
  - exact Hrun.
  - exists res, h', out, units. split; [reflexivity|].
    split; [|exact Hstarts].
    rewrite <- Hbytes. vm_compute. reflexivity.
Defined.

(** ** The buffering period inside the delay array *)

Lemma sei_delay_loop_keeps (h1 : GstH264Parse) (cnt len : Z) (count : nat) :
  forall idx : Z,
  0 <= idx -> idx + Z.of_nat count <= cnt + 1 -> cnt <= 31 ->
  dec_keeps (storing_delays h1 cnt) (sei_delay_loop count idx len).
Proof.
  induction count as [|count IH]; intros idx Hidx Hcount Hcnt;
    cbn [sei_delay_loop]; [apply dec_keeps_ret|].
  apply dec_keeps_bind; [apply dec_keeps_read|]. intros v.
  apply dec_keeps_bind.
  - unfold store_initial_cpb_removal_delay.
    assert ((0 <=? idx) && (idx <? 32) = true) as ->
      by (apply andb_true_intro; split; [apply Z.leb_le | apply Z.ltb_lt]; lia).
    intros h bs (Hframe & Hlen & Hrest).
    eexists _, _, _. split; [reflexivity|].
    assert (forall l h0,
              initial_cpb_removal_delay (set_initial_cpb_removal_delay l h0) = l
              /\ set_initial_cpb_removal_delay []
                   (set_initial_cpb_removal_delay l h0)
                 = set_initial_cpb_removal_delay [] h0) as Hset
      by (intros l h0; destruct h0; split; reflexivity).
    unfold storing_delays.
    destruct (Hset (<[Z.to_nat idx := v]> (initial_cpb_removal_delay h)) h)
      as [-> ->].
    split; [exact Hframe|]. split; [rewrite length_insert; exact Hlen|].
    intros i Hi. rewrite list_lookup_insert_ne by lia. apply Hrest, Hi.
  - intros _. apply dec_keeps_bind; [apply dec_keeps_read|]. intros _.
    apply IH; lia.
Qed.

(** X29: for an SPS whose [cpb_cnt_minus1] is at most 31,
    [gst_sei_decode_buffering_period] returns (with 0) and stays inside
    [initial_cpb_removal_delay]: it writes only the first
    [cpb_cnt_minus1 + 1] elements of the array, and nothing of it when the
    SPS has no HRD parameters; it makes the SPS current, creating a zeroed
    entry if there was none, sets [ts_trn_nb] to [dts], or to 0 when one of
    the two is [GST_CLOCK_TIME_NONE], and changes nothing else. *)
Theorem buffering_period_within_delay_array (h : GstH264Parse)
    (bs bs1 : GstNalBs) (v : Z) :
  gst_nal_bs_read_ue bs = (v, bs1) ->
  to_guint8 v < MAX_SPS_COUNT ->
  0 <= cpb_cnt_minus1 (sps_entry h (to_guint8 v)) <= 31 ->
  exists h' bs',
    gst_sei_decode_buffering_period h bs = Ret (0, h', bs') /\
    sps h' = Some (to_guint8 v) /\
    sps_buffers h'
    = <[to_guint8 v := sps_entry h (to_guint8 v)]> (sps_buffers h) /\
    ts_trn_nb h'
    = (if (ts_trn_nb h =? GST_CLOCK_TIME_NONE) || (dts h =? GST_CLOCK_TIME_NONE)
       then 0 else dts h) /\
    length (initial_cpb_removal_delay h')
    = length (initial_cpb_removal_delay h) /\
    (forall i : nat,
       cpb_cnt_minus1 (sps_entry h (to_guint8 v)) < Z.of_nat i ->
       initial_cpb_removal_delay h' !! i = initial_cpb_removal_delay h !! i) /\
    (nal_hrd_parameters_present_flag (sps_entry h (to_guint8 v)) = 0 ->
     vcl_hrd_parameters_present_flag (sps_entry h (to_guint8 v)) = 0 ->
     initial_cpb_removal_delay h' = initial_cpb_removal_delay h) /\
    set_initial_cpb_removal_delay [] (set_ts_trn_nb 0 (without_sps h'))
    = set_initial_cpb_removal_delay [] (set_ts_trn_nb 0 (without_sps h)).
Proof.
  intros Hread Hin Hcnt. unfold gst_sei_decode_buffering_period.
  rewrite (dec_bind_run _ _ h h bs bs1 v)
    by (unfold dec_read_ue; rewrite Hread; reflexivity).
  rewrite (dec_bind_run _ _ h h bs1 bs1 h) by reflexivity.
  cbv beta zeta.
  set (k := to_guint8 v) in *. set (s := sps_entry h k) in *.
  destruct (get_sps_in_range h k Hin)
    as (h1 & -> & Hbuf1 & (Hsps1 & (s1 & Hs1 & ->) & _ & Hframe1)).
  fold s in Hs1, Hbuf1.
  rewrite (dec_bind_run _ _ h h1 bs1 bs1 tt) by reflexivity.
  rewrite (dec_bind_run _ _ h1 h1 bs1 bs1 s)
    by (unfold sps_load; rewrite Hs1; reflexivity).
  assert (dec_keeps (storing_delays h1 (cpb_cnt_minus1 s))
            (sei_delay_loop (Z.to_nat (cpb_cnt_minus1 s + 1)) 0
               (initial_cpb_removal_delay_length_minus1 s))) as Hloop
    by (apply sei_delay_loop_keeps; lia).
  assert (storing_delays h1 (cpb_cnt_minus1 s) h1) as HJ1
    by (split; [reflexivity|]; split; [reflexivity|]; intros; reflexivity).
  destruct (dec_keeps_when _ (negb (nal_hrd_parameters_present_flag s =? 0))
              _ Hloop h1 bs1 HJ1) as ([] & h2 & bs2 & Hrun2 & HJ2).
  rewrite (dec_bind_run _ _ _ _ _ _ _ Hrun2).
  destruct (dec_keeps_when _ (negb (vcl_hrd_parameters_present_flag s =? 0))
              _ Hloop h2 bs2 HJ2) as ([] & h3 & bs3 & Hrun3 & HJ3).
  rewrite (dec_bind_run _ _ _ _ _ _ _ Hrun3).
  match goal with
  | |- context [dec_bind (dec_modify ?f) _ h3 bs3] =>
      rewrite (dec_bind_run _ _ h3 (f h3) bs3 bs3 tt) by reflexivity;
      set (h4 := f h3)
  end.
  exists h4, bs3. split; [reflexivity|].
  destruct HJ3 as (Hframe3 & Hlen3 & Hrest3).
  assert (forall (ha hb : GstH264Parse),
            set_initial_cpb_removal_delay [] ha
            = set_initial_cpb_removal_delay [] hb ->
            sps ha = sps hb /\ sps_buffers ha = sps_buffers hb /\
            ts_trn_nb ha = ts_trn_nb hb /\ dts ha = dts hb /\
            set_initial_cpb_removal_delay [] (set_ts_trn_nb 0 (without_sps ha))
            = set_initial_cpb_removal_delay [] (set_ts_trn_nb 0 (without_sps hb)))
    as Hfields.
  { intros ha hb Heq. destruct ha, hb. cbn in Heq.
    injection Heq as -> -> -> -> -> -> -> -> -> -> -> -> -> -> -> -> -> -> ->
      -> ->.
    repeat split. }
  destruct (Hfields _ _ Hframe3) as (Hsps3 & Hbuf3 & Hts3 & Hdts3 & Hrest).
  assert (ts_trn_nb h1 = ts_trn_nb h /\ dts h1 = dts h /\
          initial_cpb_removal_delay h1 = initial_cpb_removal_delay h /\
          set_initial_cpb_removal_delay [] (set_ts_trn_nb 0 (without_sps h1))
          = set_initial_cpb_removal_delay [] (set_ts_trn_nb 0 (without_sps h)))
    as (Hts1 & Hdts1 & Hinit1 & Hrest1).
  { clear -Hframe1. destruct h1, h. unfold without_sps in Hframe1.
    cbn in Hframe1.
    injection Hframe1 as -> -> -> -> -> -> -> -> -> -> -> -> -> -> -> -> -> ->
      -> ->.
    repeat split. }
  assert (sps h4 = sps h3 /\ sps_buffers h4 = sps_buffers h3 /\
          initial_cpb_removal_delay h4 = initial_cpb_removal_delay h3 /\
          ts_trn_nb h4
          = (if (ts_trn_nb h3 =? GST_CLOCK_TIME_NONE)
                || (dts h3 =? GST_CLOCK_TIME_NONE) then 0 else dts h3) /\
          set_initial_cpb_removal_delay [] (set_ts_trn_nb 0 (without_sps h4))
          = set_initial_cpb_removal_delay [] (set_ts_trn_nb 0 (without_sps h3)))
    as (Hsps4 & Hbuf4 & Hinit4 & Hts4 & Hrest4).
  { subst h4. cbv beta.
    destruct ((ts_trn_nb h3 =? GST_CLOCK_TIME_NONE)
              || (dts h3 =? GST_CLOCK_TIME_NONE)); destruct h3; repeat split. }
  split; [congruence|]. split; [congruence|].
  split; [rewrite Hts4, Hts3, Hdts3, Hts1, Hdts1; reflexivity|].
  split; [congruence|].
  split; [intros i Hi; rewrite Hinit4, <- Hinit1; apply Hrest3, Hi|].
  split; [|congruence].
  intros Hnal Hvcl. rewrite Hinit4, <- Hinit1.
  rewrite Hnal in Hrun2. rewrite Hvcl in Hrun3.
  cbn in Hrun2, Hrun3. injection Hrun2 as <- _. injection Hrun3 as <- _.
  reflexivity.
Qed.

Lemma buffering_period_within_delay_array_witness :
  exists h' bs',
    gst_sei_decode_buffering_period h264parse_hrd
      (gst_nal_bs_init sample_buffering_period)
    = Ret (0, h', bs') /\
    ts_trn_nb h' = 0 /\
    length (initial_cpb_removal_delay h') = 32%nat /\
    initial_cpb_removal_delay h' !! 1%nat = Some (-1).
Proof.
  destruct (buffering_period_within_delay_array h264parse_hrd
              (gst_nal_bs_init sample_buffering_period)
              (snd (gst_nal_bs_read_ue
                      (gst_nal_bs_init sample_buffering_period))) 0)
    as (h' & bs' & Hrun & _ & _ & Hts & Hlen & Hrest & _).
  - vm_compute; reflexivity.
  - vm_compute; reflexivity.
  - vm_compute; split; discriminate.
  - exists h', bs'. split; [exact Hrun|]. split; [exact Hts|].
    split; [exact Hlen|]. rewrite (Hrest 1%nat); [reflexivity|].
    vm_compute. reflexivity.
Defined.

(** ** Picture timing *)

Lemma dec_keeps_reading_ret {A : Type} (J : GstH264Parse -> Prop) (a : A) :
  dec_keeps_reading J (dec_ret a).
Proof.
  intros h bs HJ Hbs. eexists _, _, _. split; [reflexivity|]. split; assumption.
Qed.

Lemma dec_keeps_reading_bind {A B : Type} (J : GstH264Parse -> Prop)
    (m : Dec A) (k : A -> Dec B) :
  dec_keeps_reading J m -> (forall a, dec_keeps_reading J (k a)) ->
  dec_keeps_reading J (dec_bind m k).
Proof.
  intros Hm Hk h bs HJ Hbs.
  destruct (Hm h bs HJ Hbs) as (a & h1 & bs1 & Hrun & HJ1 & Hbs1).
  destruct (Hk a h1 bs1 HJ1 Hbs1) as (b & h2 & bs2 & Hrun2 & HJ2 & Hbs2).
  exists b, h2, bs2. split; [|split; assumption].
  rewrite (dec_bind_run _ _ _ _ _ _ _ Hrun). exact Hrun2.
Qed.

Lemma dec_read_bounded (n : Z) (h : GstH264Parse) (bs : GstNalBs) :
  0 <= n -> reader_ok bs ->
  exists v bs',
    dec_read n h bs = Ret (v, h, bs') /\ reader_ok bs' /\
    0 <= v < 2 ^ 32 /\ (n < 32 -> v < 2 ^ n).
Proof.
  intros Hn Hbs. unfold dec_read.
  pose proof (bs_read_bound bs n Hbs Hn) as Hbound.
  destruct (gst_nal_bs_read bs n) as [v bs'] eqn:Hread.
  exists v, bs'. split; [reflexivity|].
  split; [apply (gst_nal_bs_read_inv bs bs' n v Hbs Hn Hread)|exact Hbound].
Qed.

Lemma dec_keeps_reading_read (J : GstH264Parse -> Prop) (n : Z) :
  0 <= n -> dec_keeps_reading J (dec_read n).
Proof.
  intros Hn h bs HJ Hbs.
  destruct (dec_read_bounded n h bs Hn Hbs) as (v & bs' & Hrun & Hbs' & _).
  exists v, h, bs'. split; [exact Hrun|]. split; assumption.
Qed.

Lemma dec_keeps_reading_when (J : GstH264Parse -> Prop) (c : bool)
    (m : Dec unit) :
  dec_keeps_reading J m -> dec_keeps_reading J (dec_when c m).
Proof. intros Hm. destruct c; [exact Hm | apply dec_keeps_reading_ret]. Qed.

Lemma dec_keeps_reading_skip {A : Type} (J : GstH264Parse -> Prop)
    (m : Dec A) :
  dec_keeps_reading J m -> dec_keeps_reading J (dec_skip m).
Proof.
  intros Hm. apply dec_keeps_reading_bind; [exact Hm|].
  intros _. apply dec_keeps_reading_ret.
Qed.

Ltac dec_keeps_reading_go :=
  repeat match goal with
  | |- dec_keeps_reading _ (dec_bind _ _) =>
      apply dec_keeps_reading_bind; [|intros ?]
  | |- dec_keeps_reading _ (dec_ret _) => apply dec_keeps_reading_ret
  | |- dec_keeps_reading _ (dec_read _) =>
      apply dec_keeps_reading_read; lia
  | |- dec_keeps_reading _ (dec_when false _) =>
      exact (dec_keeps_reading_ret _ tt)
  | |- dec_keeps_reading _ (dec_when _ _) => apply dec_keeps_reading_when
  | |- dec_keeps_reading _ (dec_skip _) => apply dec_keeps_reading_skip
  | |- dec_keeps_reading _ (if ?c then _ else _) => destruct c
  end.

Lemma lor_bit_below_16 (a t : Z) :
  0 <= a < 16 -> 0 <= t < 4 -> 0 <= Z.lor a (Z.shiftl 1 t) < 16.
Proof.
  intros Ha Ht.
  assert (0 < Z.shiftl 1 t < 16) as Hb.
  { rewrite Z.shiftl_1_l. split; [apply Z.pow_pos_nonneg; lia|].
    change 16 with (2 ^ 4). apply Z.pow_lt_mono_r; lia. }
  split; [apply Z.lor_nonneg; lia|].
  change 16 with (2 ^ 4).
  assert (0 < Z.lor a (Z.shiftl 1 t)) as Hpos.
  { assert (0 <= Z.lor a (Z.shiftl 1 t)) by (apply Z.lor_nonneg; lia).
    destruct (Z.eq_dec (Z.lor a (Z.shiftl 1 t)) 0) as [Hz|]; [|lia].
    apply Z.lor_eq_0_iff in Hz. lia. }
  apply Z.log2_lt_pow2; [exact Hpos|].
  rewrite Z.log2_lor by lia.
  apply Z.max_lub_lt.
  - destruct (Z.eq_dec a 0) as [->|]; [cbn; lia|].
    apply Z.log2_lt_pow2; [lia|]. change (2 ^ 4) with 16. lia.
  - apply Z.log2_lt_pow2; [lia|]. change (2 ^ 4) with 16. lia.
Qed.

Lemma reading_clock_ts_mask (h0 h : GstH264Parse) (t : Z) :
  reading_clock_ts h0 h -> 0 <= t < 4 ->
  reading_clock_ts h0
    (set_sei_ct_type (Z.lor (sei_ct_type h) (Z.shiftl 1 t)) h).
Proof.
  intros (Hframe & Hcpb & Hdpb & Hpic & Hct) Ht.
  pose proof (lor_bit_below_16 _ _ Hct Ht) as Hmask.
  destruct h. cbn in *.
  split; [exact Hframe|]. split; [exact Hcpb|]. split; [exact Hdpb|].
  split; [exact Hpic|exact Hmask].
Qed.

(** One clock timestamp: the reads stay inside the reader's invariant, and
    the only field written is the mask [sei_ct_type]. *)
Lemma sei_clock_timestamp_keeps (h0 : GstH264Parse) (tol : Z) :
  dec_keeps_reading (reading_clock_ts h0) (sei_clock_timestamp tol).
Proof.
  intros h bs HJ Hbs. unfold sei_clock_timestamp.
  destruct (dec_read_bounded 2 h bs ltac:(lia) Hbs)
    as (ct & bs1 & Hrun & Hbs1 & _ & Hct).
  rewrite (dec_bind_run _ _ _ _ _ _ _ Hrun).
  assert (0 <= ct < 4) as Hct4.
  { specialize (Hct ltac:(lia)). change (2 ^ 2) with 4 in Hct.
    pose proof (bs_read_bound bs 2 Hbs ltac:(lia)) as [Hlow _].
    unfold dec_read in Hrun. destruct (gst_nal_bs_read bs 2) as [r b].
    injection Hrun as <- _. cbn [fst] in Hlow. lia. }
  pose proof (reading_clock_ts_mask h0 h ct HJ Hct4) as HJ1.
  match goal with
  | |- context [dec_bind (dec_modify ?f) ?k h bs1] =>
      change (dec_bind (dec_modify f) k h bs1) with (k tt (f h) bs1)
  end.
  cbv beta.
  match goal with
  | |- exists a h' bs', ?m ?h1 bs1 = _ /\ _ =>
      cut (dec_keeps_reading (reading_clock_ts h0) m);
        [intros Hrest; exact (Hrest h1 bs1 HJ1 Hbs1)|]
  end.
  destruct (Z.leb_spec 0 tol) as [Htol|Htol]; dec_keeps_reading_go.
Qed.

Lemma sei_clock_ts_loop_keeps (h0 : GstH264Parse) (count : nat) (tol : Z) :
  dec_keeps_reading (reading_clock_ts h0) (sei_clock_ts_loop count tol).
Proof.
  induction count as [|count IH]; cbn [sei_clock_ts_loop].
  - apply dec_keeps_reading_ret.
  - apply dec_keeps_reading_bind; [apply dec_keeps_reading_read; lia|].
    intros flag.
    apply dec_keeps_reading_bind; [|intros _; exact IH].
    apply dec_keeps_reading_when, sei_clock_timestamp_keeps.
Qed.

(** X30: [gst_sei_decode_picture_timing] with a current SPS whose two delay
    lengths are not negative, on a reader between two reads: it returns 0
    and never indexes [sei_num_clock_ts_table] outside its nine entries.  It
    writes at most the four [sei_] fields of the element: the two delays
    only when the SPS has NAL or VCL HRD parameters, and [sei_pic_struct]
    and [sei_ct_type] only when the SPS has [pic_struct_present_flag]; then
    [sei_pic_struct] is the 4-bit value read and [sei_ct_type] a mask of the
    bits 0 to 3, which is 0 when [sei_pic_struct] is above 8. *)
Theorem picture_timing_stays_in_clock_ts_table (h : GstH264Parse)
    (bs : GstNalBs) (k : Z) (s : GstH264Sps) :
  sps h = Some k ->
  sps_buffers h !! k = Some s ->
  0 <= bs_head bs < 8 ->
  0 <= cpb_removal_delay_length_minus1 s ->
  0 <= dpb_output_delay_length_minus1 s ->
  exists h' bs',
    gst_sei_decode_picture_timing h bs = Ret (0, h', bs') /\
    0 <= bs_head bs' < 8 /\
    without_sei h' = without_sei h /\
    (nal_hrd_parameters_present_flag s = 0 ->
     vcl_hrd_parameters_present_flag s = 0 ->
     sei_cpb_removal_delay h' = sei_cpb_removal_delay h /\
     sei_dpb_output_delay h' = sei_dpb_output_delay h) /\
    (pic_struct_present_flag s = 0 ->
     sei_pic_struct h' = sei_pic_struct h /\ sei_ct_type h' = sei_ct_type h) /\
    (pic_struct_present_flag s <> 0 ->
     0 <= sei_pic_struct h' < 16 /\ 0 <= sei_ct_type h' < 16 /\
     (SEI_PIC_STRUCT_FRAME_TRIPLING < sei_pic_struct h' ->
      sei_ct_type h' = 0)).
Proof.
  intros Hsps Hs Hbs Hcpb Hdpb. unfold gst_sei_decode_picture_timing.
  rewrite (dec_bind_run dec_h _ h h bs bs h eq_refl). cbv beta.
  rewrite Hsps.
  rewrite (dec_bind_run (sps_load (Some k)) _ h h bs bs s)
    by (unfold sps_load; rewrite Hs; reflexivity).
  (* the two delays *)
  assert (exists h1 bs1,
            dec_when (negb (nal_hrd_parameters_present_flag s =? 0)
                      || negb (vcl_hrd_parameters_present_flag s =? 0))
              (dec_bind (dec_read (cpb_removal_delay_length_minus1 s + 1))
                 (fun v =>
                    dec_bind (dec_modify (set_sei_cpb_removal_delay v))
                      (fun _ =>
                         dec_bind
                           (dec_read (dpb_output_delay_length_minus1 s + 1))
                           (fun v =>
                              dec_modify (set_sei_dpb_output_delay v)))))
              h bs
            = Ret (tt, h1, bs1) /\
            reader_ok bs1 /\
            without_sei h1 = without_sei h /\
            sei_pic_struct h1 = sei_pic_struct h /\
            sei_ct_type h1 = sei_ct_type h /\
            (nal_hrd_parameters_present_flag s = 0 ->
             vcl_hrd_parameters_present_flag s = 0 ->
             sei_cpb_removal_delay h1 = sei_cpb_removal_delay h /\
             sei_dpb_output_delay h1 = sei_dpb_output_delay h))
    as (h1 & bs1 & Hrun1 & Hbs1 & Hframe1 & Hpic1 & Hct1 & Hdelays1).
  { destruct (negb (nal_hrd_parameters_present_flag s =? 0)
              || negb (vcl_hrd_parameters_present_flag s =? 0)) eqn:Hhrd.
    - cbn [dec_when].
      destruct (dec_read_bounded (cpb_removal_delay_length_minus1 s + 1)
                  h bs ltac:(lia) Hbs) as (v1 & bsa & Hra & Hbsa & _).
      rewrite (dec_bind_run _ _ _ _ _ _ _ Hra).
      rewrite (dec_bind_run _ _ h (set_sei_cpb_removal_delay v1 h) bsa bsa tt)
        by reflexivity.
      destruct (dec_read_bounded (dpb_output_delay_length_minus1 s + 1)
                  (set_sei_cpb_removal_delay v1 h) bsa ltac:(lia) Hbsa)
        as (v2 & bsb & Hrb & Hbsb & _).
      rewrite (dec_bind_run _ _ _ _ _ _ _ Hrb).
      eexists _, bsb. split; [reflexivity|]. split; [exact Hbsb|].
      split; [destruct h; reflexivity|]. split; [destruct h; reflexivity|].
      split; [destruct h; reflexivity|].
      intros Hnal Hvcl. rewrite Hnal, Hvcl in Hhrd. discriminate Hhrd.
    - exists h, bs. split; [reflexivity|]. split; [exact Hbs|].
      split; [reflexivity|]. split; [reflexivity|]. split; [reflexivity|].
      intros _ _. split; reflexivity. }
  rewrite (dec_bind_run _ _ _ _ _ _ _ Hrun1).
  destruct (Z.eqb_spec (pic_struct_present_flag s) 0) as [Hflag|Hflag];
    cbn [negb].
  { exists h1, bs1. split; [reflexivity|]. split; [exact Hbs1|].
    split; [exact Hframe1|]. split; [exact Hdelays1|].
    split; [intros _; split; assumption|]. intros Hne. contradiction. }
  destruct (dec_read_bounded 4 h1 bs1 ltac:(lia) Hbs1)
    as (v & bs2 & Hrun2 & Hbs2 & Hv32 & Hv).
  specialize (Hv ltac:(lia)). change (2 ^ 4) with 16 in Hv.
  rewrite (dec_bind_run _ _ _ _ _ _ _ Hrun2).
  rewrite (dec_bind_run _ _ h1 (set_sei_pic_struct v h1) bs2 bs2 tt)
    by reflexivity.
  rewrite (dec_bind_run _ _ (set_sei_pic_struct v h1)
             (set_sei_ct_type 0 (set_sei_pic_struct v h1)) bs2 bs2 tt)
    by reflexivity.
  set (h2 := set_sei_ct_type 0 (set_sei_pic_struct v h1)).
  assert (without_sei h2 = without_sei h /\
          sei_cpb_removal_delay h2 = sei_cpb_removal_delay h1 /\
          sei_dpb_output_delay h2 = sei_dpb_output_delay h1 /\
          sei_pic_struct h2 = v /\ sei_ct_type h2 = 0)
    as (Hframe2 & Hcpb2 & Hdpb2 & Hpic2 & Hct2).
  { subst h2. rewrite <- Hframe1. destruct h1; repeat split. }
  unfold SEI_PIC_STRUCT_FRAME_TRIPLING.
  destruct (Z.ltb_spec 8 v) as [Hbig|Hsmall].
  { exists h2, bs2. split; [reflexivity|]. split; [exact Hbs2|].
    split; [exact Hframe2|].
    split; [intros Hnal Hvcl; rewrite Hcpb2, Hdpb2;
            exact (Hdelays1 Hnal Hvcl)|].
    split; [intros Hz; contradiction|]. intros _.
    rewrite Hpic2, Hct2. split; [lia|]. split; [lia|]. reflexivity. }
  assert (is_Some (sei_num_clock_ts_table !! Z.to_nat v)) as [n Hn].
  { apply lookup_lt_is_Some_2. cbn [sei_num_clock_ts_table length]. lia. }
  rewrite Hn.
  assert (reading_clock_ts h2 h2) as HJ2.
  { split; [reflexivity|]. split; [reflexivity|]. split; [reflexivity|].
    split; [reflexivity|]. rewrite Hct2. lia. }
  destruct (sei_clock_ts_loop_keeps h2 (Z.to_nat n)
              (time_offset_length_minus1 s) h2 bs2 HJ2 Hbs2)
    as ([] & h3 & bs3 & Hrun3 & (Hframe3 & Hcpb3 & Hdpb3 & Hpic3 & Hct3)
        & Hbs3).
  rewrite (dec_bind_run _ _ _ _ _ _ _ Hrun3).
  exists h3, bs3. split; [reflexivity|]. split; [exact Hbs3|].
  split; [rewrite Hframe3; exact Hframe2|].
  split; [intros Hnal Hvcl; rewrite Hcpb3, Hdpb3, Hcpb2, Hdpb2;
          exact (Hdelays1 Hnal Hvcl)|].
  split; [intros Hz; contradiction|]. intros _.
  rewrite Hpic3, Hpic2. split; [lia|]. split; [exact Hct3|]. lia.
Qed.

Lemma picture_timing_stays_in_clock_ts_table_witness :
  exists h' bs',
    gst_sei_decode_picture_timing h264parse_pic_struct
      (gst_nal_bs_init sample_picture_timing)
    = Ret (0, h', bs') /\
    0 <= sei_pic_struct h' < 16 /\ 0 <= sei_ct_type h' < 16.
Proof.
  destruct (picture_timing_stays_in_clock_ts_table h264parse_pic_struct
              (gst_nal_bs_init sample_picture_timing) 0
              sample_sps_pic_struct)
    as (h' & bs' & Hrun & _ & _ & _ & _ & Hpic).
  - reflexivity.
  - vm_compute; reflexivity.
  - vm_compute; split; [discriminate|reflexivity].
  - vm_compute; discriminate.
  - vm_compute; discriminate.
  - exists h', bs'. split; [exact Hrun|].
    destruct Hpic as (Hp & Hc & _); [vm_compute; discriminate|].
    split; assumption.
Defined.

(** ** The forward path in byte-stream mode, pass by pass *)

Lemma forward_taken_fields (h : GstH264Parse) (pos : Z) :
  packetized (forward_taken h pos) = packetized h /\
  split_packetized (forward_taken h pos) = split_packetized h /\
  nal_length_size (forward_taken h pos) = nal_length_size h.
Proof. destruct h as [? ? ? ? [] ? ? ? ? ? ? ? ? ? ? ? ? ? ? ? ? ?]; repeat split. Qed.

(** The call on a buffer that brings no discontinuity: the buffer is added
    to the adapter and the loop runs. *)
Lemma chain_forward_continue (gst_pad_push : GstBuffer -> GstFlowReturn)
    (h : GstH264Parse) (buffer : GstBuffer) :
  gst_h264_parse_chain_forward gst_pad_push h false buffer
  = chain_forward_loop gst_pad_push (length (adapter h ++ buf_data buffer))
      (buf_timestamp buffer)
      (set_adapter (adapter h ++ buf_data buffer) h).
Proof. destruct h; reflexivity. Qed.

Lemma set_adapter_fields (data : list Z) (h : GstH264Parse) :
  adapter (set_adapter data h) = data /\
  packetized (set_adapter data h) = packetized h /\
  nal_length_size (set_adapter data h) = nal_length_size h /\
  discont (set_adapter data h) = discont h.
Proof. destruct h; repeat split. Qed.

(** The delta-unit flag of a slice NAL. *)
Lemma forward_delta_unit_slice (d : list Z) (b : Z) :
  NAL_SLICE <= Z.land b 0x1f <= NAL_SLICE_IDR ->
  forward_delta_unit (b :: d)
  = Ret (negb (slice_type_is_i (forward_slice_type d))).
Proof.
  intros [Hlo Hhi]. unfold forward_delta_unit, forward_slice_type.
  rewrite byte_at_head. cbn [run_bind].
  assert ((NAL_SLICE <=? Z.land b 31) && (Z.land b 31 <=? NAL_SLICE_IDR)
          = true) as ->.
  { apply andb_true_intro. split; apply Z.leb_le; assumption. }
  change (drop 1 (b :: d)) with d.
  destruct (gst_nal_bs_read_ue (gst_nal_bs_init d)) as [first_mb bs1].
  destruct (gst_nal_bs_read_ue bs1) as [stype bs2]. reflexivity.
Qed.

(** A pass over an adapter without a later start code: the loop waits for
    more data. *)
Lemma forward_loop_waits (gst_pad_push : GstBuffer -> GstFlowReturn)
    (fuel : nat) (timestamp : Z) (h : GstH264Parse) :
  packetized h = false ->
  nal_length_size h = 4 ->
  (forall j : nat,
     (1 <= j)%nat -> (j + 4 < length (adapter h))%nat ->
     ~ start_code_at (adapter h) j) ->
  chain_forward_loop gst_pad_push fuel timestamp h = Ret (GST_FLOW_OK, h, []).
Proof.
  intros Hpk Hnls Hnone. rewrite chain_forward_loop_unfold, Hnls.
  change (to_guint32 (4 + 1)) with 5.
  destruct (Z.ltb_spec (Z.of_nat (length (adapter h))) 5) as [Hlt|Hge];
    [reflexivity|].
  unfold forward_next_nalu_pos. rewrite Hpk. cbn [negb run_bind].
  rewrite (find_next_nalu_none (drop 1 (adapter h)) 1).
  2: { intros j Hj (H0 & H1 & H2 & H3). rewrite length_drop in Hj.
       apply (Hnone (S j)); [lia | lia |].
       rewrite !lookup_drop in H0, H1, H2, H3.
       repeat split; assumption. }
  destruct (drop (Z.to_nat 4) (adapter h)) as [|b d] eqn:Hdrop.
  { apply (f_equal length) in Hdrop. rewrite length_drop in Hdrop.
    cbn in Hdrop. lia. }
  destruct (forward_delta_unit_total d b) as [delta ->]. reflexivity.
Qed.

(** A pass over an adapter whose first later start code is at [p]: the
    bytes in front of it are pushed as one buffer. *)
Lemma forward_loop_takes (gst_pad_push : GstBuffer -> GstFlowReturn)
    (fuel : nat) (timestamp : Z) (h : GstH264Parse) (p : nat)
    (delta : bool) :
  packetized h = false ->
  nal_length_size h = 4 ->
  (1 <= p)%nat -> (p + 4 < length (adapter h))%nat ->
  start_code_at (adapter h) p ->
  (forall j : nat, (1 <= j < p)%nat -> ~ start_code_at (adapter h) j) ->
  forward_delta_unit (drop 4 (adapter h)) = Ret delta ->
  chain_forward_loop gst_pad_push (S fuel) timestamp h
  = (let outbuf := forward_outbuf timestamp h (Z.of_nat p) delta in
     if flow_is_ok (gst_pad_push outbuf) then
       let+ '(res, h2, out) :=
         chain_forward_loop gst_pad_push fuel timestamp
           (forward_taken h (Z.of_nat p)) in
       Ret (res, h2, outbuf :: out)
     else Ret (gst_pad_push outbuf, forward_taken h (Z.of_nat p), [outbuf])).
Proof.
  intros Hpk Hnls Hp Hlen Hsc Hfirst Hdelta.
  rewrite chain_forward_loop_unfold, Hnls.
  change (to_guint32 (4 + 1)) with 5.
  destruct (Z.ltb_spec (Z.of_nat (length (adapter h))) 5) as [Hlt|_]; [lia|].
  unfold forward_next_nalu_pos. rewrite Hpk. cbn [negb run_bind].
  rewrite (find_next_nalu_found (drop 1 (adapter h)) 1 (p - 1)).
  - change (Z.to_nat 4) with 4%nat. rewrite Hdelta. cbn [run_bind].
    replace (1 + Z.of_nat (p - 1)) with (Z.of_nat p) by lia.
    destruct (Z.ltb_spec 0 (Z.of_nat p)) as [_|Hle]; [reflexivity|lia].
  - destruct Hsc as (H0 & H1 & H2 & H3). unfold start_code_at.
    rewrite !lookup_drop.
    replace (1 + (p - 1))%nat with p by lia.
    replace (1 + S (p - 1))%nat with (S p) by lia.
    replace (1 + S (S (p - 1)))%nat with (S (S p)) by lia.
    replace (1 + S (S (S (p - 1))))%nat with (S (S (S p))) by lia.
    repeat split; assumption.
  - rewrite length_drop. lia.
  - intros j Hj (H0 & H1 & H2 & H3).
    apply (Hfirst (S j)); [lia|].
    rewrite !lookup_drop in H0, H1, H2, H3.
    repeat split; assumption.
Qed.

(** The loop loses no byte: what it pushed and what it left in the adapter
    are the adapter it started with. *)
Lemma forward_loop_bytes (gst_pad_push : GstBuffer -> GstFlowReturn)
    (fuel : nat) (timestamp : Z) (h h' : GstH264Parse) (res : GstFlowReturn)
    (out : list GstBuffer) :
  chain_forward_loop gst_pad_push fuel timestamp h = Ret (res, h', out) ->
  concat (buf_data <$> out) ++ adapter h' = adapter h.
Proof.
  intros Hloop.
  apply (chain_forward_loop_passes gst_pad_push timestamp
           (fun h0 _ h1 out =>
              concat (buf_data <$> out) ++ adapter h1 = adapter h0))
    in Hloop; [exact Hloop| | |].
  - intros h0. reflexivity.
  - intros h0 pos delta _ _ _.
    destruct (forward_taken_frame h0 pos) as (_ & Had & _).
    rewrite Had. cbn. rewrite app_nil_r. apply take_drop.
  - intros h0 pos delta res2 h2 out2 _ _ _ Hbytes.
    destruct (forward_taken_frame h0 pos) as (_ & Had & _).
    cbn [fmap list_fmap concat forward_outbuf buf_data].
    rewrite <- app_assoc.
    change (list_fmap _ _ buf_data out2) with (buf_data <$> out2).
    rewrite Hbytes, Had. apply take_drop.
Qed.

(** C5, as the code has it: a byte-stream buffer that holds a start code,
    an SPS NAL, a second start code and an IDR slice, with no other start
    code in it, arrives at an empty adapter.  That call of
    [gst_h264_parse_chain_forward] pushes one unit, the first start code
    with the SPS, with a cleared delta-unit flag; the second start code and
    the IDR slice stay in the adapter.  They stay there until a later start
    code arrives: a following buffer that completes no start code behind
    them is only added to the adapter and nothing is pushed; a following
    buffer that brings one makes the call push the second unit first, the
    second start code and everything up to the later start code, and when
    the slice type decoded behind the IDR header is an I type that unit
    carries a cleared delta-unit flag.  The bytes behind the later start
    code are pushed after it or kept in the adapter. *)
Theorem forward_sps_idr_second_unit_at_next_start_code
    (gst_pad_push : GstBuffer -> GstFlowReturn) (h : GstH264Parse)
    (sps_hdr idr_hdr : Z) (sps_body idr_body : list Z) (buf : GstBuffer) :
  packetized h = false ->
  nal_length_size h = 4 ->
  adapter h = [] ->
  Z.land sps_hdr 0x1f = NAL_SPS ->
  Z.land idr_hdr 0x1f = NAL_SLICE_IDR ->
  buf_data buf
  = start_code ++ (sps_hdr :: sps_body) ++ start_code ++ idr_hdr :: idr_body ->
  (forall j : nat,
     (1 <= j < 4 + length (sps_hdr :: sps_body))%nat ->
     ~ start_code_at (buf_data buf) j) ->
  (forall j : nat,
     (1 <= j)%nat ->
     (j + 4 < length (start_code ++ idr_hdr :: idr_body))%nat ->
     ~ start_code_at (start_code ++ idr_hdr :: idr_body) j) ->
  exists res h1,
    gst_h264_parse_chain_forward gst_pad_push h false buf
    = Ret (res, h1,
           [ {| buf_data := start_code ++ sps_hdr :: sps_body;
                buf_timestamp := buf_timestamp buf;
                buf_discont := discont h;
                buf_delta_unit := false |} ]) /\
    adapter h1 = start_code ++ idr_hdr :: idr_body /\
    (forall next : GstBuffer,
       (forall j : nat,
          (1 <= j)%nat ->
          (j + 4 < length (adapter h1 ++ buf_data next))%nat ->
          ~ start_code_at (adapter h1 ++ buf_data next) j) ->
       gst_h264_parse_chain_forward gst_pad_push h1 false next
       = Ret (GST_FLOW_OK, set_adapter (adapter h1 ++ buf_data next) h1, []))
    /\
    (forall (next : GstBuffer) (p : nat),
       (1 <= p)%nat ->
       (p + 4 < length (adapter h1 ++ buf_data next))%nat ->
       start_code_at (adapter h1 ++ buf_data next) p ->
       (forall j : nat,
          (1 <= j < p)%nat ->
          ~ start_code_at (adapter h1 ++ buf_data next) j) ->
       slice_type_is_i (forward_slice_type (idr_body ++ buf_data next))
       = true ->
       exists res2 h2 out2,
         gst_h264_parse_chain_forward gst_pad_push h1 false next
         = Ret (res2, h2,
                {| buf_data := take p (adapter h1 ++ buf_data next);
                   buf_timestamp := buf_timestamp next;
                   buf_discont := false;
                   buf_delta_unit := false |} :: out2) /\
         concat (buf_data <$> out2) ++ adapter h2
         = drop p (adapter h1 ++ buf_data next)).
Proof.
  intros Hpk Hnls Had Hsps_hdr Hidr_hdr Hdata Hsps Hnone.
  set (k := (4 + length (sps_hdr :: sps_body))%nat).
  set (h0 := set_adapter (adapter h ++ buf_data buf) h).
  destruct (set_adapter_fields (adapter h ++ buf_data buf) h)
    as (Had0 & Hpk0 & Hnls0 & Hdc0).
  fold h0 in Had0, Hpk0, Hnls0, Hdc0.
  rewrite Had in Had0. cbn [app] in Had0.
  rewrite Hpk in Hpk0. rewrite Hnls in Hnls0.
  assert (buf_data buf
          = (start_code ++ sps_hdr :: sps_body)
            ++ (start_code ++ idr_hdr :: idr_body)) as Hsplit
    by (rewrite Hdata, <- !app_assoc; reflexivity).
  assert (length (start_code ++ sps_hdr :: sps_body) = k) as Hk
    by (subst k; rewrite length_app; reflexivity).
  assert (length (buf_data buf) = S (k + (4 + length idr_body))) as Hlen.
  { rewrite Hsplit, length_app, Hk, length_app. cbn [length start_code].
    lia. }
  assert (take k (buf_data buf) = start_code ++ sps_hdr :: sps_body)
    as Htake by (rewrite Hsplit, <- Hk; apply take_app_length).
  assert (drop k (buf_data buf) = start_code ++ idr_hdr :: idr_body)
    as Hdrop by (rewrite Hsplit, <- Hk; apply drop_app_length).
  (* the first call *)
  set (h1 := forward_taken h0 (Z.of_nat k)).
  destruct (forward_taken_frame h0 (Z.of_nat k)) as (_ & Had1 & Hdc1).
  destruct (forward_taken_fields h0 (Z.of_nat k)) as (Hpk1 & _ & Hnls1).
  fold h1 in Had1, Hdc1, Hpk1, Hnls1.
  rewrite Had0, Nat2Z.id, Hdrop in Had1.
  rewrite Hpk0 in Hpk1. rewrite Hnls0 in Hnls1.
  assert (exists res,
            gst_h264_parse_chain_forward gst_pad_push h false buf
            = Ret (res, h1,
                   [ {| buf_data := start_code ++ sps_hdr :: sps_body;
                        buf_timestamp := buf_timestamp buf;
                        buf_discont := discont h;
                        buf_delta_unit := false |} ])) as [res Hfirst].
  { rewrite chain_forward_continue. fold h0.
    rewrite Had, app_nil_l, Hlen.
    rewrite (forward_loop_takes gst_pad_push _ (buf_timestamp buf) h0 k false
               Hpk0 Hnls0).
    - unfold forward_outbuf. rewrite Had0, Nat2Z.id, Htake, Hdc0.
      cbv zeta. fold h1.
      rewrite (forward_loop_waits gst_pad_push _ (buf_timestamp buf) h1
                 Hpk1 Hnls1)
        by (rewrite Had1; exact Hnone).
      cbn [run_bind].
      destruct (flow_is_ok _); eexists; reflexivity.
    - subst k. cbn [length]. lia.
    - rewrite Had0, Hlen. lia.
    - rewrite Had0. unfold start_code_at.
      replace k with (k + 0)%nat at 1 by lia.
      replace (S k) with (k + 1)%nat by lia.
      replace (S (k + 1)) with (k + 2)%nat by lia.
      replace (S (k + 2)) with (k + 3)%nat by lia.
      rewrite <- !(lookup_drop (buf_data buf) k), Hdrop.
      repeat split; reflexivity.
    - intros j Hj. rewrite Had0. apply Hsps. subst k. lia.
    - rewrite Had0, Hdata. cbn [app start_code drop].
      apply forward_delta_unit_sps, Hsps_hdr. }
  exists res, h1. split; [exact Hfirst|]. split; [exact Had1|].
  split.
  - (* no later start code: the call waits *)
    intros next Hwait.
    rewrite chain_forward_continue.
    destruct (set_adapter_fields (adapter h1 ++ buf_data next) h1)
      as (Had2 & Hpk2 & Hnls2 & _).
    apply forward_loop_waits; [congruence | congruence |].
    rewrite Had2. exact Hwait.
  - (* a later start code: the second unit is pushed *)
    intros next p Hp Hlenp Hsc Hfirstp Hitype.
    rewrite chain_forward_continue.
    set (data := adapter h1 ++ buf_data next) in *.
    set (h2 := set_adapter data h1).
    destruct (set_adapter_fields data h1) as (Had2 & Hpk2 & Hnls2 & Hdc2).
    fold h2 in Had2, Hpk2, Hnls2, Hdc2.
    rewrite Hpk1 in Hpk2. rewrite Hnls1 in Hnls2. rewrite Hdc1 in Hdc2.
    assert (exists fuel, length data = S fuel) as [fuel Hfuel]
      by (exists (length data - 1)%nat; lia).
    assert (forward_delta_unit (drop 4 data) = Ret false) as Hdelta.
    { subst data. rewrite Had1. cbn [app start_code drop].
      rewrite (forward_delta_unit_slice (idr_body ++ buf_data next) idr_hdr).
      - rewrite Hitype. reflexivity.
      - rewrite Hidr_hdr. unfold NAL_SLICE, NAL_SLICE_IDR. lia. }
    rewrite Hfuel.
    rewrite (forward_loop_takes gst_pad_push fuel (buf_timestamp next) h2 p
               false Hpk2 Hnls2 Hp)
      by (rewrite ?Had2; assumption).
    unfold forward_outbuf. rewrite Had2, Nat2Z.id, Hdc2. cbv zeta.
    destruct (forward_taken_frame h2 (Z.of_nat p)) as (_ & Had3 & _).
    destruct (forward_taken_fields h2 (Z.of_nat p)) as (_ & _ & Hnls3).
    rewrite Had2, Nat2Z.id in Had3. rewrite Hnls2 in Hnls3.
    destruct (flow_is_ok _).
    + destruct (chain_forward_loop_total gst_pad_push fuel
                  (buf_timestamp next) (forward_taken h2 (Z.of_nat p)))
        as (res2 & h3 & out2 & Hrest).
      * rewrite Hnls3. lia.
      * rewrite Had3, length_drop. lia.
      * rewrite Hrest. cbn [run_bind].
        exists res2, h3, out2. split; [reflexivity|].
        rewrite (forward_loop_bytes _ _ _ _ _ _ _ Hrest). exact Had3.
    + eexists _, _, []. split; [reflexivity|]. exact Had3.
Qed.

Lemma forward_sps_idr_second_unit_at_next_start_code_witness :
  exists res h1 res2 h2 out2,
    gst_h264_parse_chain_forward push_ok h264parse_init false sample_bytestream
    = Ret (res, h1,
           [MkBuffer (start_code ++ sample_sps_nal) 7 false false]) /\
    adapter h1 = start_code ++ sample_idr_nal /\
    gst_h264_parse_chain_forward push_ok h1 false sample_next_bytestream
    = Ret (res2, h2,
           MkBuffer (start_code ++ sample_idr_nal) 8 false false :: out2).
Proof.
  destruct (forward_sps_idr_second_unit_at_next_start_code push_ok
              h264parse_init 0x67 0x65 sample_sps [0xb8; 0x40; 0x01; 0x7f]
              sample_bytestream)
    as (res & h1 & Hfirst & Had1 & _ & Hnext); try reflexivity.
  - intros j Hj (H0 & H1 & H2 & H3).
    do 12 (destruct j as [|j]; [first [lia | discriminate]|]).
    cbn in Hj. lia.
  - intros j Hj Hlen (H0 & H1 & H2 & H3).
    do 5 (destruct j as [|j]; [first [lia | discriminate]|]).
    cbn in Hlen. lia.
  - destruct (Hnext sample_next_bytestream 9%nat)
      as (res2 & h2 & out2 & Hsecond & _).
    + lia.
    + rewrite Had1. cbn. lia.
    + rewrite Had1. repeat split; reflexivity.
    + rewrite Had1. intros j Hj (H0 & H1 & H2 & H3).
      do 9 (destruct j as [|j]; [first [lia | discriminate]|]).
      lia.
    + vm_compute. reflexivity.
    + exists res, h1, res2, h2, out2.
      split; [exact Hfirst|]. split; [exact Had1|].
      rewrite Hsecond, Had1. reflexivity.
Defined.
